(** * ews-gis-assets: change detection, the obstacle parser and the
      permitting normalizer

    A shallow embedding of [ews_gis_assets/helpers.py],
    [ews_gis_assets/austro_control.py] and [ews_gis_assets/noe.py].

    Python exceptions are values of [exn] carried by the [result] monad,
    the file system is a finite map from paths to file contents, and the
    float64 and datetime64 primitives of pandas and numpy are the fields
    of the class [Pandas]: the properties below are about the control flow
    and the data flow of the repository's functions, whatever those
    primitives compute. *)

From Stdlib Require Import ZArith NArith Lia.
From Stdlib Require Import Ascii String DecimalString DecimalN.
From stdpp Require Import gmap strings list fin_maps sorting.

Set Warnings "-register-all".
Local Open Scope string_scope.
Local Open Scope Z_scope.

(** ** Python runtime: exceptions and strings *)

Module Py.

(** What a [ValueError] of the three modules says. *)
Inductive error_msg : Type :=
  (** a cell that a numeric or date conversion cannot parse *)
  | Unparseable (cell : string)
  (** ["Unmapped columns found: [..]"] *)
  | UnmappedColumns (cols : list string)
  (** [.x] or [.y] of a geometry that is not a point *)
  | NotAPoint.

(** The exception classes the three modules can raise. *)
Inductive exn : Type :=
  | KeyError (keys : list string)
  | IndexError
  | TypeError
  | ValueError (msg : error_msg)
  | AttributeError
  | AssertionError
  | ParseError.

Inductive result (A : Type) : Type :=
  | Ok (a : A)
  | Raise (e : exn).
Arguments Ok {A} a.
Arguments Raise {A} e.

Definition bind {A B} (m : result A) (k : A → result B) : result B :=
  match m with
  | Ok a => k a
  | Raise e => Raise e
  end.

Definition of_option {A} (e : exn) (o : option A) : result A :=
  match o with
  | Some a => Ok a
  | None => Raise e
  end.

(** [for x in l: ...] with a body that may raise: the first failure, in
    list order, aborts the loop. *)
Fixpoint collect {A B} (f : A → result B) (l : list A) : result (list B) :=
  match l with
  | [] => Ok []
  | x :: l' =>
      bind (f x) (fun y => bind (collect f l') (fun ys => Ok (y :: ys)))
  end.

Fixpoint foldM {A S} (f : S → A → result S) (l : list A) (s : S) : result S :=
  match l with
  | [] => Ok s
  | x :: l' => bind (f s x) (foldM f l')
  end.

(** [str.isspace] on one character (code points below 256). *)
Definition isspace (c : ascii) : bool :=
  let n := N_of_ascii c in
  ((9 <=? n) && (n <=? 13) || (28 <=? n) && (n <=? 32)
   || (n =? 133) || (n =? 160))%N.

Fixpoint lstrip (s : string) : string :=
  match s with
  | EmptyString => EmptyString
  | String c s' => if isspace c then lstrip s' else s
  end.

Fixpoint rstrip (s : string) : string :=
  match s with
  | EmptyString => EmptyString
  | String c s' =>
      match rstrip s' with
      | EmptyString => if isspace c then EmptyString else String c EmptyString
      | r => String c r
      end
  end.

(** [s.strip()] *)
Definition strip (s : string) : string := rstrip (lstrip s).

(** [s.startswith(p)] *)
Definition startswith (s p : string) : bool := String.prefix p s.

Fixpoint endswith_aux (s p : string) : bool :=
  String.eqb s p ||
  match s with
  | EmptyString => false
  | String _ s' => endswith_aux s' p
  end.

(** [s.endswith(p)] *)
Definition endswith (s p : string) : bool := endswith_aux s p.

(** [s.replace(old, new)] for a non-empty [old]: non-overlapping
    occurrences, left to right.  [skip] counts the characters of a matched
    occurrence still to be consumed. *)
Fixpoint replace_from (old new : string) (skip : nat) (s : string) : string :=
  match s with
  | EmptyString => EmptyString
  | String c s' =>
      match skip with
      | S k => replace_from old new k s'
      | O =>
          if String.prefix old s
          then new ++ replace_from old new (Nat.pred (String.length old)) s'
          else String c (replace_from old new O s')
      end
  end.

Definition replace (old new s : string) : string := replace_from old new 0 s.

(** [s.split(sep)] for a non-empty [sep].  [cur] is the token being read,
    reversed; empty tokens are kept, as Python keeps them. *)
Fixpoint split_from (sep : string) (skip : nat) (cur : list ascii) (s : string)
  : list string :=
  match s with
  | EmptyString => [string_of_list_ascii (rev cur)]
  | String c s' =>
      match skip with
      | S k => split_from sep k cur s'
      | O =>
          if String.prefix sep s
          then string_of_list_ascii (rev cur)
               :: split_from sep (Nat.pred (String.length sep)) [] s'
          else split_from sep O (c :: cur) s'
      end
  end.

Definition split (sep s : string) : list string := split_from sep 0 [] s.

(** [s.split(sep, 1)]: at most one cut. *)
Fixpoint split1_from (sep : string) (cur : list ascii) (s : string)
  : list string :=
  match s with
  | EmptyString => [string_of_list_ascii (rev cur)]
  | String c s' =>
      if String.prefix sep s
      then [string_of_list_ascii (rev cur);
            String.substring (String.length sep) (String.length s) s]
      else split1_from sep (c :: cur) s'
  end.

Definition split1 (sep s : string) : list string := split1_from sep [] s.

(** [str(n)] for a non-negative integer. *)
Definition str_of_N (n : N) : string := NilEmpty.string_of_uint (N.to_uint n).

End Py.

Export Py.

#[export] Instance result_bind : MBind result := fun A B k m => Py.bind m k.
#[export] Instance result_ret : MRet result := @Py.Ok.
#[export] Instance result_fmap : FMap result := fun A B f m =>
  match m with Ok a => Ok (f a) | Raise e => Raise e end.

(** Python list indexing [l[i]] with a possibly negative index. *)
Definition py_index {A} (l : list A) (i : Z) : result A :=
  let n := Z.of_nat (length l) in
  if (0 <=? i) && (i <? n) then of_option IndexError (l !! Z.to_nat i)
  else if (i <? 0) && (- n <=? i) then of_option IndexError (l !! Z.to_nat (n + i))
  else Raise IndexError.

(** ** The primitives of pandas, numpy and the XML and HTTP libraries

    What the numeric and date parsers compute is not part of this
    development: they are the fields of [Pandas], over a type of float64
    values and a type of datetime64 values.  [None] stands for the
    exception the primitive raises on a value it cannot convert. *)

Class Pandas (float64 datetime64 : Type) := {
  float64_eq_dec :: EqDecision float64;
  (** the null of a float column *)
  NaN : float64;
  (** [pd.to_numeric] on one string *)
  to_numeric : string → option float64;
  (** [np.asarray(.., dtype="float64")] on one string *)
  float_of_str : string → option float64;
  float_sub : float64 → float64 → float64;
  (** [Series.round(decimals)] on one value *)
  round : nat → float64 → float64;
  (** [astype("int")] on one string of an object column *)
  int_of_str : string → option Z;
  datetime64_eq_dec :: EqDecision datetime64;
  (** [pd.to_datetime(.., format="%d.%m.%Y")] on one string *)
  to_datetime : string → option datetime64;
  (** the integer [pd.to_numeric] reads from a string that spells one (no
      point, no exponent), from -2^63 to 2^64 - 1: such a cell counts as
      an integer; [None] for every other string *)
  to_numeric_int : string → option Z;
  (** [pd.to_numeric] reads the empty string as a null, not as an
      integer *)
  to_numeric_empty : to_numeric "" = Some NaN;
  to_numeric_int_empty : to_numeric_int "" = None;
}.

(** A GeoDataFrame: the rows with their index labels, in frame order, and
    the coordinate reference system (an EPSG code) when one is set. *)
Record GeoDataFrame (R : Type) : Type := mkGeoDataFrame {
  records : list (Z * R);
  crs : option Z;
}.
Arguments mkGeoDataFrame {R} records crs.
Arguments records {R} g.
Arguments crs {R} g.

(** The labels of a [RangeIndex]: [0, 1, ..] *)
Definition range_index {A} (l : list A) : list (Z * A) :=
  imap (fun i x => (Z.of_nat i, x)) l.

(** ** helpers.py *)

Module Helpers.

Section Hash.
Context {R : Type}.
(** [pd.util.hash_pandas_object(.., index=True)] gives one uint64 per
    row, computed from the row's index label and its cells. *)
Variable row_hash : Z → R → Z.

Definition uint64 (z : Z) : Z := z mod 2 ^ 64.

Definition hash_pandas_object (gdf : GeoDataFrame R) : list Z :=
  map (fun ir => uint64 (row_hash ir.1 ir.2)) (records gdf).

(** [Series.sum()] of a uint64 series wraps around. *)
Definition series_sum (hs : list Z) : Z :=
  foldr (fun h acc => uint64 (h + acc)) 0 hs.

Definition calculate_gdf_hash (gdf : GeoDataFrame R) : string :=
  let content_hash := series_sum (hash_pandas_object gdf) in
  str_of_N (Z.to_N content_hash).

(** The file system seen by [is_data_updated]: a path that exists maps
    to the text [f.read()] returns. *)
Definition is_data_updated (gdf : GeoDataFrame R) (hash_file : string)
    (fs : gmap string string) : bool * gmap string string :=
  let new_hash := calculate_gdf_hash gdf in
  let unchanged :=
    match fs !! hash_file with
    | Some content =>
        let last_hash := strip content in
        String.eqb new_hash last_hash
    | None => false
    end in
  if unchanged then (false, fs)
  else (true, <[hash_file := new_hash]> fs).
End Hash.

End Helpers.

(** ** The pandas operations on one column that both pipelines use *)

Module Series.

Section Column.
Context {A : Type} `{EqDecision A}.

(** [s.duplicated(keep="first")]: a value is marked when it already
    occurred above. *)
Fixpoint duplicated_from (seen l : list A) : list bool :=
  match l with
  | [] => []
  | x :: l' => bool_decide (x ∈ seen) :: duplicated_from (x :: seen) l'
  end.

Definition duplicated (l : list A) : list bool := duplicated_from [] l.

(** [s.duplicated(keep=False)]: every occurrence of a repeated value is
    marked. *)
Definition occurrences (x : A) (l : list A) : nat :=
  length (filter (fun y => y = x) l).

Definition duplicated_all (l : list A) : list bool :=
  map (fun x => bool_decide (2 ≤ occurrences x l)%nat) l.

(** [.sum()] of a boolean series *)
Definition count_true (bs : list bool) : nat :=
  length (filter (fun b => b = true) bs).
End Column.

(** Boolean indexing [s[mask]], on a series carried with its labels. *)
Fixpoint mask_select {B} (l : list B) (mask : list bool) : list B :=
  match l, mask with
  | x :: l', b :: mask' =>
      if b then x :: mask_select l' mask' else mask_select l' mask'
  | _, _ => []
  end.

(** The stable sort behind [sorted] and [sort_values]: an element goes in
    front of the first element it is not greater than. *)
Fixpoint insert_by {B} (le : B → B → bool) (x : B) (l : list B) : list B :=
  match l with
  | [] => [x]
  | y :: l' => if le x y then x :: l else y :: insert_by le x l'
  end.

Definition sorted_by {B} (le : B → B → bool) (l : list B) : list B :=
  foldr (insert_by le) [] l.

End Series.

(** ** austro_control.py *)

Module AustroControl.

(** An [xml.etree.ElementTree] element. *)
Inductive element : Type :=
  | Element (tag : string) (attrib : list (string * string))
            (text : option string) (children : list element).

Definition tag (e : element) : string :=
  match e with Element t _ _ _ => t end.
Definition attrib (e : element) : list (string * string) :=
  match e with Element _ a _ _ => a end.
Definition text (e : element) : option string :=
  match e with Element _ _ t _ => t end.
Definition children (e : element) : list element :=
  match e with Element _ _ _ cs => cs end.

(** All elements below [e], in document order. *)
Fixpoint descendants (e : element) : list element :=
  match e with
  | Element _ _ _ cs =>
      (fix below (l : list element) : list element :=
         match l with
         | [] => []
         | c :: l' => c :: descendants c ++ below l'
         end) cs
  end.

Definition has_tag (t : string) (e : element) : bool := String.eqb (tag e) t.

(** [root.iter(tag=t)]: the element itself and its descendants. *)
Definition iter (t : string) (e : element) : list element :=
  List.filter (has_tag t) (e :: descendants e).

(** [e.findall(".//t")] *)
Definition findall (t : string) (e : element) : list element :=
  List.filter (has_tag t) (descendants e).

(** [e.find(".//t")] *)
Definition find (t : string) (e : element) : option element :=
  head (findall t e).

(** [found.text] where [found] may be [None] *)
Definition text_of (found : option element) : result (option string) :=
  match found with
  | Some e => Ok (text e)
  | None => Raise AttributeError
  end.

(** A method call on a string that may be [None] *)
Definition some_str (o : option string) : result string :=
  of_option AttributeError o.

Definition aixm (name : string) : string :=
  "{http://www.aixm.aero/schema/5.1.1}" ++ name.
Definition gml (name : string) : string :=
  "{http://www.opengis.net/gml/3.2}" ++ name.

Definition clean_name (s : string) : string :=
  if startswith s "Windpark " then strip (replace "Windpark " "" s)
  else if startswith s "WP " then strip (replace "WP " "" s)
  else if startswith s "WKA " then strip (replace "WKA " "" s)
  else if startswith s "Windturbine " then strip (replace "Windturbine " "" s)
  else if startswith s "Windkraftanlage"
       then strip (replace "Windkraftanlage " "" s)
  else strip s.

(** One dictionary of [wtgs]. *)
Record wtg : Type := mkWtg {
  w_WindFarm : string;
  w_WPID : option string;
  w_Name : string;
  w_VerticalExtent : option string;
  w_VerticalAccuracy : option string;
  w_HorizontalAccuracy : option string;
  w_geometry : list string;
  w_Status : string;
  w_Elevation : option string;
  w_Type : option string;
}.

Definition valid_types : list string := ["WINDMILL_FARMS"; "WINDMILL"].

(** [p_type not in valid_types] *)
Definition not_in_valid_types (p_type : option string) : bool :=
  match p_type with
  | Some t => negb (bool_decide (t ∈ valid_types))
  | None => true
  end.

(** [dict(wtg.items())[k]] *)
Definition attribute (k : string) (e : element) : result string :=
  of_option (KeyError [k]) (snd <$> List.find (fun kv => String.eqb kv.1 k) (attrib e)).

(** The dictionary built for one VerticalStructurePart; its entries are
    evaluated in the order they are written. *)
Definition read_part (status : string) (wp_name : option string)
    (wp_name2 : string) (part : element) : result wtg :=
  name ← attribute (gml "id") part;
  vext ← text_of (find (aixm "verticalExtent") part);
  vacc ← text_of (find (aixm "verticalExtentAccuracy") part);
  hacc ← text_of (find (aixm "horizontalAccuracy") part);
  pos ← text_of (find (gml "pos") part) ≫= some_str;
  elev ← text_of (find (aixm "elevation") part);
  ty ← text_of (find (aixm "type") part);
  mret (mkWtg wp_name2 wp_name name vext vacc hacc (split " " pos)
              status elev ty).

(** The body of the loop over the VerticalStructure elements. *)
Definition read_structure (part : element) : result (list wtg) :=
  p_type ← text_of (find (aixm "type") part);
  if not_in_valid_types p_type then mret []
  else
    status ← text_of (find (aixm "constructionStatus") part) ≫= some_str;
    let status := strip status in
    wp_name ← text_of (find (aixm "name") part);
    note ← of_option AttributeError (find (aixm "Note") part);
    note_text ← text_of (find (aixm "note") note) ≫= some_str;
    let wp_name2 := clean_name note_text in
    collect (read_part status wp_name wp_name2)
            (findall (aixm "VerticalStructurePart") part).

Definition collect_wtgs (root : element) : result (list wtg) :=
  per_structure ← collect read_structure (iter (aixm "VerticalStructure") root);
  mret (concat per_structure).

Definition rd : list (string * string) :=
  [ ("COMPLETED", "Operating");
    ("IN_CONSTRUCTION", "UnderConstruction");
    ("MODIFICATION_APPRVD", "ModificationApproved");
    ("DEMOLITION_PLANNED", "DemolitionPlanned");
    ("CONSTRUCTION_PLANNED", "Plan");
    ("CONSTRUCTION_APPRVD", "Approved");
    ("OTHER:IN_CONSTRUCTION", "UnderConstruction");
    ("OTHER:MODIFICATION_APPRVD", "ModificationApproved");
    ("OTHER:DEMOLITION_PLANNED", "DemolitionPlanned");
    ("OTHER:CONSTRUCTION_PLANNED", "Plan");
    ("OTHER:MODIFICATION_PLANNED", "ModificationPlanned");
    ("OTHER:CONSTRUCTION_APPRVD", "Approved") ].

(** [rd.get(s, s)] *)
Definition rd_get (s : string) : string :=
  match List.find (fun kv => String.eqb kv.1 s) rd with
  | Some kv => kv.2
  | None => s
  end.

Section Parse.
Context {float64 datetime64 : Type} {pandas : Pandas float64 datetime64}.

(** A shapely point *)
Record Point : Type := mkPoint { x : float64; y : float64 }.

(** One row of the frame [parse_icao] returns. *)
Record obstacle : Type := mkObstacle {
  Name : string;
  WPID : option string;
  WindFarm : string;
  HorizontalAccuracy : float64;
  TerrainElevation : float64;
  Elevation : float64;
  VerticalExtent : float64;
  VerticalAccuracy : float64;
  Type_ : option string;
  Status : string;
  geometry : Point;
  Longitude : float64;
  Latitude : float64;
  UID : Z;
}.

(** [df["Name"].str.split("_", expand=True).iloc[:, 1].astype("int")]:
    the expanded frame has as many columns as the longest split, short
    rows are padded with [None]. *)
Definition uid_of_parts (parts : list string) : result Z :=
  match parts !! 1%nat with
  | None => Raise TypeError
  | Some t => of_option (ValueError (Unparseable t)) (int_of_str t)
  end.

Definition uid_column (names : list string) : result (list Z) :=
  let expanded := map (split "_") names in
  if forallb (fun parts => (length parts <? 2)%nat) expanded
  then Raise IndexError
  else collect uid_of_parts expanded.

(** [pd.to_numeric(v, errors="coerce")] on one cell *)
Definition to_numeric_coerce (v : option string) : float64 :=
  match v with
  | Some s => default NaN (to_numeric s)
  | None => NaN
  end.

(** [operator.itemgetter(i)] applied to the token lists *)
Definition itemgetter (i : nat) (col : list (list string))
  : result (list string) :=
  collect (fun tokens => of_option IndexError (tokens !! i)) col.

(** [np.asarray(col, dtype="float64")] *)
Definition asarray_float64 (col : list string) : result (list float64) :=
  collect (fun s => of_option (ValueError (Unparseable s)) (float_of_str s))
          col.

(** [gpd.points_from_xy(xs, ys)] *)
Definition points_from_xy (xs ys : list string) : result (list Point) :=
  fx ← asarray_float64 xs;
  fy ← asarray_float64 ys;
  mret (zip_with mkPoint fx fy).

Definition make_row (w : wtg) (uid : Z) (p : Point) : obstacle :=
  let elevation := to_numeric_coerce (w_Elevation w) in
  let vertical_extent := to_numeric_coerce (w_VerticalExtent w) in
  {| Name := w_Name w;
     WPID := w_WPID w;
     WindFarm := w_WindFarm w;
     HorizontalAccuracy := to_numeric_coerce (w_HorizontalAccuracy w);
     TerrainElevation := round 1 (float_sub elevation vertical_extent);
     Elevation := elevation;
     VerticalExtent := vertical_extent;
     VerticalAccuracy := to_numeric_coerce (w_VerticalAccuracy w);
     Type_ := w_Type w;
     Status := rd_get (w_Status w);
     geometry := p;
     Longitude := x p;
     Latitude := y p;
     UID := uid |}.

(** [parse_icao] from [pd.DataFrame.from_records(wtgs)] on. *)
Definition build_frame (wtgs : list wtg) : result (GeoDataFrame obstacle) :=
  match wtgs with
  | [] => Raise (KeyError ["Name"])
  | _ =>
      uids ← uid_column (map w_Name wtgs);
      xs ← itemgetter 1 (map w_geometry wtgs);
      ys ← itemgetter 0 (map w_geometry wtgs);
      points ← points_from_xy xs ys;
      let rows := zip_with (fun w up => make_row w up.1 up.2)
                           wtgs (zip uids points) in
      if (Series.count_true (Series.duplicated uids) =? 0)%nat
      then mret (mkGeoDataFrame (range_index rows) (Some 4326))
      else Raise AssertionError
  end.

Definition parse_icao_root (root : element) : result (GeoDataFrame obstacle) :=
  collect_wtgs root ≫= build_frame.

(** [ET.fromstring]: [None] is not a document *)
Definition ET_fromstring (parser : string → option element)
    (data : option string) : result element :=
  match data with
  | None => Raise TypeError
  | Some bytes => of_option ParseError (parser bytes)
  end.

Definition parse_icao (parser : string → option element)
    (data : option string) : result (GeoDataFrame obstacle) :=
  ET_fromstring parser data ≫= parse_icao_root.
End Parse.

Arguments Point : clear implicits.
Arguments obstacle : clear implicits.

(** What [get_austro_control_data] sees of the network and of the
    libraries it calls. *)
Record world : Type := mkWorld {
  (** the [href]s of the links in the [download_liste] table, or the
      exception of the request, of the status assertion or of the table
      lookup *)
  catalog : result (list string);
  (** [requests.get(url).content]; [None] when the request raises *)
  requests_get : string → option string;
  (** [zipfile.ZipFile]: the member names in archive order, each with what
      [read] returns ([None] when it raises); [None] for a bad archive *)
  zipfile : string → option (list (string * option string));
  (** the XML parser behind [ET.fromstring] *)
  xml_parser : string → option element;
  (** [Path.resolve] *)
  resolve : string → string;
}.

(** Regular files with their contents, and directories. *)
Record filesystem : Type := mkFs {
  files : gmap string string;
  dirs : gset string;
}.

Definition is_file (fs : filesystem) (p : string) : bool :=
  bool_decide (is_Some (files fs !! p)).
Definition is_dir (fs : filesystem) (p : string) : bool :=
  bool_decide (p ∈ dirs fs).
Definition write_bytes (fs : filesystem) (p data : string) : filesystem :=
  mkFs (<[p := data]> (files fs)) (dirs fs).

Definition base_url : string := "https://www.austrocontrol.at/jart/prj3/ac/".

Definition link_of (k : string) : result (string * string) :=
  rest ← of_option IndexError (split1 "LO_OBS_DS_AREA1_" k !! 1%nat);
  label ← of_option IndexError (split "_" rest !! 0%nat);
  mret (label, k).

Definition get_austro_control_links (w : world) : result (list (string * string)) :=
  hrefs ← catalog w;
  let links := map (fun href => base_url ++ href) hrefs in
  links ← collect link_of links;
  mret (rev (Series.sorted_by (fun a b => String.leb a.1 b.1) links)).

(** Lines 154 to 168: the selected publication, its URL and the cache
    path. *)
Definition select_source (w : world) (fs : filesystem)
    (data_path : option string) (list_index : Z)
  : result (string * string * option string) :=
  urls ← get_austro_control_links w;
  if negb (list_index <? Z.of_nat (length urls)) then Raise AssertionError
  else
    '(publication_date, url) ← py_index urls list_index;
    last_segment ← py_index (split "/" url) (-1);
    tail ← of_option IndexError (split "LO_OBS_DS_AREA1_" last_segment !! 1%nat);
    ident ← of_option IndexError (split "_" tail !! 0%nat);
    let expected_name := "LO_OBS_DS_AREA1_" ++ ident ++ ".xml" in
    match data_path with
    | None => mret (publication_date, url, None)
    | Some data_path =>
        let data_path := resolve w data_path in
        if is_dir fs data_path
        then mret (publication_date, url, Some (data_path ++ "/" ++ expected_name))
        else Raise AssertionError
    end.

(** The condition of line 171 *)
Definition must_download (fs : filesystem) (filename : option string)
    (overwrite : bool) : bool :=
  match filename with
  | None => true
  | Some f => negb (is_file fs f)
  end || overwrite.

(** The body of the [try] up to the write: [None] once anything in it has
    raised, the [RuntimeError] of line 180 included. *)
Definition download (w : world) (url : string) : option string :=
  match requests_get w url with
  | None => None
  | Some content =>
      match zipfile w content with
      | None => None
      | Some members =>
          match List.filter (fun n => endswith n ".xml") (map fst members) with
          | [f] =>
              match List.find (fun m => String.eqb m.1 f) members with
              | Some m => m.2
              | None => None
              end
          | _ => None
          end
      end
  end.

(** Lines 170 to 188: the bytes handed to the parser and the file system
    afterwards. *)
Definition fetch_source (w : world) (fs : filesystem) (url : string)
    (filename : option string) (overwrite : bool)
  : option string * filesystem :=
  if must_download fs filename overwrite then
    match download w url with
    | Some ac_source =>
        (Some ac_source,
         match filename with
         | Some f => write_bytes fs f ac_source
         | None => fs
         end)
    | None => (None, fs)
    end
  else (match filename with
        | Some f => files fs !! f
        | None => None
        end, fs).

Section Fetch.
Context {float64 datetime64 : Type} {pandas : Pandas float64 datetime64}.

(** The frame with the [PublicationDate] column set on every row. *)
Definition with_publication_date (publication_date : string)
    (gdf : GeoDataFrame (obstacle float64))
  : GeoDataFrame (obstacle float64 * string) :=
  mkGeoDataFrame
    (map (fun ir => (ir.1, (ir.2, publication_date))) (records gdf))
    (crs gdf).

Definition get_austro_control_data (w : world) (fs : filesystem)
    (data_path : option string) (list_index : Z) (overwrite : bool)
  : result (GeoDataFrame (obstacle float64 * string) * option string)
    * filesystem :=
  match select_source w fs data_path list_index with
  | Raise e => (Raise e, fs)
  | Ok (publication_date, url, filename) =>
      let '(ac_source, fs') := fetch_source w fs url filename overwrite in
      (df_austro ← parse_icao (xml_parser w) ac_source;
       mret (with_publication_date publication_date df_austro, filename),
       fs')
  end.
End Fetch.

End AustroControl.

(** ** noe.py *)

Module Noe.

Inductive dtype : Type := category | date | float | int.

#[export] Instance dtype_eq_dec : EqDecision dtype.
Proof. solve_decision. Defined.

Definition dtypes : list (string * dtype) :=
  [ ("Kennzeichen (UVP)", category);
    ("Kennzeichen (ER)", category);
    ("Rechtsmaterie", category);
    ("Betreiber", category);
    ("Vorhaben", category);
    ("Datum Genehmigungsantrag", date);
    ("Datum Entscheidung 1. Instanz (Bescheid)", date);
    ("Datum Fertigstellungsmeldung", date);
    ("Status", category);
    ("Änderung", category);
    ("Repowering", category);
    ("Name der WKA", category);
    ("Leistung der WKA [MW]", float);
    ("Gesamtleistung [MW]", float);
    ("Gesamthöhe der WKA [m]", float);
    ("Type", category);
    ("Grundstücks-Nummer", category);
    ("Katastralgemeinde", category);
    ("Gemeinde", category);
    ("Bezirk", category);
    ("Hauptregion", category);
    ("KG-Nummer", int);
    ("Koordinaten Länge [WGS 84]", float);
    ("Koordinaten Breite [WGS 84]", float);
    ("Zusatzinformation", category);
    ("Stand", category) ].

(** [[col for col, dtype in dtypes.items() if dtype == t]] *)
Definition cols_of (t : dtype) : list string :=
  map fst (List.filter (fun cd => bool_decide (cd.2 = t)) dtypes).

Definition int_cols : list string := cols_of int.
Definition float_cols : list string := cols_of float.
Definition date_cols : list string := cols_of date.
Definition category_cols : list string := cols_of category.

Definition key_cols : list string :=
  [ "Vorhaben"; "Name der WKA";
    "Koordinaten Länge [WGS 84]"; "Koordinaten Breite [WGS 84]" ].

(** [l.remove(x)]: the first occurrence goes. *)
Fixpoint list_remove (x : string) (l : list string) : list string :=
  match l with
  | [] => []
  | y :: l' => if String.eqb y x then l' else y :: list_remove x l'
  end.

Section Normalizer.
Context {float64 datetime64 : Type} {pandas : Pandas float64 datetime64}.

(** The geometry of a feature: a point, [null], or anything else. *)
Inductive geometry : Type :=
  | Point (x y : float64)
  | NoGeometry
  | OtherGeometry.

(** A feature of the permitting service: its properties, each a JSON
    string or [null] (the [.str] accessor of lines 87 and 99 works on
    columns of strings only), and its geometry. *)
Record feature : Type := mkFeature {
  properties : list (string * option string);
  f_geometry : geometry;
}.

(** What the request of lines 15 to 24 yields. *)
Inductive response : Type :=
  | RequestException
  | NotAFeatureCollection
  | FeatureCollection (features : list feature).

(** A cell of the frame. *)
Inductive value : Type :=
  | VNull
  | VStr (s : string)
  | VInt (z : Z)
  | VFloat (f : float64)
  | VDate (d : datetime64).

#[export] Instance value_eq_dec : EqDecision value.
Proof. solve_decision. Defined.

Record row : Type := mkRow {
  cells : list (string * value);
  geom : geometry;
}.

(** The frame while it is normalized: its column labels in order, and
    the rows under their index labels. *)
Record frame : Type := mkFrame {
  columns : list string;
  rows : list (Z * row);
}.

(** The cell of column [col]; a row that lacks it holds a null there. *)
Definition get (col : string) (r : row) : value :=
  match List.find (fun cv => String.eqb cv.1 col) (cells r) with
  | Some cv => cv.2
  | None => VNull
  end.

Definition has_cell (col : string) (r : row) : bool :=
  existsb (fun cv => String.eqb cv.1 col) (cells r).

Definition set (col : string) (v : value) (r : row) : row :=
  if has_cell col r
  then mkRow (map (fun cv => if String.eqb cv.1 col then (col, v) else cv)
                  (cells r)) (geom r)
  else mkRow (cells r ++ [(col, v)]) (geom r).

Definition raw (o : option string) : value :=
  match o with
  | Some s => VStr s
  | None => VNull
  end.

(** The row of one feature: a cell per property. *)
Definition feature_row (f : feature) : row :=
  mkRow (map (fun kv => (kv.1, raw kv.2)) (properties f)) (f_geometry f).

(** [gpd.GeoDataFrame.from_features]: the geometry column, then the
    property names in the order they first occur.  Without a feature the
    frame has the geometry column and no row. *)
Definition from_features (features : list feature) : frame :=
  mkFrame
    (remove_dups
       ("geometry" :: concat (map (fun f => map fst (properties f)) features)))
    (range_index (map feature_row features)).

(** [gdf.drop(columns=cs, errors="ignore")] *)
Definition drop (cs : list string) (fr : frame) : frame :=
  mkFrame (List.filter (fun c => negb (bool_decide (c ∈ cs))) (columns fr))
          (rows fr).

(** [gdf[cs]]: every label must be a column. *)
Definition select (cs : list string) (fr : frame) : result frame :=
  match List.filter (fun c => negb (bool_decide (c ∈ columns fr))) cs with
  | [] =>
      let attributes :=
        List.filter (fun c => negb (String.eqb c "geometry")) cs in
      mret (mkFrame cs
              (map (fun ir =>
                      (ir.1, mkRow (map (fun c => (c, get c ir.2)) attributes)
                                   (geom ir.2)))
                   (rows fr)))
  | missing => Raise (KeyError missing)
  end.

(** Lines 66 to 73 *)
Definition check_unmapped (fr : frame) : result unit :=
  let unmapped_cols :=
    List.filter (fun col => negb (bool_decide (col ∈ map fst dtypes)))
                (columns fr) in
  let unmapped_cols :=
    if bool_decide ("geometry" ∈ unmapped_cols)
    then list_remove "geometry" unmapped_cols
    else unmapped_cols in
  match unmapped_cols with
  | [] => mret tt
  | _ => Raise (ValueError (UnmappedColumns unmapped_cols))
  end.

(** [gdf[col] = f(gdf[col])], [f] working cell by cell from the top. *)
Definition assign (f : value → result value) (fr : frame) (col : string)
  : result frame :=
  new_column ← collect (fun ir => f (get col ir.2)) (rows fr);
  mret (mkFrame (columns fr)
          (zip_with (fun ir v => (ir.1, set col v ir.2)) (rows fr) new_column)).

(** [gdf[col] = f(gdf[col])], [f] working on the whole column. *)
Definition assign_column (f : list value → result (list value))
    (fr : frame) (col : string) : result frame :=
  new_column ← f (map (fun ir => get col ir.2) (rows fr));
  mret (mkFrame (columns fr)
          (zip_with (fun ir v => (ir.1, set col v ir.2)) (rows fr) new_column)).

(** [s.where(s.notnull(), None).astype("int")] on one cell *)
Definition astype_int (v : value) : result value :=
  match v with
  | VStr s => VInt <$> of_option (ValueError (Unparseable s)) (int_of_str s)
  | VInt z => mret (VInt z)
  | _ => Raise TypeError
  end.

(** Line 87 works on the whole column: [pd.to_numeric] gives an integer
    column when every cell spells an integer, and a float column
    otherwise.

    One cell of [pd.to_numeric(s.str.replace(",", "."), errors="raise")]:
    the string with the float read from it, or a null. *)
Definition read_numeric (v : value) : result (option (string * float64)) :=
  match v with
  | VStr s =>
      let s := replace "," "." s in
      (fun x => Some (s, x))
        <$> of_option (ValueError (Unparseable s)) (to_numeric s)
  | _ => mret None
  end.

(** The integers of a column in which every cell spells one. *)
Fixpoint as_integers (cells : list (option (string * float64)))
  : option (list Z) :=
  match cells with
  | [] => Some []
  | Some (s, _) :: cells' =>
      match to_numeric_int s, as_integers cells' with
      | Some z, Some zs => Some (z :: zs)
      | _, _ => None
      end
  | None :: _ => None
  end.

(** An integer above the int64 range next to a negative one: no integer
    type holds both, and the column is read as floats. *)
Definition uint64_conflict (zs : list Z) : bool :=
  existsb (fun z => 2 ^ 63 - 1 <? z) zs && existsb (fun z => z <? 0) zs.

Definition float_of_cell (cell : option (string * float64)) : float64 :=
  match cell with
  | Some (_, x) => x
  | None => NaN
  end.

(** [pd.to_numeric(s.str.replace(",", "."), errors="raise").round(6)] on a
    column; rounding leaves an integer column as it is. *)
Definition to_float (column : list value) : result (list value) :=
  cells ← collect read_numeric column;
  let floats := map (fun cell => VFloat (round 6 (float_of_cell cell))) cells in
  match as_integers cells with
  | Some zs => if uint64_conflict zs then mret floats else mret (map VInt zs)
  | None => mret floats
  end.

(** [pd.to_datetime(s, errors="raise", format="%d.%m.%Y")] on one cell *)
Definition to_date (v : value) : result value :=
  match v with
  | VStr s => VDate <$> of_option (ValueError (Unparseable s)) (to_datetime s)
  | _ => mret VNull
  end.

(** [s.str.strip().astype("category")] on one cell *)
Definition to_category (v : value) : result value :=
  match v with
  | VStr s => mret (VStr (strip s))
  | _ => mret VNull
  end.

(** [gdf.geometry.x.round(6)] and [gdf.geometry.y.round(6)]: defined
    when every geometry that is present is a point. *)
Definition geometry_x (g : geometry) : result value :=
  match g with
  | Point x _ => mret (VFloat (round 6 x))
  | NoGeometry => mret (VFloat (round 6 NaN))
  | OtherGeometry => Raise (ValueError NotAPoint)
  end.

Definition geometry_y (g : geometry) : result value :=
  match g with
  | Point _ y => mret (VFloat (round 6 y))
  | NoGeometry => mret (VFloat (round 6 NaN))
  | OtherGeometry => Raise (ValueError NotAPoint)
  end.

Definition assign_from_geometry (f : geometry → result value) (fr : frame)
    (col : string) : result frame :=
  new_column ← collect (fun ir => f (geom ir.2)) (rows fr);
  mret (mkFrame (columns fr)
          (zip_with (fun ir v => (ir.1, set col v ir.2)) (rows fr) new_column)).

(** Lines 26 to 60: the frame of the features, without the housekeeping
    columns and cut to the declared columns. *)
Definition load (features : list feature) : result frame :=
  let gdf := from_features features in
  let gdf := drop ["_fulltext"; "_title"; "_zoomscale"] gdf in
  select (map fst dtypes ++ ["geometry"]) gdf.

(** Lines 26 to 103: the frame with every column coerced, before the
    duplicates are looked at. *)
Definition coerce (features : list feature) : result frame :=
  gdf ← load features;
  _ ← check_unmapped gdf;
  gdf ← foldM (assign astype_int) int_cols gdf;
  gdf ← foldM (assign_column to_float) float_cols gdf;
  gdf ← foldM (assign to_date) date_cols gdf;
  gdf ← foldM (assign to_category) category_cols gdf;
  gdf ← assign_from_geometry geometry_x gdf "Koordinaten Länge [WGS 84]";
  assign_from_geometry geometry_y gdf "Koordinaten Breite [WGS 84]".

(** [gdf[key_cols].apply(tuple, axis=1)] on one row *)
Definition key_of (r : row) : list value := map (fun c => get c r) key_cols.

(** What the function prints. *)
Inductive event : Type :=
  | ErrorDownloading
  | InvalidGeoJSON
  | SizeBefore (n : nat)
  | DuplicatedKeys (duplicates : list (Z * list value))
  | SizeAfter (n : nat).

(** [gdf.loc[labels]] *)
Definition loc (labels : list Z) (rs : list (Z * row)) : list (Z * row) :=
  flat_map (fun l => List.filter (fun ir => bool_decide (ir.1 = l)) rs) labels.

(** Lines 112 to 121 *)
Definition drop_duplicated_keys (rs : list (Z * row))
  : list (Z * row) * list event :=
  let key := map (fun ir => (ir.1, key_of ir.2)) rs in
  let duplicates :=
    Series.mask_select key (Series.duplicated_all (map snd key)) in
  match duplicates with
  | [] => (rs, [])
  | _ =>
      let key :=
        Series.mask_select key (map negb (Series.duplicated (map snd key))) in
      let rs' := loc (map fst key) rs in
      (rs', [SizeBefore (length rs); DuplicatedKeys duplicates;
             SizeAfter (length rs')])
  end.

(** The order of a categorical column: the categories in string order,
    nulls last. *)
Definition cat_compare (a b : value) : comparison :=
  match a, b with
  | VStr s, VStr t => String.compare s t
  | VStr _, _ => Lt
  | _, VStr _ => Gt
  | _, _ => Eq
  end.

(** [sort_values(by=["Vorhaben", "Name der WKA"])] compares rows by the
    first column, then by the second. *)
Definition sort_le (a b : Z * row) : bool :=
  match cat_compare (get "Vorhaben" a.2) (get "Vorhaben" b.2) with
  | Lt => true
  | Gt => false
  | Eq =>
      match cat_compare (get "Name der WKA" a.2) (get "Name der WKA" b.2) with
      | Gt => false
      | _ => true
      end
  end.

(** [.reset_index(drop=True)] *)
Definition reset_index {A} (rs : list (Z * A)) : list (Z * A) :=
  range_index (map snd rs).

(** Lines 105 to 127 *)
Definition finish (gdf : frame) : GeoDataFrame row * list event :=
  let '(rs, printed) := drop_duplicated_keys (rows gdf) in
  (mkGeoDataFrame (reset_index (Series.sorted_by sort_le rs)) (Some 4326),
   printed).

(** The function returns a frame or [None], or raises; next to it, what
    it has printed. *)
Definition download_noe_geojson (resp : response)
  : result (option (GeoDataFrame row)) * list event :=
  match resp with
  | RequestException => (Ok None, [ErrorDownloading])
  | NotAFeatureCollection => (Ok None, [InvalidGeoJSON])
  | FeatureCollection features =>
      match coerce features with
      | Raise e => (Raise e, [])
      | Ok gdf => let '(out, printed) := finish gdf in (Ok (Some out), printed)
      end
  end.
End Normalizer.

Arguments geometry : clear implicits.
Arguments feature : clear implicits.
Arguments response : clear implicits.
Arguments value : clear implicits.
Arguments row : clear implicits.
Arguments frame : clear implicits.
Arguments event : clear implicits.

End Noe.

(** ** main.py and download_austro_control.py

    The two scripts share their second half: the change check and the
    two writes.  Every path is looked up under its resolved form, and
    the files of [OUTPUT_DIR] are those below [resolve OUTPUT_DIR]; the
    parent of [OUTPUT_DIR] is the working directory. *)

Module Scripts.
Import AustroControl.

(** How a run of [main] ends when it does not return. *)
Inductive failure : Type :=
  | Propagated (e : exn)
  | RuntimeError (msg : string)
  | FileNotFoundError
  | NotADirectoryError
  | DriverError (driver : string).

Definition OUTPUT_DIR : string := "data".

Definition save_exts : list (string * string) :=
  [ (".geojson", "GeoJSON"); (".gpkg", "GPKG") ].

(** [Path.exists] and [Path.mkdir(parents=True)] *)
Definition exists_ (fs : filesystem) (p : string) : bool :=
  is_dir fs p || is_file fs p.
Definition mkdir (fs : filesystem) (p : string) : filesystem :=
  mkFs (files fs) ({[ p ]} ∪ dirs fs).

(** [Path.unlink]: the file goes, unless the system refuses and the call
    raises [OSError] ([None]); [may_unlink] says which files the system
    lets go. *)
Definition unlink (may_unlink : string → bool) (fs : filesystem)
    (p : string) : option filesystem :=
  if may_unlink p then Some (mkFs (delete p (files fs)) (dirs fs)) else None.

Section Publish.
Context {R : Type}.
(** The row hash behind [calculate_gdf_hash]. *)
Variable row_hash : Z → R → Z.
(** [gdf.to_file(file_path, driver=driver)]: the bytes it writes, [None]
    when the driver raises. *)
Variable to_file : string → GeoDataFrame R → option string.
Variable resolve : string → string.

(** The first two lines of [main] *)
Definition make_output_dir (fs : filesystem) : filesystem :=
  if exists_ fs (resolve OUTPUT_DIR) then fs
  else mkdir fs (resolve OUTPUT_DIR).

Definition in_output_dir (name : string) : string :=
  resolve OUTPUT_DIR ++ "/" ++ name.

(** The loop over [save_exts] *)
Fixpoint save (gdf : GeoDataFrame R) (file_name : string)
    (exts : list (string * string)) (fs : filesystem)
  : option failure * filesystem :=
  match exts with
  | [] => (None, fs)
  | (suffix, driver) :: exts' =>
      match to_file driver gdf with
      | None => (Some (DriverError driver), fs)
      | Some content =>
          save gdf file_name exts'
               (write_bytes fs (in_output_dir (file_name ++ suffix)) content)
      end
  end.

(** [main] from the change check on.  [is_data_updated] opens the hash
    file for writing, which needs its directory. *)
Definition publish (gdf : GeoDataFrame R) (file_name : string)
    (fs : filesystem) : option failure * filesystem :=
  let hash_file := in_output_dir (file_name ++ ".hash") in
  let '(updated, files') :=
    Helpers.is_data_updated row_hash gdf hash_file (files fs) in
  if negb updated then (None, fs)
  else if is_dir fs (resolve OUTPUT_DIR)
  then save gdf file_name save_exts (mkFs files' (dirs fs))
  else if is_file fs (resolve OUTPUT_DIR) then (Some NotADirectoryError, fs)
  else (Some FileNotFoundError, fs).
End Publish.

Section Main.
Context {float64 datetime64 : Type} {pandas : Pandas float64 datetime64}.

(** main.py *)
Definition noe_main
    (row_hash : Z → Noe.row float64 datetime64 → Z)
    (to_file : string → GeoDataFrame (Noe.row float64 datetime64)
               → option string)
    (resolve : string → string)
    (resp : Noe.response float64) (fs : filesystem)
  : option failure * filesystem :=
  let fs := make_output_dir resolve fs in
  match (Noe.download_noe_geojson resp).1 with
  | Raise e => (Some (Propagated e), fs)
  | Ok None =>
      (Some (RuntimeError "Failed to download NOE GeoJSON data."), fs)
  | Ok (Some gdf) =>
      publish row_hash to_file resolve gdf "windkraftanlagen" fs
  end.

(** download_austro_control.py.  The removal of the XML file runs under
    [contextlib.suppress(OSError)]: when it is refused, the file stays
    and the run goes on. *)
Definition austro_control_main
    (row_hash : Z → obstacle float64 * string → Z)
    (to_file : string → GeoDataFrame (obstacle float64 * string)
               → option string)
    (may_unlink : string → bool)
    (w : world) (fs : filesystem)
  : option failure * filesystem :=
  let fs := make_output_dir (AustroControl.resolve w) fs in
  match get_austro_control_data w fs (Some OUTPUT_DIR) 0 false with
  | (Raise e, fs) => (Some (Propagated e), fs)
  | (Ok (gdf, filename), fs) =>
      let fs :=
        match filename with
        | Some f =>
            if is_file fs f then default fs (unlink may_unlink fs f) else fs
        | None => fs
        end in
      publish row_hash to_file (AustroControl.resolve w) gdf
              "austro_control_icao" fs
  end.
End Main.

End Scripts.

(** ** A reference instance of the primitives

    Fixed-point decimals with six places stand in for float64, and
    (year, month, day) triples for datetime64.  The instance serves to run
    the pipelines on concrete inputs. *)

Module Reference.

Definition digit_value (c : ascii) : option Z :=
  let n := N_of_ascii c in
  if ((48 <=? n) && (n <=? 57))%N then Some (Z.of_N n - 48) else None.

Fixpoint digits_from (acc : Z) (s : string) : option Z :=
  match s with
  | EmptyString => Some acc
  | String c s' =>
      match digit_value c with
      | Some d => digits_from (10 * acc + d) s'
      | None => None
      end
  end.

(** A non-empty run of decimal digits *)
Definition natural (s : string) : option Z :=
  match s with
  | EmptyString => None
  | _ => digits_from 0 s
  end.

Definition signed (f : string → option Z) (s : string) : option Z :=
  match s with
  | String "-" s' => Z.opp <$> f s'
  | _ => f s
  end.

Definition integer : string → option Z := signed natural.

(** The first six decimals of a fraction, as millionths *)
Definition millionths (frac : string) : option Z :=
  natural (String.substring 0 6 (frac ++ "000000")).

Definition unsigned_decimal (s : string) : option Z :=
  match split "." s with
  | [whole] => (fun w => w * 1000000) <$> natural whole
  | [whole; frac] =>
      match natural whole, natural frac, millionths frac with
      | Some w, Some _, Some m => Some (w * 1000000 + m)
      | _, _, _ => None
      end
  | _ => None
  end.

(** [None] is NaN, [Some n] is [n] millionths. *)
Definition decimal : string → option (option Z) :=
  fun s => Some <$> signed unsigned_decimal s.

(** [pd.to_numeric]: the empty string is a null. *)
Definition numeric (s : string) : option (option Z) :=
  if String.eqb s "" then Some None else decimal s.

(** An integer that int64 or uint64 holds. *)
Definition machine_integer (s : string) : option Z :=
  match integer s with
  | Some z => if (- 2 ^ 63 <=? z) && (z <? 2 ^ 64) then Some z else None
  | None => None
  end.

Definition sub (a b : option Z) : option Z :=
  match a, b with
  | Some a, Some b => Some (a - b)
  | _, _ => None
  end.

Definition round_places (places : nat) (a : option Z) : option Z :=
  let unit := 10 ^ Z.of_nat (6 - places) in
  (fun n => (n + unit / 2) / unit * unit) <$> a.

Definition day_month_year (s : string) : option (Z * Z * Z) :=
  match split "." s with
  | [d; m; y] =>
      match natural d, natural m, natural y with
      | Some d, Some m, Some y =>
          if (1 <=? d) && (d <=? 31) && (1 <=? m) && (m <=? 12)
          then Some (y, m, d) else None
      | _, _, _ => None
      end
  | _ => None
  end.

#[export] Instance pandas : Pandas (option Z) (Z * Z * Z) := {|
  NaN := None;
  to_numeric := numeric;
  float_of_str := decimal;
  float_sub := sub;
  round := round_places;
  int_of_str := integer;
  to_datetime := day_month_year;
  to_numeric_int := machine_integer;
  to_numeric_empty := eq_refl;
  to_numeric_int_empty := eq_refl;
|}.

End Reference.

(** ** Concrete inputs *)

Module Fixtures.

(** A two-row frame of strings, and the same rows in the other order,
    each row under the label it had. *)
Definition two_rows : GeoDataFrame string :=
  mkGeoDataFrame [(0, "a"); (1, "b")] (Some 4326).

Definition two_rows_reversed : GeoDataFrame string :=
  mkGeoDataFrame [(1, "b"); (0, "a")] (Some 4326).

(** A row hash for running [is_data_updated]. *)
Definition toy_row_hash (label : Z) (cells : string) : Z :=
  1000003 * label + Z.of_nat (String.length cells) + 97531.


(** Obstacle documents *)
Import AustroControl.

Definition leaf (t content : string) : element :=
  Element t [] (Some content) [].

Definition part (id pos : string) : element :=
  Element (aixm "VerticalStructurePart") [(gml "id", id)] None
    [ leaf (aixm "verticalExtent") "150.5";
      leaf (aixm "verticalExtentAccuracy") "1";
      leaf (aixm "horizontalAccuracy") "n/a";
      Element (aixm "ElevatedPoint") [] None
        [ leaf (gml "pos") pos; leaf (aixm "elevation") "350.75" ];
      leaf (aixm "type") "WINDMILL" ].

Definition structure (ty : string) (parts : list element) : element :=
  Element (aixm "VerticalStructure") [] None
    ([ leaf (aixm "name") "LOWP0001";
       leaf (aixm "type") ty;
       leaf (aixm "constructionStatus") " OTHER:CONSTRUCTION_PLANNED ";
       Element (aixm "Note") [] None [ leaf (aixm "note") "Windpark Nord " ] ]
     ++ parts)%list.

Definition document (structures : list element) : element :=
  Element "{http://www.aixm.aero/schema/5.1.1/message}AIXMBasicMessage"
    [] None structures.

Definition two_turbines : element :=
  document [ structure "WINDMILL"
               [ part "VSP_101" "48.1 16.2"; part "VSP_102" "48.3 16.4" ];
             structure "OTHER" [ part "VSP_103" "47.0 15.0" ] ].

Definition same_uid_twice : element :=
  document [ structure "WINDMILL_FARMS"
               [ part "VSP_101" "48.1 16.2"; part "VSP2_101" "48.3 16.4" ] ].

Definition no_windmill : element :=
  document [ structure "OTHER" [ part "VSP_103" "47.0 15.0" ] ].

(** A catalog with two publications, an archive with one XML member and
    the parser of the one document it holds. *)
Definition archive_url : string :=
  "https://www.austrocontrol.at/jart/prj3/ac/data/LO_OBS_DS_AREA1_20240613_x.zip".

Definition online (content : option string) : world :=
  {| catalog := Ok [ "data/LO_OBS_DS_AREA1_20240321_x.zip";
                    "data/LO_OBS_DS_AREA1_20240613_x.zip" ];
     requests_get := fun url =>
       if String.eqb url archive_url then content else None;
     zipfile := fun bytes =>
       if String.eqb bytes "PK-one" then Some [("obstacles.xml", Some "<xml/>")]
       else if String.eqb bytes "PK-two"
       then Some [("a.xml", Some "<xml/>"); ("b.xml", Some "<xml/>")]
       else if String.eqb bytes "PK-none" then Some [("readme.txt", Some "-")]
       else None;
     xml_parser := fun bytes =>
       if String.eqb bytes "<xml/>" then Some two_turbines else None;
     resolve := fun p => p |}.

Definition data_dir : filesystem := mkFs ∅ {["/work/data"]}.

(** Permitting features: every declared column, then [extra]. *)
Import Noe.

Definition permit (vorhaben wka : string) (kg leistung : option string)
    (g : geometry (option Z)) (extra : list (string * option string))
  : feature (option Z) :=
  mkFeature
    ([ ("_title", Some "WKA");
       ("Kennzeichen (UVP)", None);
       ("Kennzeichen (ER)", Some " ER-7 ");
       ("Rechtsmaterie", Some "ElWG");
       ("Betreiber", Some "Wind GmbH");
       ("Vorhaben", Some vorhaben);
       ("Datum Genehmigungsantrag", Some "05.03.2021");
       ("Datum Entscheidung 1. Instanz (Bescheid)", None);
       ("Datum Fertigstellungsmeldung", None);
       ("Status", Some "genehmigt");
       ("Änderung", Some "nein");
       ("Repowering", Some "nein");
       ("Name der WKA", Some wka);
       ("Leistung der WKA [MW]", leistung);
       ("Gesamtleistung [MW]", Some "12,6");
       ("Gesamthöhe der WKA [m]", Some "199,5");
       ("Type", Some "V150");
       ("Grundstücks-Nummer", Some "123/4");
       ("Katastralgemeinde", Some "Au");
       ("Gemeinde", Some "Au");
       ("Bezirk", Some "Bruck");
       ("Hauptregion", Some "Industrieviertel");
       ("KG-Nummer", kg);
       ("Koordinaten Länge [WGS 84]", Some "16,5");
       ("Koordinaten Breite [WGS 84]", Some "48,1");
       ("Zusatzinformation", None);
       ("Stand", Some "2024") ] ++ extra)%list
    g.

Definition at_au : geometry (option Z) := Point (Some 16512345) (Some 48098765).
Definition at_berg : geometry (option Z) := Point (Some 15900000) (Some 48300000).

(** Two turbines of two projects, given out of order. *)
Definition two_permits : list (feature (option Z)) :=
  [ permit "Windpark Berg" "WKA 2" (Some "5002") (Some "4,2") at_berg [];
    permit "Windpark Au" "WKA 1" (Some "5001") (Some "1,23") at_au [] ].

(** The first turbine delivered twice. *)
Definition with_duplicate : list (feature (option Z)) :=
  [ permit "Windpark Berg" "WKA 2" (Some "5002") (Some "4,2") at_berg [];
    permit "Windpark Au" "WKA 1" (Some "5001") (Some "1,23") at_au [];
    permit "Windpark Berg" "WKA 2" (Some "5002") (Some "4,5") at_berg [] ].

(** A column the schema does not declare. *)
Definition with_extra_column : list (feature (option Z)) :=
  [ permit "Windpark Au" "WKA 1" (Some "5001") (Some "1,23") at_au
      [("Rotordurchmesser [m]", Some "150")] ].

(** A turbine without a KG-Nummer. *)
Definition with_null_kg : list (feature (option Z)) :=
  [ permit "Windpark Au" "WKA 1" None (Some "1,23") at_au [] ].


End Fixtures.

(** ** Further concrete inputs *)

Module MoreFixtures.
Import AustroControl.

(** A turbine whose position has one token only. *)
Definition short_position : element :=
  Fixtures.document
    [ Fixtures.structure "WINDMILL" [ Fixtures.part "VSP_101" "48.1" ] ].

(** A catalog with a link to something else. *)
Definition other_link : world :=
  {| catalog := Ok [ "data/LO_OBS_DS_AREA1_20240321_x.zip"; "data/terms.pdf" ];
     requests_get := fun _ => None;
     zipfile := fun _ => None;
     xml_parser := fun _ => None;
     resolve := fun p => p |}.

(** An archive whose XML member cannot be read. *)
Definition unreadable_member : world :=
  {| catalog := catalog (Fixtures.online None);
     requests_get := requests_get (Fixtures.online (Some "PK-crc"));
     zipfile := fun _ => Some [("readme.txt", Some "-"); ("obstacles.xml", None)];
     xml_parser := xml_parser (Fixtures.online None);
     resolve := fun p => p |}.

(** The data directory with the newest publication in it. *)
Definition cached : filesystem :=
  mkFs {[ "/work/data/LO_OBS_DS_AREA1_20240613.xml" := "<xml/>" ]}
       {[ "/work/data" ]}.

(** No directory at all. *)
Definition empty_disk : filesystem := mkFs ∅ ∅.

(** Permitting features *)
Import Noe.

(** A turbine drawn as an area. *)
Definition with_polygon : list (feature (option Z)) :=
  [ Fixtures.permit "Windpark Au" "WKA 1" (Some "5001") (Some "1,23")
      OtherGeometry [] ].


(** A feature with one property only. *)
Definition few_columns : list (feature (option Z)) :=
  [ mkFeature [("Vorhaben", Some "Windpark Au")] Fixtures.at_au ].

(** Running the scripts: a row hash, two writers, a working directory
    and an archive whose document does not parse. *)
Definition label_hash {R} (label : Z) (cells : R) : Z := 7 * label + 1.

Definition writes_all {R} (driver : string) (gdf : GeoDataFrame R)
  : option string := Some driver.

Definition gpkg_fails {R} (driver : string) (gdf : GeoDataFrame R)
  : option string :=
  if String.eqb driver "GPKG" then None else Some driver.

Definition under_work (p : string) : string := "/work/" ++ p.

Definition broken_xml : world :=
  {| catalog := catalog (Fixtures.online None);
     requests_get := requests_get (Fixtures.online (Some "PK-one"));
     zipfile := zipfile (Fixtures.online None);
     xml_parser := fun _ => None;
     resolve := fun p => p |}.

End MoreFixtures.

(** * Properties *)

(** ** The string methods on examples *)

Example split_pos : split " " "48.1 16.2" = ["48.1"; "16.2"].
Proof. reflexivity. Qed.

Example split_double_space : split " " "48.1  16.2" = ["48.1"; ""; "16.2"].
Proof. reflexivity. Qed.

Example split_multi :
  split "LO_OBS_DS_AREA1_" "x/LO_OBS_DS_AREA1_20240101_v1.zip"
  = ["x/"; "20240101_v1.zip"].
Proof. reflexivity. Qed.

Example split1_multi :
  split1 "LO_OBS_DS_AREA1_" "x/LO_OBS_DS_AREA1_20240101_LO_OBS_DS_AREA1_.zip"
  = ["x/"; "20240101_LO_OBS_DS_AREA1_.zip"].
Proof. reflexivity. Qed.

Example replace_comma : replace "," "." "1,23" = "1.23".
Proof. reflexivity. Qed.

Example replace_prefix : replace "WP " "" "WP Nord WP 2" = "Nord 2".
Proof. reflexivity. Qed.

Example strip_ex : strip "  12 3
" = "12 3".
Proof. reflexivity. Qed.

Example str_of_N_ex : str_of_N 0 = "0" ∧ str_of_N 1203 = "1203".
Proof. split; reflexivity. Qed.

(** ** Loops that may raise *)

Module PySpec.

Lemma bind_Ok {A B} (m : result A) (k : A → result B) (b : B) :
  m ≫= k = Ok b ↔ ∃ a, m = Ok a ∧ k a = Ok b.
Proof.
  destruct m as [a|e]; simpl.
  - split; [eauto|]. by intros (? & [= <-] & ?).
  - split; [done|]. by intros (? & ? & ?).
Qed.

Lemma bind_of_Ok {A B} (m : result A) (k : A → result B) (a : A) :
  m = Ok a → m ≫= k = k a.
Proof. by intros ->. Qed.

Lemma bind_Raise {A B} (m : result A) (k : A → result B) (e : exn) :
  m ≫= k = Raise e ↔ m = Raise e ∨ ∃ a, m = Ok a ∧ k a = Raise e.
Proof.
  destruct m as [a|e']; simpl.
  - split.
    + intros Hk. right. by exists a.
    + intros [?|(? & [= <-] & ?)]; done.
  - split.
    + intros [= ->]. by left.
    + intros [[= ->]|(? & ? & _)]; done.
Qed.

Lemma of_option_Ok {A} (e : exn) (o : option A) (a : A) :
  of_option e o = Ok a ↔ o = Some a.
Proof. destruct o; simpl; split; congruence. Qed.

(** A loop that ends has run its body on every element, in order. *)
Lemma collect_Ok {A B} (f : A → result B) (l : list A) (ys : list B) :
  collect f l = Ok ys ↔ Forall2 (fun x y => f x = Ok y) l ys.
Proof.
  revert ys. induction l as [|x l IH]; intros ys; simpl.
  - split; [intros [= <-]; constructor|]. by intros ->%Forall2_nil_inv_l.
  - split.
    + destruct (f x) as [y|] eqn:Hx; simpl; [|done].
      destruct (collect f l) as [ys'|] eqn:Hl; simpl; [|done].
      intros [= <-]. constructor; [done|]. by apply IH.
    + intros (y & ys' & Hx & Hl & ->)%Forall2_cons_inv_l.
      apply IH in Hl. by rewrite Hx, Hl.
Qed.

Lemma range_index_lookup {A} (l : list A) (i : nat) :
  range_index l !! i = (fun x => (Z.of_nat i, x)) <$> l !! i.
Proof. unfold range_index. by rewrite list_lookup_imap. Qed.

Lemma range_index_snd {A} (l : list A) : map snd (range_index l) = l.
Proof.
  apply list_eq; intros i. rewrite list_lookup_fmap, range_index_lookup.
  by destruct (l !! i).
Qed.

Lemma range_index_length {A} (l : list A) :
  length (range_index l) = length l.
Proof. unfold range_index. by rewrite length_imap. Qed.

End PySpec.

(** ** Lists visited in step *)

Module LoopSpec.
Import PySpec.

Lemma Forall2_compose {A B C} (P : A → B → Prop) (Q : B → C → Prop)
    (l : list A) (k : list B) (m : list C) :
  Forall2 P l k → Forall2 Q k m →
  Forall2 (fun a c => ∃ b, P a b ∧ Q b c) l m.
Proof.
  intros HP. revert m. induction HP; intros m HQ; inv HQ; constructor; eauto.
Qed.

Lemma flat_map_paired {A B} (f : A → list B) (l : list A) :
  flat_map f l = map snd (flat_map (fun a => map (fun b => (a, b)) (f a)) l).
Proof.
  induction l as [|a l IH]; simpl; [done|].
  rewrite map_app, map_map, <- IH. simpl. by rewrite map_id.
Qed.

Lemma collect_Raise_same {A B} (f : A → result B) (l : list A) (e : exn) :
  (∀ x e', f x = Raise e' → e' = e) →
  (∃ x e', x ∈ l ∧ f x = Raise e') →
  collect f l = Raise e.
Proof.
  intros Hsame (x & e' & Hx & Hfx).
  destruct (collect f l) as [ys|e''] eqn:Hl.
  - apply collect_Ok in Hl. apply list_elem_of_lookup in Hx as [i Hi].
    destruct (Forall2_lookup_l _ _ _ _ _ Hl Hi) as (y & _ & Hy). congruence.
  - f_equal. revert e'' Hl. clear Hx Hfx.
    induction l as [|z l IH]; intros e''; simpl; [done|].
    destruct (f z) as [y|ez] eqn:Hz; simpl.
    + destruct (collect f l) as [ys|el]; simpl; [done|].
      intros [= <-]. by apply IH.
    + intros [= <-]. by eapply Hsame.
Qed.

Lemma Forall2_map_eq {A B C} (g : A → C) (h : B → C)
    (l : list A) (l' : list B) :
  Forall2 (fun a b => h b = g a) l l' → map h l' = map g l.
Proof. induction 1 as [|a b l l' Hab _ IH]; simpl; [done|]. by rewrite Hab, IH. Qed.


End LoopSpec.

(** ** Duplicates in a column *)

Module SeriesSpec.
Import Series.

Section Column.
Context {A : Type} `{EqDecision A}.

Lemma count_true_cons (b : bool) (bs : list bool) :
  count_true (b :: bs) = ((if b then 1 else 0) + count_true bs)%nat.
Proof.
  unfold count_true. rewrite filter_cons. by destruct b; case_decide.
Qed.

Lemma duplicated_from_none (seen l : list A) :
  count_true (duplicated_from seen l) = 0%nat
  ↔ NoDup l ∧ ∀ x, x ∈ l → x ∉ seen.
Proof.
  revert seen. induction l as [|x l IH]; intros seen; simpl.
  - split; [|done]. intros _. split; [constructor|]. by intros ? ?%elem_of_nil.
  - rewrite count_true_cons, NoDup_cons. case_bool_decide as Hx.
    + split; [lia|]. intros [_ Hseen]. destruct (Hseen x); [left|done].
    + simpl. rewrite IH. split.
      * intros [Hnd Hl]. split_and!; [|done|].
        -- intros Hxl. apply (Hl x Hxl). left.
        -- intros z [->|Hz]%elem_of_cons; [done|].
           intros Hzs. apply (Hl z Hz). by right.
      * intros [[Hxl Hnd] Hl]. split; [done|].
        intros z Hz [->|Hzs]%elem_of_cons; [done|].
        apply (Hl z); [by right|done].
Qed.

(** [s.duplicated().sum() == 0] says that no value occurs twice. *)
Lemma duplicated_none (l : list A) :
  count_true (duplicated l) = 0%nat ↔ NoDup l.
Proof.
  unfold duplicated. rewrite duplicated_from_none.
  split; [by intros [? _]|]. intros Hnd. split; [done|].
  by intros ? _ ?%elem_of_nil.
Qed.

End Column.


(** Selecting with a mask computed row by row is filtering. *)
Lemma mask_select_map {B} (b : B → bool) (l : list B) :
  mask_select l (map b l) = List.filter b l.
Proof. induction l as [|x l IH]; simpl; [done|]. by rewrite IH. Qed.

Lemma mask_select_elem_of {B} (l : list B) (mask : list bool) (x : B) :
  x ∈ mask_select l mask → x ∈ l.
Proof.
  revert mask. induction l as [|y l IH]; intros [|b mask]; simpl;
    try by intros ?%elem_of_nil.
  destruct b.
  - intros [->|?]%elem_of_cons; [left|right; eauto].
  - intros ?. right. eauto.
Qed.

Lemma mask_select_fmap {B C} (g : B → C) (l : list B) (mask : list bool) :
  mask_select (map g l) mask = map g (mask_select l mask).
Proof.
  revert mask. induction l as [|y l IH]; intros [|b mask]; simpl; try done.
  destruct b; simpl; by rewrite IH.
Qed.

Section Keyed.
Context {B K : Type} `{EqDecision K} (k : B → K).

(** Which rows [drop_duplicates(keep="first")] keeps: those whose key
    is met for the first time. *)
Lemma kept_first_from (seen : list K) (l : list B) (x : B) :
  x ∈ mask_select l (map negb (duplicated_from seen (map k l)))
  ↔ ∃ i, l !! i = Some x ∧ (k x ∉ seen)
         ∧ ∀ j y, (j < i)%nat → l !! j = Some y → k y ≠ k x.
Proof.
  revert seen. induction l as [|y l IH]; intros seen; simpl.
  { split; [by intros ?%elem_of_nil|]. by intros (i & ? & _). }
  case_bool_decide as Hy; simpl.
  - rewrite IH. split.
    + intros (i & Hi & Hseen & Hfirst). exists (S i). split_and!; [done| |].
      * intros ?. apply Hseen. by right.
      * intros [|j] z Hj; simpl; [|intros; eapply Hfirst; [|done]; lia].
        intros [= <-] Heq. apply Hseen. rewrite <- Heq. left.
    + intros ([|i] & Hi & Hseen & Hfirst); simpl in Hi.
      * injection Hi as <-. done.
      * exists i. split_and!; [done| |].
        -- intros [Heq|?]%elem_of_cons; [|done].
           by apply (Hfirst 0%nat y); [lia| |].
        -- intros j z Hj Hz. apply (Hfirst (S j) z); [lia|done].
  - rewrite elem_of_cons, IH. split.
    + intros [->|(i & Hi & Hseen & Hfirst)].
      * exists 0%nat. split_and!; [done..|]. intros; lia.
      * exists (S i). split_and!; [done| |].
        -- intros ?. apply Hseen. by right.
        -- intros [|j] z Hj; simpl; [|intros; eapply Hfirst; [|done]; lia].
           intros [= <-] Heq. apply Hseen. rewrite <- Heq. left.
    + intros ([|i] & Hi & Hseen & Hfirst); simpl in Hi.
      * injection Hi as <-. by left.
      * right. exists i. split_and!; [done| |].
        -- intros [Heq|?]%elem_of_cons; [|done].
           by apply (Hfirst 0%nat y); [lia| |].
        -- intros j z Hj Hz. apply (Hfirst (S j) z); [lia|done].
Qed.

Lemma kept_first (l : list B) (x : B) :
  x ∈ mask_select l (map negb (duplicated (map k l)))
  ↔ ∃ i, l !! i = Some x
         ∧ ∀ j y, (j < i)%nat → l !! j = Some y → k y ≠ k x.
Proof.
  unfold duplicated. rewrite kept_first_from. split.
  - intros (i & ? & _ & ?). eauto.
  - intros (i & ? & ?). exists i. split_and!; [done| |done].
    by intros ?%elem_of_nil.
Qed.

(** The keys of the rows kept are pairwise different. *)
Lemma kept_NoDup_from (seen : list K) (l : list B) :
  NoDup (map k (mask_select l (map negb (duplicated_from seen (map k l))))).
Proof.
  revert seen. induction l as [|y l IH]; intros seen; simpl; [constructor|].
  case_bool_decide as Hy; simpl; [apply IH|].
  constructor; [|apply IH].
  intros (x & Heq & Hx)%list_elem_of_fmap.
  apply kept_first_from in Hx as (i & _ & Hseen & _).
  apply Hseen. rewrite <- Heq. left.
Qed.

Lemma kept_NoDup (l : list B) :
  NoDup (map k (mask_select l (map negb (duplicated (map k l))))).
Proof. apply kept_NoDup_from. Qed.

(** A key met at two places occurs at least twice. *)
Lemma occurrences_twice (l : list B) (i j : nat) (x y : B) :
  (j < i)%nat → l !! i = Some x → l !! j = Some y → k y = k x →
  (2 ≤ occurrences (k x) (map k l))%nat.
Proof.
  intros Hji Hi Hj Heq. unfold occurrences.
  rewrite <- (take_drop_middle l j y Hj), map_app. simpl.
  rewrite filter_app, filter_cons, decide_True by done.
  rewrite length_app. simpl.
  assert (k x ∈ filter (fun z => z = k x) (map k (drop (S j) l))) as Hin.
  { apply list_elem_of_filter. split; [done|].
    apply list_elem_of_fmap. exists x. split; [done|].
    apply list_elem_of_lookup. exists (i - S j)%nat.
    rewrite lookup_drop. rewrite <- Hi. f_equal. lia. }
  destruct (filter _ (map k (drop (S j) l))); [by apply elem_of_nil in Hin|].
  simpl. lia.
Qed.
End Keyed.

(** The stable sort rearranges, nothing else. *)
Lemma insert_by_Permutation {B} (le : B → B → bool) (x : B) (l : list B) :
  insert_by le x l ≡ₚ x :: l.
Proof.
  induction l as [|y l IH]; simpl; [done|].
  destruct (le x y); [done|]. rewrite IH. apply perm_swap.
Qed.

Lemma sorted_by_Permutation {B} (le : B → B → bool) (l : list B) :
  sorted_by le l ≡ₚ l.
Proof.
  induction l as [|x l IH]; simpl; [done|].
  unfold sorted_by in *. simpl. rewrite insert_by_Permutation.
  by constructor.
Qed.

End SeriesSpec.

(** ** helpers.py: the fingerprint and the change detection *)

Module HelpersSpec.
Import Helpers.

Lemma lstrip_no_space (s : string) :
  (∀ c, In c (list_ascii_of_string s) → isspace c = false) → lstrip s = s.
Proof.
  destruct s as [|c s]; simpl; [done|].
  intros Hs. by rewrite (Hs c); [|left].
Qed.

Lemma rstrip_no_space (s : string) :
  (∀ c, In c (list_ascii_of_string s) → isspace c = false) → rstrip s = s.
Proof.
  induction s as [|c s IH]; simpl; [done|].
  intros Hs. rewrite IH; [|intros; apply Hs; by right].
  destruct s; [|done]. by rewrite (Hs c); [|left].
Qed.

Lemma strip_no_space (s : string) :
  (∀ c, In c (list_ascii_of_string s) → isspace c = false) → strip s = s.
Proof.
  intros Hs. unfold strip. rewrite lstrip_no_space by done.
  by apply rstrip_no_space.
Qed.

Lemma string_of_uint_no_space (d : Decimal.uint) (c : ascii) :
  In c (list_ascii_of_string (NilEmpty.string_of_uint d)) → isspace c = false.
Proof.
  induction d; simpl; try (intros [<-|?]; [reflexivity|auto]); done.
Qed.

(** The text [is_data_updated] writes is read back as it is. *)
Lemma strip_str_of_N (n : N) : strip (str_of_N n) = str_of_N n.
Proof. apply strip_no_space, string_of_uint_no_space. Qed.

Lemma str_of_N_inj (m n : N) : str_of_N m = str_of_N n → m = n.
Proof.
  unfold str_of_N. intros Heq.
  assert (N.to_uint m = N.to_uint n) as Hu.
  { apply (f_equal NilEmpty.uint_of_string) in Heq.
    rewrite !NilEmpty.usu in Heq. congruence. }
  apply (f_equal N.of_uint) in Hu.
  by rewrite !DecimalN.Unsigned.of_to in Hu.
Qed.

Lemma uint64_range (z : Z) : 0 ≤ uint64 z < 2 ^ 64.
Proof. unfold uint64. apply Z.mod_pos_bound. lia. Qed.

Lemma series_sum_range (hs : list Z) : 0 ≤ series_sum hs < 2 ^ 64.
Proof.
  destruct hs; simpl; [lia|]. apply uint64_range.
Qed.

(** The wrapped sum is the sum of the hashes, reduced once. *)
Lemma series_sum_mod (hs : list Z) :
  series_sum hs = uint64 (foldr Z.add 0 hs).
Proof.
  induction hs as [|h hs IH]; simpl; [done|].
  rewrite IH. unfold uint64. by rewrite Zplus_mod_idemp_r.
Qed.

Lemma series_sum_Permutation (hs1 hs2 : list Z) :
  hs1 ≡ₚ hs2 → series_sum hs1 = series_sum hs2.
Proof.
  intros Hp. rewrite !series_sum_mod. f_equal.
  induction Hp; simpl; lia.
Qed.

Lemma uint64_add_cancel (a b h h' : Z) :
  uint64 (a + (h + b)) = uint64 (a + (h' + b)) ↔ uint64 h = uint64 h'.
Proof.
  unfold uint64. rewrite !Z.cong_iff_0.
  by replace (a + (h + b) - (a + (h' + b))) with (h - h') by lia.
Qed.

Section Fingerprint.
Context {R : Type} (row_hash : Z → R → Z).

Lemma hash_equal_iff (gdf1 gdf2 : GeoDataFrame R) :
  calculate_gdf_hash row_hash gdf1 = calculate_gdf_hash row_hash gdf2
  ↔ series_sum (hash_pandas_object row_hash gdf1)
    = series_sum (hash_pandas_object row_hash gdf2).
Proof.
  unfold calculate_gdf_hash. split; [|by intros ->].
  intros Heq%str_of_N_inj. apply Z2N.inj in Heq; [done|..];
    apply series_sum_range.
Qed.

(** C2, as the code has it.  Two frames with the same labelled rows in
    the same order have the same fingerprint.  The fingerprint is the
    wrap-around sum of one hash per row, taken from the row's index label
    and its cells: it is the same for any two frames whose labelled rows
    are a rearrangement of each other, so the order of the rows reaches
    the fingerprint only through the index labels.  When two frames differ
    in the cells of one row, their fingerprints differ exactly when the
    two hashes of that row do. *)
Theorem calculate_gdf_hash_labelled_rows (gdf1 gdf2 : GeoDataFrame R) :
  (records gdf1 = records gdf2 →
   calculate_gdf_hash row_hash gdf1 = calculate_gdf_hash row_hash gdf2)
  ∧ (records gdf1 ≡ₚ records gdf2 →
     calculate_gdf_hash row_hash gdf1 = calculate_gdf_hash row_hash gdf2)
  ∧ (∀ (above below : list (Z * R)) label cells1 cells2,
       records gdf1 = (above ++ (label, cells1) :: below)%list →
       records gdf2 = (above ++ (label, cells2) :: below)%list →
       (calculate_gdf_hash row_hash gdf1 = calculate_gdf_hash row_hash gdf2
        ↔ uint64 (row_hash label cells1) = uint64 (row_hash label cells2))).
Proof.
  split_and!.
  - intros Heq. apply hash_equal_iff. unfold hash_pandas_object.
    by rewrite Heq.
  - intros Hp. apply hash_equal_iff, series_sum_Permutation.
    unfold hash_pandas_object. by apply fmap_Permutation.
  - intros above below label cells1 cells2 H1 H2.
    rewrite hash_equal_iff. unfold hash_pandas_object.
    rewrite H1, H2, !series_sum_mod, !map_app. simpl.
    rewrite !foldr_app. simpl.
    set (b := foldr Z.add 0 (map _ below)).
    assert (∀ l z, foldr Z.add z l = foldr Z.add 0 l + z) as Hshift.
    { induction l as [|? ? IH]; intros; simpl; [lia|]. rewrite IH. lia. }
    rewrite (Hshift _ (_ + b)), (Hshift _ (uint64 (row_hash label cells2) + b)).
    rewrite uint64_add_cancel. unfold uint64.
    by rewrite !Z.mod_mod by lia.
Qed.

(** C3: [is_data_updated] answers [False] exactly when the hash file
    exists and holds the fingerprint just computed, and then leaves the
    file system as it was; otherwise it answers [True] and the hash file
    holds the new fingerprint.  Without a hash file the answer is [True]
    and the file is created, and the call that follows with the same
    frame answers [False] and changes nothing. *)
Theorem is_data_updated_correct (gdf : GeoDataFrame R) (hash_file : string)
    (fs : gmap string string) :
  let new_hash := calculate_gdf_hash row_hash gdf in
  let updated := (is_data_updated row_hash gdf hash_file fs).1 in
  let fs' := (is_data_updated row_hash gdf hash_file fs).2 in
  (updated = false ↔
     ∃ stored, fs !! hash_file = Some stored ∧ strip stored = new_hash)
  ∧ (updated = false → fs' = fs)
  ∧ (updated = true → fs' = <[hash_file := new_hash]> fs)
  ∧ (fs !! hash_file = None →
     updated = true ∧ fs' !! hash_file = Some new_hash)
  ∧ is_data_updated row_hash gdf hash_file fs' = (false, fs').
Proof.
  assert (∀ fs0 : gmap string string,
            fs0 !! hash_file = Some (calculate_gdf_hash row_hash gdf) →
            is_data_updated row_hash gdf hash_file fs0 = (false, fs0))
    as Hagain.
  { intros fs0 Hfs0. unfold is_data_updated. rewrite Hfs0.
    unfold calculate_gdf_hash at 2. rewrite strip_str_of_N.
    fold (calculate_gdf_hash row_hash gdf). by rewrite String.eqb_refl. }
  intros new_hash updated fs'. subst updated fs'.
  unfold is_data_updated. fold new_hash.
  destruct (fs !! hash_file) as [stored|] eqn:Hfile; simpl.
  - destruct (String.eqb_spec new_hash (strip stored)) as [Heq|Hne]; simpl.
    + split_and!; try done.
      * split; [eauto|done].
      * fold (is_data_updated row_hash gdf hash_file fs).
        unfold is_data_updated. fold new_hash.
        by rewrite Hfile, <- Heq, String.eqb_refl.
    + split_and!; try done.
      * split; [done|]. intros (stored' & [= <-] & ?). by destruct Hne.
      * apply Hagain. by rewrite lookup_insert_eq.
  - split_and!; try done.
    + split; [done|]. by intros (? & ? & ?).
    + intros _. by rewrite lookup_insert_eq.
    + apply Hagain. by rewrite lookup_insert_eq.
Qed.
End Fingerprint.

(** The fingerprint cannot tell the two orders of [two_rows] apart,
    whatever the hash of a row is. *)
Lemma calculate_gdf_hash_reordered_same :
  records Fixtures.two_rows ≠ records Fixtures.two_rows_reversed
  ∧ records Fixtures.two_rows_reversed = rev (records Fixtures.two_rows)
  ∧ ∀ row_hash : Z → string → Z,
      calculate_gdf_hash row_hash Fixtures.two_rows
      = calculate_gdf_hash row_hash Fixtures.two_rows_reversed.
Proof.
  split_and!; [done|done|]. intros row_hash.
  apply hash_equal_iff, series_sum_Permutation. simpl. apply perm_swap.
Qed.

Lemma calculate_gdf_hash_labelled_rows_witness :
  calculate_gdf_hash Fixtures.toy_row_hash Fixtures.two_rows
  = calculate_gdf_hash Fixtures.toy_row_hash Fixtures.two_rows_reversed.
Proof.
  apply (calculate_gdf_hash_labelled_rows Fixtures.toy_row_hash
           Fixtures.two_rows Fixtures.two_rows_reversed).
  simpl. apply perm_swap.
Defined.

Lemma is_data_updated_correct_witness :
  (is_data_updated Fixtures.toy_row_hash Fixtures.two_rows "data/x.hash" ∅).1
  = true
  ∧ (is_data_updated Fixtures.toy_row_hash Fixtures.two_rows "data/x.hash" ∅).2
      !! "data/x.hash"
    = Some (calculate_gdf_hash Fixtures.toy_row_hash Fixtures.two_rows).
Proof.
  apply (is_data_updated_correct Fixtures.toy_row_hash Fixtures.two_rows
           "data/x.hash" ∅).
  reflexivity.
Defined.

Example calculate_gdf_hash_two_rows :
  calculate_gdf_hash Fixtures.toy_row_hash Fixtures.two_rows = "1195067".
Proof. reflexivity. Qed.

End HelpersSpec.

(** ** austro_control.py: the obstacle parser *)

Module AustroControlSpec.
Import AustroControl PySpec SeriesSpec.

(** What one record of [wtgs] was read from. *)
Lemma read_part_geometry (status : string) (wp_name : option string)
    (wp_name2 : string) (part : element) (w : wtg) :
  read_part status wp_name wp_name2 part = Ok w →
  ∃ pos_element pos,
    find (gml "pos") part = Some pos_element
    ∧ text pos_element = Some pos
    ∧ w_geometry w = split " " pos
    ∧ attribute (gml "id") part = Ok (w_Name w).
Proof.
  unfold read_part. intros Hw.
  repeat (apply bind_Ok in Hw as (? & ? & Hw)).
  injection Hw as <-. simpl.
  match goal with Hpos : text_of (find (gml "pos") part) ≫= some_str = Ok _ |- _ =>
    apply bind_Ok in Hpos as (o & Hfind & Hsome) end.
  destruct (find (gml "pos") part) as [pe|]; [|done].
  injection Hfind as <-. apply of_option_Ok in Hsome.
  by eexists _, _.
Qed.

(** Every record of [wtgs] is a VerticalStructurePart below a
    VerticalStructure of the document whose type is one of the two kept. *)
Lemma collect_wtgs_from (root : element) (wtgs : list wtg) (w : wtg) :
  collect_wtgs root = Ok wtgs → w ∈ wtgs →
  ∃ structure part status wp_name wp_name2,
    structure ∈ iter (aixm "VerticalStructure") root
    ∧ (∃ ty, text_of (find (aixm "type") structure) = Ok ty
             ∧ not_in_valid_types ty = false)
    ∧ part ∈ findall (aixm "VerticalStructurePart") structure
    ∧ read_part status wp_name wp_name2 part = Ok w.
Proof.
  unfold collect_wtgs. intros Hc Hw.
  apply bind_Ok in Hc as (per & Hper & [= <-]).
  apply collect_Ok in Hper.
  apply list_elem_of_In, in_concat in Hw as (ws & Hin & Hws).
  apply list_elem_of_In in Hin, Hws.
  apply list_elem_of_lookup in Hin as [i Hi].
  destruct (Forall2_lookup_r _ _ _ _ _ Hper Hi) as (s & Hs & Hread).
  exists s. unfold read_structure in Hread.
  apply bind_Ok in Hread as (ty & Hty & Hread).
  destruct (not_in_valid_types ty) eqn:Hvalid.
  { injection Hread as <-. by apply elem_of_nil in Hws. }
  repeat (apply bind_Ok in Hread as (? & ? & Hread)).
  apply collect_Ok in Hread.
  apply list_elem_of_lookup in Hws as [j Hj].
  destruct (Forall2_lookup_r _ _ _ _ _ Hread Hj) as (p & Hp & Hpart).
  eexists p, _, _, _. split_and!; eauto using list_elem_of_lookup_2.
Qed.

(** When no structure is kept, nothing is collected. *)
Lemma collect_wtgs_none (root : element) :
  (∀ s, s ∈ iter (aixm "VerticalStructure") root →
        ∃ ty, text_of (find (aixm "type") s) = Ok ty
              ∧ not_in_valid_types ty = true) →
  collect_wtgs root = Ok [].
Proof.
  unfold collect_wtgs. generalize (iter (aixm "VerticalStructure") root).
  intros structures Hall.
  assert (collect read_structure structures
          = Ok (map (fun _ => []) structures)) as ->.
  { induction structures as [|s l IH]; simpl; [done|].
    destruct (Hall s) as (ty & Hty & Hno); [left|].
    unfold read_structure at 1. rewrite Hty. simpl. rewrite Hno. simpl.
    rewrite IH; [done|]. intros; apply Hall. by right. }
  clear Hall. simpl. f_equal. by induction structures.
Qed.

Section Parse.
Context {float64 datetime64 : Type} {pandas : Pandas float64 datetime64}.

(** The derived uid of a record: the second piece of its name, as an
    integer. *)
Lemma uid_column_Ok (names : list string) (uids : list Z) :
  uid_column names = Ok uids →
  Forall2 (fun name uid => uid_of_parts (split "_" name) = Ok uid) names uids.
Proof.
  unfold uid_column. case_match; [done|].
  intros Hc%collect_Ok. by apply Forall2_fmap_l in Hc.
Qed.

(** What [build_frame] returns, when it returns. *)
Lemma build_frame_Ok (wtgs : list wtg) (gdf : GeoDataFrame (obstacle float64)) :
  build_frame wtgs = Ok gdf →
  ∃ uids xs ys fx fy,
    uid_column (map w_Name wtgs) = Ok uids
    ∧ NoDup uids
    ∧ itemgetter 1 (map w_geometry wtgs) = Ok xs
    ∧ itemgetter 0 (map w_geometry wtgs) = Ok ys
    ∧ asarray_float64 xs = Ok fx
    ∧ asarray_float64 ys = Ok fy
    ∧ gdf = mkGeoDataFrame
              (range_index
                 (zip_with (fun w up => make_row w up.1 up.2) wtgs
                           (zip uids (zip_with mkPoint fx fy))))
              (Some 4326).
Proof.
  unfold build_frame. destruct wtgs as [|w0 wtgs0]; [done|].
  set (wtgs := w0 :: wtgs0). intros Hb.
  apply bind_Ok in Hb as (uids & Huids & Hb).
  apply bind_Ok in Hb as (xs & Hxs & Hb).
  apply bind_Ok in Hb as (ys & Hys & Hb).
  apply bind_Ok in Hb as (points & Hpoints & Hb).
  unfold points_from_xy in Hpoints.
  apply bind_Ok in Hpoints as (fx & Hfx & Hpoints).
  apply bind_Ok in Hpoints as (fy & Hfy & [= <-]).
  destruct (Nat.eqb_spec (Series.count_true (Series.duplicated uids)) 0)
    as [Hnone|]; [|done].
  injection Hb as <-. apply duplicated_none in Hnone.
  by exists uids, xs, ys, fx, fy.
Qed.

(** The rows of the frame, one per record of [wtgs] and in their order,
    each with its uid and its two coordinates. *)
Lemma build_frame_rows (wtgs : list wtg) (gdf : GeoDataFrame (obstacle float64)) :
  build_frame wtgs = Ok gdf →
  crs gdf = Some 4326
  ∧ NoDup (map (fun ir => UID ir.2) (records gdf))
  ∧ Forall2 (fun w ir =>
      uid_of_parts (split "_" (w_Name w)) = Ok (UID ir.2)
      ∧ ∃ first second,
          w_geometry w !! 0%nat = Some first
          ∧ w_geometry w !! 1%nat = Some second
          ∧ float_of_str first = Some (y (geometry ir.2))
          ∧ float_of_str second = Some (x (geometry ir.2))
          ∧ Latitude ir.2 = y (geometry ir.2)
          ∧ Longitude ir.2 = x (geometry ir.2))
      wtgs (records gdf).
Proof.
  intros (uids & xs & ys & fx & fy & Hu & Hnd & Hxs & Hys & Hfx & Hfy & ->)
    %build_frame_Ok.
  apply uid_column_Ok in Hu. apply Forall2_fmap_l in Hu.
  apply collect_Ok, Forall2_fmap_l in Hxs.
  apply collect_Ok, Forall2_fmap_l in Hys.
  apply collect_Ok in Hfx. apply collect_Ok in Hfy.
  pose proof (Forall2_length _ _ _ Hu) as Lu.
  pose proof (Forall2_length _ _ _ Hxs) as Lxs.
  pose proof (Forall2_length _ _ _ Hys) as Lys.
  pose proof (Forall2_length _ _ _ Hfx) as Lfx.
  pose proof (Forall2_length _ _ _ Hfy) as Lfy.
  simpl. split; [done|].
  assert (∀ i w, wtgs !! i = Some w →
    ∃ u sx sy vx vy,
      uids !! i = Some u ∧ xs !! i = Some sx ∧ ys !! i = Some sy
      ∧ fx !! i = Some vx ∧ fy !! i = Some vy
      ∧ uid_of_parts (split "_" (w_Name w)) = Ok u
      ∧ w_geometry w !! 1%nat = Some sx ∧ w_geometry w !! 0%nat = Some sy
      ∧ float_of_str sx = Some vx ∧ float_of_str sy = Some vy) as Hrow.
  { intros i w Hw.
    destruct (Forall2_lookup_l _ _ _ _ _ Hu Hw) as (u & Hui & Hu').
    destruct (Forall2_lookup_l _ _ _ _ _ Hxs Hw) as (sx & Hxi & Hx').
    destruct (Forall2_lookup_l _ _ _ _ _ Hys Hw) as (sy & Hyi & Hy').
    destruct (Forall2_lookup_l _ _ _ _ _ Hfx Hxi) as (vx & Hfxi & Hvx).
    destruct (Forall2_lookup_l _ _ _ _ _ Hfy Hyi) as (vy & Hfyi & Hvy).
    apply of_option_Ok in Hx', Hy', Hvx, Hvy.
    exists u, sx, sy, vx, vy. by split_and!. }
  set (rows := zip_with _ wtgs _).
  assert (∀ i w, wtgs !! i = Some w →
    ∃ u vx vy, uids !! i = Some u ∧ fx !! i = Some vx ∧ fy !! i = Some vy
      ∧ rows !! i = Some (make_row w u (mkPoint vx vy))) as Hrows.
  { intros i w Hw.
    destruct (Hrow i w Hw)
      as (u & sx & sy & vx & vy & Hui & _ & _ & Hfxi & Hfyi & _).
    exists u, vx, vy. split_and!; try done. subst rows.
    rewrite lookup_zip_with, Hw. simpl.
    rewrite lookup_zip_with, Hui. simpl.
    by rewrite lookup_zip_with, Hfxi, Hfyi. }
  assert (length rows = length wtgs) as Lrows.
  { subst rows. rewrite length_zip_with, length_zip, length_zip_with. lia. }
  split.
  - replace (map (fun ir => UID ir.2) (range_index rows)) with uids; [done|].
    apply list_eq; intros i. rewrite list_lookup_fmap, range_index_lookup.
    destruct (wtgs !! i) as [w|] eqn:Hw.
    + destruct (Hrows i w Hw) as (u & vx & vy & Hui & _ & _ & Hri).
      by rewrite Hri, Hui.
    + apply lookup_ge_None in Hw.
      rewrite (proj2 (lookup_ge_None uids i)) by lia.
      by rewrite (proj2 (lookup_ge_None rows i)) by lia.
  - apply Forall2_same_length_lookup. split.
    { by rewrite range_index_length. }
    intros i w ir Hw Hir. rewrite range_index_lookup in Hir.
    destruct (Hrow i w Hw)
      as (u & sx & sy & vx & vy & Hui & _ & _ & Hfxi & Hfyi & Huid
          & Hsx & Hsy & Hvx & Hvy).
    destruct (Hrows i w Hw) as (u' & vx' & vy' & Hui' & Hfxi' & Hfyi' & Hri).
    rewrite Hri in Hir. injection Hir as <-. simpl.
    simplify_eq. split; [done|]. by exists sy, sx.
Qed.

Lemma parse_icao_Ok (parser : string → option element)
    (data : option string) (gdf : GeoDataFrame (obstacle float64)) :
  parse_icao parser data = Ok gdf ↔
  ∃ root wtgs, ET_fromstring parser data = Ok root
               ∧ collect_wtgs root = Ok wtgs
               ∧ build_frame wtgs = Ok gdf.
Proof.
  unfold parse_icao, parse_icao_root. split.
  - intros (root & Hroot & (wtgs & Hw & Hb)%bind_Ok)%bind_Ok. eauto.
  - intros (root & wtgs & -> & Hw & Hb). simpl. by rewrite Hw.
Qed.

(** C5: the uids of a frame that [parse_icao] returns are pairwise
    different, and the uid of each row is the one derived from the name
    of the record the row was built from.  When two of the collected
    records derive the same uid, [parse_icao] raises and returns no
    frame; the exception is the [AssertionError] of line 125 as soon as
    the uid column and the points can be computed. *)
Theorem parse_icao_uid_unique (parser : string → option element)
    (data : option string) :
  (∀ gdf, parse_icao parser data = Ok gdf →
     NoDup (map (fun ir => UID ir.2) (records gdf))
     ∧ ∃ root wtgs,
         ET_fromstring parser data = Ok root
         ∧ collect_wtgs root = Ok wtgs
         ∧ Forall2 (fun w ir =>
                      uid_of_parts (split "_" (w_Name w)) = Ok (UID ir.2))
                   wtgs (records gdf))
  ∧ (∀ root wtgs (i j : nat) a b uid,
       ET_fromstring parser data = Ok root →
       collect_wtgs root = Ok wtgs →
       i ≠ j → wtgs !! i = Some a → wtgs !! j = Some b →
       uid_of_parts (split "_" (w_Name a)) = Ok uid →
       uid_of_parts (split "_" (w_Name b)) = Ok uid →
       (∃ e, parse_icao parser data = Raise e)
       ∧ (∀ uids xs ys points,
            uid_column (map w_Name wtgs) = Ok uids →
            itemgetter 1 (map w_geometry wtgs) = Ok xs →
            itemgetter 0 (map w_geometry wtgs) = Ok ys →
            points_from_xy xs ys = Ok points →
            parse_icao parser data = Raise AssertionError)).
Proof.
  split.
  - intros gdf (root & wtgs & Hroot & Hw & Hb)%parse_icao_Ok.
    apply build_frame_rows in Hb as (_ & Hnd & Hrows).
    split; [done|]. exists root, wtgs. split_and!; [done..|].
    eapply Forall2_impl; [done|]. by intros w ir [? _].
  - intros root wtgs i j a b uid Hroot Hw Hij Ha Hb Hua Hub.
    assert (∀ uids, uid_column (map w_Name wtgs) = Ok uids → ¬ NoDup uids)
      as Hdup.
    { intros uids Hu%uid_column_Ok Hnd.
      destruct (Forall2_lookup_l _ _ _ i (w_Name a) Hu) as (u1 & Hi & H1).
      { by rewrite list_lookup_fmap, Ha. }
      destruct (Forall2_lookup_l _ _ _ j (w_Name b) Hu) as (u2 & Hj & H2).
      { by rewrite list_lookup_fmap, Hb. }
      rewrite Hua in H1. rewrite Hub in H2. injection H1 as <-.
      injection H2 as <-. apply Hij. by eapply NoDup_lookup. }
    split.
    + destruct (parse_icao parser data) as [gdf|e] eqn:Hp; [|eauto].
      apply parse_icao_Ok in Hp as (root' & wtgs' & Hroot' & Hw' & Hf).
      rewrite Hroot in Hroot'. injection Hroot' as <-.
      rewrite Hw in Hw'. injection Hw' as <-.
      apply build_frame_Ok in Hf as (uids & ? & ? & ? & ? & Hu & Hnd & _).
      by destruct (Hdup uids).
    + intros uids xs ys points Hu Hxs Hys Hpoints.
      unfold parse_icao, parse_icao_root. rewrite Hroot. simpl.
      rewrite Hw. simpl. unfold build_frame.
      destruct wtgs as [|w0 wtgs0]; [done|].
      rewrite (bind_of_Ok _ _ _ Hu), (bind_of_Ok _ _ _ Hxs),
        (bind_of_Ok _ _ _ Hys), (bind_of_Ok _ _ _ Hpoints).
      destruct (Nat.eqb_spec (Series.count_true (Series.duplicated uids)) 0)
        as [Hnone%duplicated_none|]; [|done].
      by destruct (Hdup uids).
Qed.

(** C8: in a frame that [parse_icao] returns, every row comes from one
    VerticalStructurePart of the document, whose position text is cut at
    the spaces; the first piece, read as a float, is the row's Latitude
    and the y of its point, the second piece is its Longitude and the x
    of its point, and the frame carries EPSG:4326. *)
Theorem parse_icao_lat_lon (parser : string → option element)
    (data : option string) (gdf : GeoDataFrame (obstacle float64)) :
  parse_icao parser data = Ok gdf →
  crs gdf = Some 4326
  ∧ ∃ root wtgs,
      ET_fromstring parser data = Ok root
      ∧ collect_wtgs root = Ok wtgs
      ∧ Forall2 (fun w ir =>
          ∃ structure part pos_element pos first second,
            structure ∈ iter (aixm "VerticalStructure") root
            ∧ part ∈ findall (aixm "VerticalStructurePart") structure
            ∧ attribute (gml "id") part = Ok (Name ir.2)
            ∧ find (gml "pos") part = Some pos_element
            ∧ text pos_element = Some pos
            ∧ split " " pos !! 0%nat = Some first
            ∧ split " " pos !! 1%nat = Some second
            ∧ float_of_str first = Some (Latitude ir.2)
            ∧ float_of_str second = Some (Longitude ir.2)
            ∧ Longitude ir.2 = x (geometry ir.2)
            ∧ Latitude ir.2 = y (geometry ir.2))
          wtgs (records gdf).
Proof.
  intros (root & wtgs & Hroot & Hw & Hb)%parse_icao_Ok.
  pose proof (build_frame_Ok _ _ Hb)
    as (uids & ? & ? & fx & fy & _ & _ & _ & _ & _ & _ & Hgdf).
  apply build_frame_rows in Hb as (Hcrs & _ & Hrows).
  split; [done|]. exists root, wtgs. split_and!; [done..|].
  apply Forall2_same_length_lookup. split; [by eapply Forall2_length|].
  intros i w ir Hi Hir.
  destruct (Forall2_lookup_lr _ _ _ _ _ _ Hrows Hi Hir)
    as (_ & first & second & H0 & H1 & Hy & Hx & Hlat & Hlon).
  destruct (collect_wtgs_from root wtgs w Hw)
    as (structure & part & status & n1 & n2 & Hs & _ & Hp & Hread).
  { by eapply list_elem_of_lookup_2. }
  destruct (read_part_geometry _ _ _ _ _ Hread)
    as (pe & pos & Hfind & Htext & Hgeo & Hid).
  exists structure, part, pe, pos, first, second.
  rewrite <- Hgeo, Hlat, Hlon. split_and!; try done.
  rewrite Hid. f_equal. subst gdf. simpl in Hir.
  rewrite range_index_lookup in Hir.
  rewrite lookup_zip_with, Hi in Hir. simpl in Hir.
  destruct (zip uids _ !! i); simplify_eq/=. done.
Qed.

(** C10: a document in which no VerticalStructure has one of the two
    kept types never yields a frame.  When every VerticalStructure has a
    type, no record is collected and [parse_icao] raises the [KeyError]
    of the missing ["Name"] column; and no frame that [parse_icao]
    returns is empty. *)
Theorem parse_icao_no_windmill (parser : string → option element)
    (data : option string) (root : element) :
  ET_fromstring parser data = Ok root →
  ((∀ s ty, s ∈ iter (aixm "VerticalStructure") root →
            text_of (find (aixm "type") s) = Ok ty →
            not_in_valid_types ty = true) →
   ∃ e, parse_icao parser data = Raise e)
  ∧ ((∀ s, s ∈ iter (aixm "VerticalStructure") root →
           ∃ ty, text_of (find (aixm "type") s) = Ok ty
                 ∧ not_in_valid_types ty = true) →
     collect_wtgs root = Ok []
     ∧ parse_icao parser data = Raise (KeyError ["Name"]))
  ∧ (∀ gdf, parse_icao parser data = Ok gdf → records gdf ≠ []).
Proof.
  intros Hroot. split_and!.
  - intros Hnone.
    destruct (parse_icao parser data) as [gdf|e] eqn:Hp; [|eauto].
    apply parse_icao_Ok in Hp as (root' & wtgs & Hroot' & Hw & Hb).
    rewrite Hroot in Hroot'. injection Hroot' as <-.
    destruct wtgs as [|w wtgs]; [done|].
    destruct (collect_wtgs_from root (w :: wtgs) w Hw)
      as (s & _ & _ & _ & _ & Hs & (ty & Hty & Hvalid) & _); [left|].
    rewrite (Hnone s ty Hs Hty) in Hvalid. done.
  - intros Hw%collect_wtgs_none. split; [done|].
    unfold parse_icao, parse_icao_root. rewrite Hroot. simpl.
    by rewrite Hw.
  - intros gdf (root' & wtgs & ? & Hw & Hb)%parse_icao_Ok.
    destruct wtgs as [|w wtgs]; [done|].
    apply build_frame_rows in Hb as (_ & _ & Hrows).
    by destruct (records gdf); [apply Forall2_nil_inv_r in Hrows|].
Qed.
End Parse.

(** The ways the [try] block ends without bytes named in the
    specification: the request raises, the archive cannot be opened, or
    the archive does not hold exactly one XML member. *)
Lemma download_fails (w : world) (url : string) :
  (requests_get w url = None
   ∨ ∃ content, requests_get w url = Some content
       ∧ (zipfile w content = None
          ∨ ∃ members, zipfile w content = Some members
              ∧ (length (List.filter (fun n => endswith n ".xml")
                                     (map fst members)) ≠ 1%nat
                 ∨ ∃ name m,
                     List.filter (fun n => endswith n ".xml") (map fst members)
                     = [name]
                     ∧ List.find (fun m => String.eqb m.1 name) members = Some m
                     ∧ m.2 = None))) →
  download w url = None.
Proof.
  unfold download.
  intros [->|(content & -> & [->|(members & -> & Hmembers)])]; [done..|].
  destruct Hmembers as [Hlen|(name & m & -> & -> & ->)]; [|done].
  by destruct (List.filter _ _) as [|? [|? ?]].
Qed.

Section Fetch.
Context {float64 datetime64 : Type} {pandas : Pandas float64 datetime64}.

(** C7, as the code has it.  When [get_austro_control_data] has to
    download and the request raises, the archive cannot be opened, the
    archive does not hold exactly one XML member, or its one XML member
    cannot be read, nothing is written to the cache path: the file
    system is left as it was.  But the call does not fail with an error
    of the retrieval: the [RuntimeError] that line 180 raises for it is
    caught by the [except] of line 183, which only prints it, and the
    call goes on to [parse_icao(None)], where [ET.fromstring] raises
    [TypeError]. *)
Theorem get_austro_control_data_failed_download (w : world)
    (fs : filesystem) (data_path : option string) (list_index : Z)
    (overwrite : bool) (publication_date url : string)
    (filename : option string) :
  select_source w fs data_path list_index
    = Ok (publication_date, url, filename) →
  must_download fs filename overwrite = true →
  (requests_get w url = None
   ∨ ∃ content, requests_get w url = Some content
       ∧ (zipfile w content = None
          ∨ ∃ members, zipfile w content = Some members
              ∧ (length (List.filter (fun n => endswith n ".xml")
                                     (map fst members)) ≠ 1%nat
                 ∨ ∃ name m,
                     List.filter (fun n => endswith n ".xml") (map fst members)
                     = [name]
                     ∧ List.find (fun m => String.eqb m.1 name) members = Some m
                     ∧ m.2 = None))) →
  get_austro_control_data w fs data_path list_index overwrite
    = (Raise TypeError, fs).
Proof.
  intros Hsel Hmust Hfail%download_fails.
  unfold get_austro_control_data, fetch_source.
  by rewrite Hsel, Hmust, Hfail.
Qed.
End Fetch.

Lemma parse_icao_uid_unique_witness :
  parse_icao (pandas := Reference.pandas) (fun _ => Some Fixtures.same_uid_twice)
             (Some "document")
  = Raise AssertionError.
Proof.
  pose proof (parse_icao_uid_unique (pandas := Reference.pandas)
                (fun _ => Some Fixtures.same_uid_twice) (Some "document"))
    as [_ Htwice].
  destruct (collect_wtgs Fixtures.same_uid_twice) as [wtgs|] eqn:Hw;
    [|by vm_compute in Hw].
  destruct (wtgs !! 0%nat) as [a|] eqn:Ha;
    [|by vm_compute in Hw; injection Hw as <-].
  destruct (wtgs !! 1%nat) as [b|] eqn:Hb;
    [|by vm_compute in Hw; injection Hw as <-].
  destruct (Htwice Fixtures.same_uid_twice wtgs 0%nat 1%nat a b 101)
    as [_ Hassert];
    [reflexivity | exact Hw | lia | exact Ha | exact Hb | | | ].
  - vm_compute in Hw. injection Hw as <-. by injection Ha as <-.
  - vm_compute in Hw. injection Hw as <-. by injection Hb as <-.
  - vm_compute in Hw. injection Hw as <-.
    apply (Hassert [101; 101] ["16.2"; "16.4"] ["48.1"; "48.3"]
             [@mkPoint (option Z) (Some 16200000) (Some 48100000);
              @mkPoint (option Z) (Some 16400000) (Some 48300000)]);
      vm_compute; reflexivity.
Defined.

Lemma parse_icao_lat_lon_witness :
  ∃ gdf, parse_icao (pandas := Reference.pandas)
           (fun _ => Some Fixtures.two_turbines) (Some "document") = Ok gdf
         ∧ crs gdf = Some 4326.
Proof.
  destruct (parse_icao (pandas := Reference.pandas)
              (fun _ => Some Fixtures.two_turbines) (Some "document"))
    as [gdf|] eqn:Hp; [|by vm_compute in Hp].
  exists gdf. split; [done|].
  by destruct (parse_icao_lat_lon (pandas := Reference.pandas) _ _ gdf Hp).
Defined.

Lemma parse_icao_no_windmill_witness :
  parse_icao (pandas := Reference.pandas) (fun _ => Some Fixtures.no_windmill)
             (Some "document")
  = Raise (KeyError ["Name"]).
Proof.
  destruct (parse_icao_no_windmill (pandas := Reference.pandas)
              (fun _ => Some Fixtures.no_windmill) (Some "document")
              Fixtures.no_windmill eq_refl) as (_ & Hnone & _).
  apply Hnone. intros s Hs. vm_compute in Hs.
  apply list_elem_of_singleton in Hs as ->.
  by exists (Some "OTHER").
Defined.

Lemma get_austro_control_data_failed_download_witness :
  get_austro_control_data (pandas := Reference.pandas)
    (Fixtures.online (Some "PK-two")) Fixtures.data_dir
    (Some "/work/data") 0 false
  = (Raise TypeError, Fixtures.data_dir).
Proof.
  eapply (get_austro_control_data_failed_download (pandas := Reference.pandas)).
  - vm_compute. reflexivity.
  - vm_compute. reflexivity.
  - right. exists "PK-two". split; [reflexivity|].
    right. eexists. split; [reflexivity|]. left. vm_compute. lia.
Defined.

(** An archive whose one XML member cannot be read: the same
    [TypeError], and no file. *)
Example get_austro_control_data_unreadable_member :
  get_austro_control_data (pandas := Reference.pandas)
    MoreFixtures.unreadable_member Fixtures.data_dir
    (Some "/work/data") 0 false
  = (Raise TypeError, Fixtures.data_dir).
Proof. vm_compute. reflexivity. Qed.

(** The parser on the three documents, and a download that works. *)
Example parse_icao_two_turbines :
  (fun gdf => map (fun ir => (ir.1, Name ir.2, UID ir.2, Latitude ir.2,
                              Longitude ir.2, Status ir.2, WindFarm ir.2))
                  (records gdf))
    <$> parse_icao_root (pandas := Reference.pandas) Fixtures.two_turbines
  = Ok [ (0, "VSP_101", 101, Some 48100000, Some 16200000, "Plan", "Nord");
         (1, "VSP_102", 102, Some 48300000, Some 16400000, "Plan", "Nord") ].
Proof. vm_compute. reflexivity. Qed.

Example get_austro_control_data_cached :
  files (get_austro_control_data (pandas := Reference.pandas)
           (Fixtures.online (Some "PK-one")) Fixtures.data_dir
           (Some "/work/data") 0 false).2
    !! "/work/data/LO_OBS_DS_AREA1_20240613.xml"
  = Some "<xml/>".
Proof. vm_compute. reflexivity. Qed.

End AustroControlSpec.

(** ** noe.py: the permitting normalizer *)

Module NoeSpec.
Import Noe PySpec LoopSpec SeriesSpec.

(** A loop that raises does so in its body. *)
Lemma collect_Raise_inv {A B} (f : A → result B) (l : list A) (e : exn) :
  collect f l = Raise e → ∃ x, x ∈ l ∧ f x = Raise e.
Proof.
  induction l as [|x l IH]; simpl; [done|].
  destruct (f x) as [y|e'] eqn:Hx; simpl.
  - destruct (collect f l) as [ys|e'] eqn:Hl; simpl; [done|].
    intros [= <-]. destruct IH as (z & Hz & Hfz); [done|].
    exists z. split; [by right|done].
  - intros [= <-]. exists x. split; [left|done].
Qed.

Lemma foldM_Raise_inv {A S} (f : S → A → result S) (l : list A) (s : S)
    (e : exn) :
  foldM f l s = Raise e → ∃ s' x, x ∈ l ∧ f s' x = Raise e.
Proof.
  revert s. induction l as [|x l IH]; intros s; simpl; [done|].
  destruct (f s x) as [s1|e'] eqn:Hx; simpl.
  - intros (s' & z & Hz & Hfz)%IH. exists s', z. split; [by right|done].
  - intros [= <-]. exists s, x. split; [left|done].
Qed.

Section Cells.
Context {float64 datetime64 : Type} {pandas : Pandas float64 datetime64}.

Lemma find_set_present (col : string) (v : value float64 datetime64)
    (cs : list (string * value float64 datetime64)) :
  existsb (fun cv => String.eqb cv.1 col) cs = true →
  List.find (fun cv => String.eqb cv.1 col)
    (map (fun cv => if String.eqb cv.1 col then (col, v) else cv) cs)
  = Some (col, v).
Proof.
  induction cs as [|[c w] cs IH]; simpl; [done|].
  destruct (String.eqb_spec c col) as [->|Hne]; simpl.
  - by rewrite String.eqb_refl.
  - intros Hex. destruct (String.eqb_spec c col); [done|]. by apply IH.
Qed.

Lemma find_set_other (c col : string) (v : value float64 datetime64)
    (cs : list (string * value float64 datetime64)) :
  c ≠ col →
  List.find (fun cv => String.eqb cv.1 c)
    (map (fun cv => if String.eqb cv.1 col then (col, v) else cv) cs)
  = List.find (fun cv => String.eqb cv.1 c) cs.
Proof.
  intros Hne. induction cs as [|[c' w] cs IH]; simpl; [done|].
  destruct (String.eqb_spec c' col) as [->|Hne']; simpl.
  - destruct (String.eqb_spec col c); [congruence|done].
  - destruct (String.eqb_spec c' c); [done|apply IH].
Qed.

Lemma find_app_absent (col : string) (v : value float64 datetime64)
    (cs : list (string * value float64 datetime64)) :
  existsb (fun cv => String.eqb cv.1 col) cs = false →
  List.find (fun cv => String.eqb cv.1 col) (cs ++ [(col, v)])%list
  = Some (col, v).
Proof.
  induction cs as [|[c w] cs IH]; simpl.
  - by rewrite String.eqb_refl.
  - destruct (String.eqb_spec c col); simpl; [done|apply IH].
Qed.

Lemma find_app_other (c col : string) (v : value float64 datetime64)
    (cs : list (string * value float64 datetime64)) :
  c ≠ col →
  match List.find (fun cv => String.eqb cv.1 c) (cs ++ [(col, v)])%list with
  | Some cv => cv.2
  | None => VNull
  end
  = match List.find (fun cv => String.eqb cv.1 c) cs with
    | Some cv => cv.2
    | None => VNull
    end.
Proof.
  intros Hne. induction cs as [|[c' w] cs IH]; simpl.
  - destruct (String.eqb_spec col c); [congruence|done].
  - destruct (String.eqb_spec c' c); [done|apply IH].
Qed.

(** Reading a cell back after [gdf[col] = ..] *)
Lemma get_set (col : string) (v : value float64 datetime64)
    (r : row float64 datetime64) :
  get col (set col v r) = v.
Proof.
  unfold get, set, has_cell.
  destruct (existsb _ (cells r)) eqn:Hex; simpl.
  - by rewrite find_set_present.
  - by rewrite find_app_absent.
Qed.

Lemma get_set_other (c col : string) (v : value float64 datetime64)
    (r : row float64 datetime64) :
  c ≠ col → get c (set col v r) = get c r.
Proof.
  intros Hne. unfold get, set, has_cell.
  destruct (existsb _ (cells r)) eqn:Hex; simpl.
  - by rewrite find_set_other.
  - by apply find_app_other.
Qed.

Lemma geom_set (col : string) (v : value float64 datetime64)
    (r : row float64 datetime64) :
  geom (set col v r) = geom r.
Proof. unfold set. by destruct (has_cell col r). Qed.

(** The cells of a row built by [gdf[cs]] *)
Lemma get_selected (c : string) (cs : list string)
    (r : row float64 datetime64) (g : geometry float64) :
  c ∈ cs →
  get c (mkRow (map (fun c' => (c', get c' r)) cs) g) = get c r.
Proof.
  unfold get at 1. simpl. induction cs as [|c' cs IH]; simpl.
  - by intros ?%elem_of_nil.
  - destruct (String.eqb_spec c' c) as [->|Hne]; [done|].
    intros [?|?]%elem_of_cons; [congruence|by apply IH].
Qed.

(** One column assignment: the labels and the geometries stay, the cell
    of [col] is what [f] makes of it, the other cells stay. *)
Lemma assign_Ok (f : value float64 datetime64 → result (value float64 datetime64))
    (fr fr' : frame float64 datetime64) (col : string) :
  assign f fr col = Ok fr' →
  columns fr' = columns fr
  ∧ Forall2 (fun ir ir' =>
               ir'.1 = ir.1 ∧ geom ir'.2 = geom ir.2
               ∧ f (get col ir.2) = Ok (get col ir'.2)
               ∧ ∀ c, c ≠ col → get c ir'.2 = get c ir.2)
            (rows fr) (rows fr').
Proof.
  unfold assign. intros (new_column & Hcol%collect_Ok & [= <-])%bind_Ok.
  split; [done|]. simpl.
  induction Hcol as [|ir v rs vs Hv _ IH]; simpl; constructor; [|done].
  simpl. rewrite geom_set, get_set. split_and!; try done.
  intros c Hc. by apply get_set_other.
Qed.

Lemma assign_from_geometry_Ok
    (f : geometry float64 → result (value float64 datetime64))
    (fr fr' : frame float64 datetime64) (col : string) :
  assign_from_geometry f fr col = Ok fr' →
  columns fr' = columns fr
  ∧ Forall2 (fun ir ir' =>
               ir'.1 = ir.1 ∧ geom ir'.2 = geom ir.2
               ∧ f (geom ir.2) = Ok (get col ir'.2)
               ∧ ∀ c, c ≠ col → get c ir'.2 = get c ir.2)
            (rows fr) (rows fr').
Proof.
  unfold assign_from_geometry.
  intros (new_column & Hcol%collect_Ok & [= <-])%bind_Ok.
  split; [done|]. simpl.
  induction Hcol as [|ir v rs vs Hv _ IH]; simpl; constructor; [|done].
  simpl. rewrite geom_set, get_set. split_and!; try done.
  intros c Hc. by apply get_set_other.
Qed.

(** A loop of assignments over distinct columns. *)
Lemma foldM_assign_Ok
    (f : value float64 datetime64 → result (value float64 datetime64))
    (cols : list string) (fr fr' : frame float64 datetime64) :
  NoDup cols →
  foldM (assign f) cols fr = Ok fr' →
  columns fr' = columns fr
  ∧ Forall2 (fun ir ir' =>
               ir'.1 = ir.1 ∧ geom ir'.2 = geom ir.2
               ∧ (∀ c, c ∈ cols → f (get c ir.2) = Ok (get c ir'.2))
               ∧ ∀ c, c ∉ cols → get c ir'.2 = get c ir.2)
            (rows fr) (rows fr').
Proof.
  intros Hnd. revert fr. induction Hnd as [|col cols Hcol Hnd IH]; intros fr.
  - simpl. intros [= <-]. split; [done|].
    apply Forall_Forall2_diag, Forall_forall. intros ir _.
    split_and!; try done. by intros c ?%elem_of_nil.
  - simpl. intros (fr1 & H1 & Hrest)%bind_Ok.
    apply assign_Ok in H1 as [Hc1 H1].
    apply IH in Hrest as [Hc2 H2]. split; [congruence|].
    apply Forall2_same_length_lookup. split.
    { rewrite (Forall2_length _ _ _ H1). by eapply Forall2_length. }
    intros i ir ir' Hi Hi'.
    destruct (Forall2_lookup_l _ _ _ _ _ H1 Hi)
      as (ir1 & Hi1 & Hl1 & Hg1 & Hf1 & Ho1).
    destruct (Forall2_lookup_lr _ _ _ _ _ _ H2 Hi1 Hi')
      as (Hl2 & Hg2 & Hf2 & Ho2).
    split_and!; [congruence..| |].
    + intros c [->|Hc]%elem_of_cons.
      * by rewrite Ho2.
      * rewrite <- Ho1; [by apply Hf2|]. by intros ->.
    + intros c [Hne Hc]%not_elem_of_cons. rewrite Ho2 by done. by apply Ho1.
Qed.


(** *** The float columns *)

Lemma as_integers_Some (cells : list (option (string * float64)))
    (zs : list Z) :
  as_integers cells = Some zs ↔
  Forall2 (fun cell z => ∃ s x, cell = Some (s, x)
                                ∧ to_numeric_int s = Some z) cells zs.
Proof.
  revert zs. induction cells as [|cell cells IH]; intros zs; simpl.
  { split; [intros [= <-]; constructor|]. by intros ->%Forall2_nil_inv_l. }
  destruct cell as [[s x]|].
  2:{ split; [done|].
      by intros (? & ? & (? & ? & ? & _) & _)%Forall2_cons_inv_l. }
  destruct (to_numeric_int s) as [z|] eqn:Hz.
  2:{ split; [done|].
      intros (? & ? & (? & ? & [= <- <-] & ?) & _)%Forall2_cons_inv_l.
      congruence. }
  destruct (as_integers cells) as [zs'|] eqn:Hzs.
  - split.
    + intros [= <-]. constructor; [by exists s, x|]. by apply IH.
    + intros (z' & zs'' & (s' & x' & [= <- <-] & Hz') & Hrest & ->)
        %Forall2_cons_inv_l.
      apply IH in Hrest. congruence.
  - split; [done|].
    intros (z' & zs'' & _ & Hrest & ->)%Forall2_cons_inv_l.
    by apply IH in Hrest.
Qed.

(** The column line 87 gives, cell by cell: the rounded float read from
    the cell, or, in a column of integers, the integer it spells. *)
Lemma to_float_Ok (column vs : list (value float64 datetime64)) :
  to_float column = Ok vs →
  Forall2 (fun v v' =>
     ∃ cell, read_numeric v = Ok cell
       ∧ (v' = VFloat (round 6 (float_of_cell cell))
          ∨ ∃ s x z, cell = Some (s, x) ∧ to_numeric_int s = Some z
                     ∧ v' = VInt z))
    column vs.
Proof.
  unfold to_float. intros (cells & Hcells%collect_Ok & Hvs)%bind_Ok.
  assert (Forall2 (fun cell (v' : value float64 datetime64) =>
            v' = VFloat (round 6 (float_of_cell cell))
            ∨ ∃ s x z, cell = Some (s, x) ∧ to_numeric_int s = Some z
                       ∧ v' = VInt z) cells vs) as Hout.
  { assert (Forall2 (fun cell (v' : value float64 datetime64) =>
              v' = VFloat (round 6 (float_of_cell cell))
              ∨ ∃ s x z, cell = Some (s, x) ∧ to_numeric_int s = Some z
                         ∧ v' = VInt z) cells
              (map (fun cell => VFloat (round 6 (float_of_cell cell))) cells))
      as Hfloats.
    { apply Forall2_fmap_r, Forall_Forall2_diag, Forall_forall.
      intros cell _. by left. }
    destruct (as_integers cells) as [zs|] eqn:Hzs.
    - destruct (uint64_conflict zs); injection Hvs as <-; [exact Hfloats|].
      apply as_integers_Some in Hzs. apply Forall2_fmap_r.
      eapply Forall2_impl; [exact Hzs|].
      intros cell z (s & x & -> & Hz). right. by exists s, x, z.
    - by injection Hvs as <-. }
  eapply Forall2_impl; [exact (Forall2_compose _ _ _ _ _ Hcells Hout)|].
  intros v v' (cell & Hcell & Hv'). by exists cell.
Qed.


(** Line 87 raises what reading one of its cells raises. *)
Lemma to_float_Raise (column : list (value float64 datetime64)) (e : exn) :
  to_float column = Raise e → ∃ v, v ∈ column ∧ read_numeric v = Raise e.
Proof.
  unfold to_float.
  destruct (collect read_numeric column) as [cells|e'] eqn:Hcells; simpl.
  - destruct (as_integers cells) as [zs|]; [|done].
    by destruct (uint64_conflict zs).
  - intros [= <-]. by apply collect_Raise_inv.
Qed.


(** Writing a column cell by cell. *)
Lemma zip_set (rs : list (Z * row float64 datetime64))
    (vs : list (value float64 datetime64)) (col : string) :
  length vs = length rs →
  map (fun ir => get col ir.2)
      (zip_with (fun ir v => (ir.1, set col v ir.2)) rs vs) = vs
  ∧ Forall2 (fun ir ir' =>
               ir'.1 = ir.1 ∧ geom ir'.2 = geom ir.2
               ∧ ∀ c, c ≠ col → get c ir'.2 = get c ir.2)
            rs (zip_with (fun ir v => (ir.1, set col v ir.2)) rs vs).
Proof.
  revert vs. induction rs as [|ir rs IH]; intros [|v vs]; simpl; try done.
  intros [= Hlen]. destruct (IH vs Hlen) as [Hcol Hrows]. split.
  - by rewrite get_set, Hcol.
  - constructor; [|done]. simpl. rewrite geom_set. split_and!; try done.
    intros c Hc. by apply get_set_other.
Qed.

Lemma assign_column_Ok
    (f : list (value float64 datetime64)
         → result (list (value float64 datetime64)))
    (fr fr' : frame float64 datetime64) (col : string) :
  (∀ column vs, f column = Ok vs → length vs = length column) →
  assign_column f fr col = Ok fr' →
  columns fr' = columns fr
  ∧ f (map (fun ir => get col ir.2) (rows fr))
    = Ok (map (fun ir => get col ir.2) (rows fr'))
  ∧ Forall2 (fun ir ir' =>
               ir'.1 = ir.1 ∧ geom ir'.2 = geom ir.2
               ∧ ∀ c, c ≠ col → get c ir'.2 = get c ir.2)
            (rows fr) (rows fr').
Proof.
  intros Hlen. unfold assign_column.
  intros (vs & Hvs & [= <-])%bind_Ok. simpl.
  pose proof (Hlen _ _ Hvs) as Hl. rewrite length_map in Hl.
  destruct (zip_set (rows fr) vs col Hl) as [Hcol Hrows].
  by rewrite Hcol.
Qed.

Lemma to_float_length (column vs : list (value float64 datetime64)) :
  to_float column = Ok vs → length vs = length column.
Proof. intros Hvs%to_float_Ok. symmetry. by eapply Forall2_length. Qed.

(** The loop of lines 84 to 87 over distinct columns. *)
Lemma foldM_to_float_Ok (cols : list string)
    (fr fr' : frame float64 datetime64) :
  NoDup cols →
  foldM (assign_column to_float) cols fr = Ok fr' →
  columns fr' = columns fr
  ∧ Forall2 (fun ir ir' =>
               ir'.1 = ir.1 ∧ geom ir'.2 = geom ir.2
               ∧ (∀ c, c ∈ cols →
                    ∃ cell, read_numeric (get c ir.2) = Ok cell
                      ∧ (get c ir'.2 = VFloat (round 6 (float_of_cell cell))
                         ∨ ∃ s x z, cell = Some (s, x)
                                    ∧ to_numeric_int s = Some z
                                    ∧ get c ir'.2 = VInt z))
               ∧ ∀ c, c ∉ cols → get c ir'.2 = get c ir.2)
            (rows fr) (rows fr')
  ∧ ∀ c, c ∈ cols →
         to_float (map (fun ir => get c ir.2) (rows fr))
         = Ok (map (fun ir => get c ir.2) (rows fr')).
Proof.
  intros Hnd. revert fr. induction Hnd as [|col cols Hcol Hnd IH]; intros fr.
  - simpl. intros [= <-]. split_and!; [done| |by intros c ?%elem_of_nil].
    apply Forall_Forall2_diag, Forall_forall. intros ir _.
    split_and!; try done. by intros c ?%elem_of_nil.
  - simpl. intros (fr1 & H1 & Hrest)%bind_Ok.
    apply assign_column_Ok in H1 as (Hc1 & Hcol1 & H1);
      [|apply to_float_length].
    apply IH in Hrest as (Hc2 & H2 & Hcol2).
    pose proof (to_float_Ok _ _ Hcol1) as Hcells.
    split_and!; [congruence| |].
    + apply Forall2_same_length_lookup. split.
      { rewrite (Forall2_length _ _ _ H1). by eapply Forall2_length. }
      intros i ir ir' Hi Hi'.
      destruct (Forall2_lookup_l _ _ _ _ _ H1 Hi)
        as (ir1 & Hi1 & Hl1 & Hg1 & Ho1).
      destruct (Forall2_lookup_lr _ _ _ _ _ _ H2 Hi1 Hi')
        as (Hl2 & Hg2 & Hf2 & Ho2).
      assert (∃ cell, read_numeric (get col ir.2) = Ok cell
                ∧ (get col ir1.2 = VFloat (round 6 (float_of_cell cell))
                   ∨ ∃ s x z, cell = Some (s, x) ∧ to_numeric_int s = Some z
                              ∧ get col ir1.2 = VInt z)) as Hcell.
      { apply (Forall2_lookup_lr _ _ _ i _ _ Hcells).
        - by rewrite list_lookup_fmap, Hi.
        - by rewrite list_lookup_fmap, Hi1. }
      split_and!; [congruence..| |].
      * intros c [->|Hc]%elem_of_cons.
        -- rewrite Ho2 by done. exact Hcell.
        -- rewrite <- Ho1; [by apply Hf2|]. by intros ->.
      * intros c [Hne Hc]%not_elem_of_cons. rewrite Ho2 by done.
        by apply Ho1.
    + intros c [->|Hc]%elem_of_cons.
      * rewrite Hcol1. f_equal. symmetry.
        apply (Forall2_map_eq (fun ir : Z * row float64 datetime64 => get col ir.2)
                              (fun ir : Z * row float64 datetime64 => get col ir.2)).
        eapply Forall2_impl; [exact H2|].
        intros ir1 ir' (_ & _ & _ & Ho2). by apply Ho2.
      * rewrite <- (Hcol2 c Hc). f_equal. symmetry.
        apply (Forall2_map_eq (fun ir : Z * row float64 datetime64 => get c ir.2)
                              (fun ir : Z * row float64 datetime64 => get c ir.2)).
        eapply Forall2_impl; [exact H1|].
        intros ir ir1 (_ & _ & Ho1). apply Ho1. by intros ->.
Qed.


(** The declared columns: no name twice, no column of two dtypes, and
    ["geometry"] is not one of them. *)
Lemma schema_NoDup :
  NoDup int_cols ∧ NoDup float_cols ∧ NoDup date_cols ∧ NoDup category_cols.
Proof. split_and!; apply (bool_decide_unpack _); by vm_compute. Qed.

Lemma schema_apart :
  Forall (fun c => (c ∉ float_cols) ∧ (c ∉ date_cols) ∧ (c ∉ category_cols)
                   ∧ c ∈ map fst dtypes
                   ∧ c ≠ "Koordinaten Länge [WGS 84]"
                   ∧ c ≠ "Koordinaten Breite [WGS 84]") int_cols
  ∧ Forall (fun c => (c ∉ int_cols) ∧ (c ∉ date_cols) ∧ (c ∉ category_cols)
                     ∧ c ∈ map fst dtypes) float_cols
  ∧ Forall (fun c => (c ∉ int_cols) ∧ (c ∉ float_cols) ∧ (c ∉ category_cols)
                     ∧ c ∈ map fst dtypes
                     ∧ c ≠ "Koordinaten Länge [WGS 84]"
                     ∧ c ≠ "Koordinaten Breite [WGS 84]") date_cols
  ∧ Forall (fun c => (c ∉ int_cols) ∧ (c ∉ float_cols) ∧ (c ∉ date_cols)
                     ∧ c ∈ map fst dtypes
                     ∧ c ≠ "Koordinaten Länge [WGS 84]"
                     ∧ c ≠ "Koordinaten Breite [WGS 84]") category_cols.
Proof. split_and!; apply (bool_decide_unpack _); by vm_compute. Qed.

Lemma selected_attributes :
  List.filter (fun c => negb (String.eqb c "geometry"))
              (map fst dtypes ++ ["geometry"])
  = map fst dtypes.
Proof. vm_compute. reflexivity. Qed.

Lemma key_cols_declared :
  "Vorhaben" ∈ category_cols ∧ "Name der WKA" ∈ category_cols
  ∧ "KG-Nummer" ∈ int_cols ∧ "KG-Nummer" ∈ map fst dtypes
  ∧ "Leistung der WKA [MW]" ∈ float_cols.
Proof. split_and!; apply (bool_decide_unpack _); by vm_compute. Qed.

(** From here on the column lists are names, not values. *)
#[local] Opaque dtypes int_cols float_cols date_cols category_cols key_cols.

(** [gdf[cs]] has the columns [cs] and no other, whatever [gdf] had. *)
Lemma select_Ok (cs : list string) (fr fr' : frame float64 datetime64) :
  select cs fr = Ok fr' →
  columns fr' = cs
  ∧ Forall (fun c => c ∈ columns fr) cs
  ∧ rows fr'
    = map (fun ir =>
             (ir.1,
              mkRow (map (fun c => (c, get c ir.2))
                         (List.filter (fun c => negb (String.eqb c "geometry")) cs))
                    (geom ir.2)))
          (rows fr).
Proof.
  unfold select.
  destruct (List.filter _ cs) as [|c0 missing] eqn:Hmissing; [|done].
  intros [= <-]. split_and!; [done| |done].
  apply Forall_forall. intros c Hc.
  destruct (decide (c ∈ columns fr)) as [|Hno]; [done|].
  assert (In c (List.filter
                  (fun c => negb (bool_decide (c ∈ columns fr))) cs)) as Hin.
  { apply List.filter_In. split; [by apply list_elem_of_In|].
    by rewrite bool_decide_eq_false_2. }
  by rewrite Hmissing in Hin.
Qed.

(** Columns that are not declared never survive [load], and the check
    of lines 66 to 73 always passes on what [load] returns. *)
Lemma load_columns (features : list (feature float64))
    (fr : frame float64 datetime64) :
  load features = Ok fr → columns fr = (map fst dtypes ++ ["geometry"])%list.
Proof. unfold load. by intros [? _]%select_Ok. Qed.

Lemma check_unmapped_declared (fr : frame float64 datetime64) :
  columns fr = (map fst dtypes ++ ["geometry"])%list →
  check_unmapped fr = Ok tt.
Proof. unfold check_unmapped. intros ->. vm_compute. reflexivity. Qed.

(** The rows [load] returns: one per feature, in order, labelled from 0,
    with the feature's geometry and its cells of the declared columns. *)
Lemma load_rows (features : list (feature float64))
    (fr : frame float64 datetime64) :
  load features = Ok fr →
  Forall2 (fun f ir =>
             geom ir.2 = f_geometry f
             ∧ ∀ c, c ∈ map fst dtypes → get c ir.2 = get c (feature_row f))
          features (rows fr)
  ∧ ∀ i ir, rows fr !! i = Some ir → ir.1 = Z.of_nat i.
Proof.
  unfold load. intros (_ & Hcols & Hrows)%select_Ok.
  rewrite selected_attributes in Hrows. rewrite Hrows. clear Hrows Hcols.
  change (rows (drop _ (from_features features)))
    with (range_index (map (feature_row (datetime64 := datetime64))
                           features)).
  split.
  - apply Forall2_same_length_lookup. split.
    { by rewrite length_map, range_index_length, length_map. }
    intros i f ir Hf Hir. rewrite list_lookup_fmap, range_index_lookup in Hir.
    rewrite list_lookup_fmap, Hf in Hir. injection Hir as <-.
    split; [done|]. intros c Hc.
    exact (get_selected c (map fst dtypes) (feature_row f) _ Hc).
  - intros i ir Hir. rewrite list_lookup_fmap, range_index_lookup in Hir.
    destruct (map feature_row features !! i); by simplify_eq/=.
Qed.

(** The frame [coerce] returns, cell by cell: each row is the feature
    at its place, every declared column coerced by the loop of its dtype
    and the two coordinate columns taken from the geometry. *)
Lemma coerce_Ok (features : list (feature float64))
    (fr : frame float64 datetime64) :
  coerce features = Ok fr →
  Forall2 (fun f ir =>
      geom ir.2 = f_geometry f
      ∧ (∀ c, c ∈ int_cols →
              astype_int (get c (feature_row f)) = Ok (get c ir.2))
      ∧ (∀ c, c ∈ float_cols →
              ∃ cell, read_numeric (get c (feature_row f)) = Ok cell
                ∧ (c ≠ "Koordinaten Länge [WGS 84]" →
                   c ≠ "Koordinaten Breite [WGS 84]" →
                   get c ir.2 = VFloat (round 6 (float_of_cell cell))
                   ∨ ∃ s x z, cell = Some (s, x) ∧ to_numeric_int s = Some z
                              ∧ get c ir.2 = VInt z))
      ∧ (∀ c, c ∈ date_cols →
              to_date (get c (feature_row f)) = Ok (get c ir.2))
      ∧ (∀ c, c ∈ category_cols →
              to_category (get c (feature_row f)) = Ok (get c ir.2))
      ∧ geometry_x (f_geometry f)
        = Ok (get "Koordinaten Länge [WGS 84]" ir.2)
      ∧ geometry_y (f_geometry f)
        = Ok (get "Koordinaten Breite [WGS 84]" ir.2))
    features (rows fr)
  ∧ ∀ i ir, rows fr !! i = Some ir → ir.1 = Z.of_nat i.
Proof.
  unfold coerce. intros Hc.
  apply bind_Ok in Hc as (fr0 & Hload & Hc).
  apply bind_Ok in Hc as (_ & _ & Hc).
  apply bind_Ok in Hc as (fr1 & H1 & Hc).
  apply bind_Ok in Hc as (fr2 & H2 & Hc).
  apply bind_Ok in Hc as (fr3 & H3 & Hc).
  apply bind_Ok in Hc as (fr4 & H4 & Hc).
  apply bind_Ok in Hc as (fr5 & H5 & H6).
  destruct schema_NoDup as (Ni & Nf & Nd & Nc).
  destruct schema_apart as (Ai & Af & Ad & Ac).
  rewrite Forall_forall in Ai, Af, Ad, Ac.
  apply load_rows in Hload as [H0 Hlabel].
  apply foldM_assign_Ok in H1 as [_ H1]; [|exact Ni].
  apply foldM_to_float_Ok in H2 as (_ & H2 & _); [|exact Nf].
  apply foldM_assign_Ok in H3 as [_ H3]; [|exact Nd].
  apply foldM_assign_Ok in H4 as [_ H4]; [|exact Nc].
  apply assign_from_geometry_Ok in H5 as [_ H5].
  apply assign_from_geometry_Ok in H6 as [_ H6].
  assert (∀ i ir, rows fr !! i = Some ir →
            ∃ ir0 ir1 ir2 ir3 ir4 ir5,
              rows fr0 !! i = Some ir0
              ∧ Forall2 (fun a b => a = b) [ir0.1; ir1.1; ir2.1; ir3.1; ir4.1; ir5.1]
                        [ir1.1; ir2.1; ir3.1; ir4.1; ir5.1; ir.1]
              ∧ Forall2 (fun a b => a = b)
                        [geom ir0.2; geom ir1.2; geom ir2.2; geom ir3.2;
                         geom ir4.2; geom ir5.2]
                        [geom ir1.2; geom ir2.2; geom ir3.2; geom ir4.2;
                         geom ir5.2; geom ir.2]
              ∧ ((∀ c, c ∈ int_cols → astype_int (get c ir0.2) = Ok (get c ir1.2))
                 ∧ ∀ c, c ∉ int_cols → get c ir1.2 = get c ir0.2)
              ∧ ((∀ c, c ∈ float_cols →
                    ∃ cell, read_numeric (get c ir1.2) = Ok cell
                      ∧ (get c ir2.2 = VFloat (round 6 (float_of_cell cell))
                         ∨ ∃ s x z, cell = Some (s, x)
                                    ∧ to_numeric_int s = Some z
                                    ∧ get c ir2.2 = VInt z))
                 ∧ ∀ c, c ∉ float_cols → get c ir2.2 = get c ir1.2)
              ∧ ((∀ c, c ∈ date_cols → to_date (get c ir2.2) = Ok (get c ir3.2))
                 ∧ ∀ c, c ∉ date_cols → get c ir3.2 = get c ir2.2)
              ∧ ((∀ c, c ∈ category_cols →
                       to_category (get c ir3.2) = Ok (get c ir4.2))
                 ∧ ∀ c, c ∉ category_cols → get c ir4.2 = get c ir3.2)
              ∧ (geometry_x (geom ir4.2)
                 = Ok (get "Koordinaten Länge [WGS 84]" ir5.2)
                 ∧ ∀ c, c ≠ "Koordinaten Länge [WGS 84]" →
                        get c ir5.2 = get c ir4.2)
              ∧ (geometry_y (geom ir5.2)
                 = Ok (get "Koordinaten Breite [WGS 84]" ir.2)
                 ∧ ∀ c, c ≠ "Koordinaten Breite [WGS 84]" →
                        get c ir.2 = get c ir5.2)) as Hchain.
  { intros i ir Hir.
    destruct (Forall2_lookup_r _ _ _ _ _ H6 Hir) as (ir5 & Hi5 & ? & ? & ? & ?).
    destruct (Forall2_lookup_r _ _ _ _ _ H5 Hi5) as (ir4 & Hi4 & ? & ? & ? & ?).
    destruct (Forall2_lookup_r _ _ _ _ _ H4 Hi4) as (ir3 & Hi3 & ? & ? & ? & ?).
    destruct (Forall2_lookup_r _ _ _ _ _ H3 Hi3) as (ir2 & Hi2 & ? & ? & ? & ?).
    destruct (Forall2_lookup_r _ _ _ _ _ H2 Hi2) as (ir1 & Hi1 & ? & ? & ? & ?).
    destruct (Forall2_lookup_r _ _ _ _ _ H1 Hi1) as (ir0 & Hi0 & ? & ? & ? & ?).
    exists ir0, ir1, ir2, ir3, ir4, ir5.
    split_and!; first [assumption | repeat constructor; by symmetry]. }
  split.
  - apply Forall2_same_length_lookup. split.
    { rewrite (Forall2_length _ _ _ H0), (Forall2_length _ _ _ H1),
        (Forall2_length _ _ _ H2), (Forall2_length _ _ _ H3),
        (Forall2_length _ _ _ H4), (Forall2_length _ _ _ H5).
      by eapply Forall2_length. }
    intros i f ir Hf Hir.
    destruct (Hchain i ir Hir)
      as (ir0 & ir1 & ir2 & ir3 & ir4 & ir5 & Hi0 & _ & Hg
          & [Ei Oi] & [Ef Of] & [Ed Od] & [Ec Oc] & [Ex Ox] & [Ey Oy]).
    destruct (Forall2_lookup_lr _ _ _ _ _ _ H0 Hf Hi0) as [Hg0 E0].
    repeat match type of Hg with
           | Forall2 _ (_ :: _) (_ :: _) =>
               apply Forall2_cons in Hg as [? Hg]
           end.
    split_and!.
    + congruence.
    + intros c Hc. destruct (Ai c Hc) as (? & ? & ? & ? & ? & ?).
      rewrite Oy, Ox, Oc, Od, Of, <- E0 by assumption. apply Ei, Hc.
    + intros c Hc. destruct (Af c Hc) as (? & ? & ? & ?).
      destruct (Ef c Hc) as (cell & Hcell & Hv).
      exists cell. split.
      * rewrite <- E0, <- Oi by assumption. exact Hcell.
      * intros ? ?. rewrite Oy, Ox, Oc, Od by assumption. exact Hv.
    + intros c Hc. destruct (Ad c Hc) as (? & ? & ? & ? & ? & ?).
      rewrite Oy, Ox, Oc, <- E0, <- Oi, <- Of by assumption. apply Ed, Hc.
    + intros c Hc. destruct (Ac c Hc) as (? & ? & ? & ? & ? & ?).
      rewrite Oy, Ox, <- E0, <- Oi, <- Of, <- Od by assumption. apply Ec, Hc.
    + rewrite Oy by discriminate. rewrite <- Hg0. replace (geom ir0.2) with (geom ir4.2).
      { done. }
      congruence.
    + rewrite <- Hg0. replace (geom ir0.2) with (geom ir5.2); [done|congruence].
  - intros i ir Hir.
    destruct (Hchain i ir Hir)
      as (ir0 & ir1 & ir2 & ir3 & ir4 & ir5 & Hi0 & Hl & _).
    repeat match type of Hl with
           | Forall2 _ (_ :: _) (_ :: _) =>
               apply Forall2_cons in Hl as [? Hl]
           end.
    rewrite <- (Hlabel i ir0 Hi0). congruence.
Qed.

(** ** Duplicated keys *)

Lemma filter_label (rs : list (Z * row float64 datetime64))
    (x : Z * row float64 datetime64) :
  NoDup (map fst rs) → x ∈ rs →
  List.filter (fun ir => bool_decide (ir.1 = x.1)) rs = [x].
Proof.
  induction rs as [|y rs IH]; simpl; [by intros _ ?%elem_of_nil|].
  intros [Hy Hnd]%NoDup_cons [->|Hx]%elem_of_cons.
  - rewrite bool_decide_eq_true_2 by done. f_equal.
    clear IH. induction rs as [|z rs IH]; simpl; [done|].
    apply not_elem_of_cons in Hy as [Hne Hy].
    apply NoDup_cons in Hnd as [_ Hnd].
    rewrite bool_decide_eq_false_2 by done. by apply IH.
  - rewrite bool_decide_eq_false_2; [by apply IH|].
    intros Heq. apply Hy. rewrite Heq. apply list_elem_of_fmap. eauto.
Qed.

(** [gdf.loc[labels]] with the labels of some rows of [gdf], when no
    label is used twice: those rows. *)
Lemma loc_of_members (rs sub : list (Z * row float64 datetime64)) :
  NoDup (map fst rs) → (∀ x, x ∈ sub → x ∈ rs) →
  loc (map fst sub) rs = sub.
Proof.
  intros Hnd. unfold loc. induction sub as [|x sub IH]; simpl; [done|].
  intros Hsub. rewrite filter_label; [|done|apply Hsub; left].
  simpl. f_equal. apply IH. intros; apply Hsub. by right.
Qed.

Lemma mask_select_no_duplicate {B K} `{EqDecision K} (k : B → K)
    (seen : list K) (l : list B) :
  Series.count_true (Series.duplicated_from seen (map k l)) = 0%nat →
  Series.mask_select l (map negb (Series.duplicated_from seen (map k l))) = l.
Proof.
  revert seen. induction l as [|x l IH]; intros seen; simpl; [done|].
  rewrite count_true_cons. case_bool_decide; simpl; [lia|].
  intros Hnone. f_equal. by apply IH.
Qed.

(** The rows lines 112 to 121 keep: those whose key was not met
    above; and what these lines print. *)
Lemma drop_duplicated_keys_spec (rs : list (Z * row float64 datetime64)) :
  NoDup (map fst rs) →
  let ks := map (fun ir => key_of ir.2) rs in
  let duplicates :=
    List.filter (fun lk => bool_decide (2 ≤ Series.occurrences lk.2 ks)%nat)
                (map (fun ir => (ir.1, key_of ir.2)) rs) in
  (drop_duplicated_keys rs).1
  = Series.mask_select rs (map negb (Series.duplicated ks))
  ∧ (drop_duplicated_keys rs).2
    = match duplicates with
      | [] => []
      | _ => [SizeBefore (length rs); DuplicatedKeys duplicates;
              SizeAfter (length (drop_duplicated_keys rs).1)]
      end.
Proof.
  intros Hnd ks duplicates. unfold drop_duplicated_keys.
  set (key := map (fun ir => (ir.1, key_of ir.2)) rs).
  assert (map snd key = ks) as Hks.
  { subst key ks. by rewrite map_map. }
  rewrite Hks.
  assert (Series.mask_select key (Series.duplicated_all ks) = duplicates)
    as ->.
  { subst duplicates. fold key. rewrite <- mask_select_map.
    unfold Series.duplicated_all. by rewrite <- Hks, map_map. }
  destruct duplicates as [|d ds] eqn:Hdup; simpl.
  - split; [|done]. symmetry.
    apply mask_select_no_duplicate, duplicated_none, NoDup_alt.
    intros i j kx Hi Hj.
    destruct (decide (i = j)) as [|Hne]; [done|exfalso].
    subst ks. rewrite list_lookup_fmap in Hi, Hj.
    destruct (rs !! i) as [x|] eqn:Hxi; [|done].
    destruct (rs !! j) as [y|] eqn:Hxj; [|done].
    simpl in Hi, Hj. injection Hi as Hi. injection Hj as Hj.
    assert ((2 ≤ Series.occurrences (key_of x.2)
                   (map (fun ir => key_of ir.2) rs))%nat) as Htwice.
    { destruct (decide (j < i)%nat).
      - by apply (occurrences_twice (fun ir => key_of ir.2) rs i j x y);
          [| | |congruence].
      - rewrite Hi, <- Hj.
        apply (occurrences_twice (fun ir => key_of ir.2) rs j i y x);
          [lia|done|done|congruence]. }
    assert (In (x.1, key_of x.2) []) as [].
    rewrite <- Hdup. subst duplicates. apply List.filter_In. split.
    + apply list_elem_of_In, list_elem_of_fmap. exists x.
      split; [done|]. by eapply list_elem_of_lookup_2.
    + by apply bool_decide_eq_true_2.
  - subst key. rewrite mask_select_fmap, map_map. simpl.
    rewrite loc_of_members; [done|done|].
    intros x. apply mask_select_elem_of.
Qed.

(** The frame [finish] returns: the coerced rows that are the first
    with their key, each once, in some order under the labels 0, 1, .. *)
Lemma finish_spec (fr : frame float64 datetime64) :
  NoDup (map fst (rows fr)) →
  crs (finish fr).1 = Some 4326
  ∧ NoDup (map (fun ir => key_of ir.2) (records (finish fr).1))
  ∧ (∀ i ir, records (finish fr).1 !! i = Some ir → ir.1 = Z.of_nat i)
  ∧ ∀ r, r ∈ map snd (records (finish fr).1)
         ↔ ∃ i ir, rows fr !! i = Some ir ∧ ir.2 = r
                   ∧ ∀ j jr, (j < i)%nat → rows fr !! j = Some jr →
                             key_of jr.2 ≠ key_of ir.2.
Proof.
  intros Hnd. unfold finish.
  destruct (drop_duplicated_keys_spec (rows fr) Hnd) as [Hkept _].
  destruct (drop_duplicated_keys (rows fr)) as [rs printed].
  simpl in Hkept. subst rs. simpl. unfold reset_index.
  set (kept := Series.mask_select (rows fr) _).
  pose proof (sorted_by_Permutation sort_le kept) as Hperm.
  split_and!.
  - done.
  - rewrite <- (map_map snd key_of), range_index_snd, map_map.
    assert (map (fun ir : Z * row float64 datetime64 => key_of ir.2)
                (Series.sorted_by sort_le kept)
            ≡ₚ map (fun ir => key_of ir.2) kept) as ->.
    { by apply fmap_Permutation. }
    apply (kept_NoDup (fun ir => key_of ir.2)).
  - intros i ir Hi. rewrite range_index_lookup in Hi.
    destruct (map snd _ !! i); by simplify_eq/=.
  - intros r. rewrite range_index_snd.
    rewrite list_elem_of_fmap. split.
    + intros (ir & -> & Hir). rewrite Hperm in Hir.
      apply (kept_first (fun ir => key_of ir.2)) in Hir as (i & Hi & Hfirst).
      by exists i, ir.
    + intros (i & ir & Hi & <- & Hfirst). exists ir. split; [done|].
      rewrite Hperm. apply (kept_first (fun ir => key_of ir.2)). eauto.
Qed.

(** ** What the normalizer does with a feature collection *)

Lemma labels_NoDup (rs : list (Z * row float64 datetime64)) :
  (∀ i ir, rs !! i = Some ir → ir.1 = Z.of_nat i) → NoDup (map fst rs).
Proof.
  intros Hlabel. apply NoDup_alt. intros i j l Hi Hj.
  rewrite list_lookup_fmap in Hi, Hj.
  destruct (rs !! i) as [x|] eqn:Hx; [|done].
  destruct (rs !! j) as [y|] eqn:Hy; [|done].
  apply Hlabel in Hx, Hy. simplify_eq/=. lia.
Qed.

Lemma download_noe_geojson_Ok (features : list (feature float64))
    (out : GeoDataFrame (row float64 datetime64))
    (printed : list (event float64 datetime64)) :
  download_noe_geojson (FeatureCollection features) = (Ok (Some out), printed)
  ↔ ∃ fr, coerce features = Ok fr ∧ finish fr = (out, printed).
Proof.
  simpl. destruct (coerce features) as [fr|e]; simpl.
  - destruct (finish fr) as [out' printed'] eqn:Hfin. split.
    + intros Heq. simplify_eq. eauto.
    + intros (fr' & Hfr & Hfin'). injection Hfr as <-.
      rewrite Hfin in Hfin'. by injection Hfin' as <- <-.
  - split; [done|]. by intros (? & ? & _).
Qed.

Lemma download_noe_geojson_Raise (features : list (feature float64)) :
  (∃ e, (download_noe_geojson (FeatureCollection features)).1 = Raise e)
  ↔ ∀ fr, coerce features ≠ Ok fr.
Proof.
  simpl. destruct (coerce features) as [fr|e]; simpl.
  - destruct (finish fr). simpl. split; [by intros [? ?]|].
    intros Hno. by destruct (Hno fr).
  - split; [done|]. eauto.
Qed.

(** The exceptions of the coercion loops are those of one cell. *)
Lemma foldM_assign_Raise
    (f : value float64 datetime64 → result (value float64 datetime64))
    (cols : list string) (fr : frame float64 datetime64) (e : exn) :
  foldM (assign f) cols fr = Raise e → ∃ v, f v = Raise e.
Proof.
  intros (fr' & col & _ & Hassign)%foldM_Raise_inv.
  unfold assign in Hassign.
  destruct (collect _ (rows fr')) as [vs|e'] eqn:Hcol; [done|].
  injection Hassign as ->.
  apply collect_Raise_inv in Hcol as (ir & _ & Hf). eauto.
Qed.

Lemma foldM_to_float_Raise (cols : list string)
    (fr : frame float64 datetime64) (e : exn) :
  foldM (assign_column to_float) cols fr = Raise e →
  ∃ v, read_numeric v = Raise e.
Proof.
  intros (fr' & col & _ & Hassign)%foldM_Raise_inv.
  unfold assign_column in Hassign.
  destruct (to_float _) as [vs|e'] eqn:Hcol; [done|].
  injection Hassign as ->.
  apply to_float_Raise in Hcol as (v & _ & Hv). eauto.
Qed.

Lemma assign_from_geometry_Raise
    (f : geometry float64 → result (value float64 datetime64))
    (col : string) (fr : frame float64 datetime64) (e : exn) :
  assign_from_geometry f fr col = Raise e → ∃ g, f g = Raise e.
Proof.
  unfold assign_from_geometry.
  destruct (collect _ (rows fr)) as [vs|e'] eqn:Hcol; [done|].
  intros [= ->]. apply collect_Raise_inv in Hcol as (ir & _ & Hf). eauto.
Qed.

Lemma select_Raise (cs : list string) (fr : frame float64 datetime64)
    (e : exn) :
  select cs fr = Raise e → ∃ missing, e = KeyError missing.
Proof.
  unfold select.
  destruct (List.filter _ cs) as [|c0 missing] eqn:Hmissing; [done|].
  intros [= <-]. eauto.
Qed.

(** Nothing after line 60 raises the error of line 73. *)
Lemma coerce_never_unmapped (features : list (feature float64))
    (cols : list string) :
  coerce features ≠ Raise (ValueError (UnmappedColumns cols)).
Proof.
  unfold coerce. intros Hraise.
  apply bind_Raise in Hraise as [Hload|(fr0 & Hload & Hraise)].
  { unfold load in Hload. by apply select_Raise in Hload as [? ?]. }
  apply bind_Raise in Hraise as [Hcheck|(_ & _ & Hraise)].
  { rewrite (check_unmapped_declared fr0) in Hcheck; [done|].
    by eapply load_columns. }
  apply bind_Raise in Hraise as [H1|(fr1 & _ & Hraise)].
  { apply foldM_assign_Raise in H1 as (v & Hv).
    destruct v as [|s| | |]; try done. simpl in Hv.
    by destruct (int_of_str s). }
  apply bind_Raise in Hraise as [H2|(fr2 & _ & Hraise)].
  { apply foldM_to_float_Raise in H2 as (v & Hv).
    destruct v as [|s| | |]; try done. simpl in Hv.
    by destruct (to_numeric _). }
  apply bind_Raise in Hraise as [H3|(fr3 & _ & Hraise)].
  { apply foldM_assign_Raise in H3 as (v & Hv).
    destruct v as [|s| | |]; try done. simpl in Hv.
    by destruct (to_datetime s). }
  apply bind_Raise in Hraise as [H4|(fr4 & _ & Hraise)].
  { apply foldM_assign_Raise in H4 as (v & Hv). by destruct v. }
  apply bind_Raise in Hraise as [H5|(fr5 & _ & Hraise)].
  { apply assign_from_geometry_Raise in H5 as (g & Hg). by destruct g. }
  apply assign_from_geometry_Raise in Hraise as (g & Hg). by destruct g.
Qed.

(** Whatever columns a feature collection has, the call never ends in
    the schema-mismatch error: the columns that are not declared are cut
    away on line 60, before lines 66 to 73 look for them. *)
Lemma download_noe_geojson_never_unmapped (resp : response float64)
    (cols : list string) :
  (download_noe_geojson resp).1 ≠ Raise (ValueError (UnmappedColumns cols)).
Proof.
  destruct resp as [| |features]; simpl; [done..|].
  destruct (coerce features) as [fr|e] eqn:Hc; simpl.
  - by destruct (finish fr).
  - intros [= ->]. by apply coerce_never_unmapped in Hc.
Qed.

(** C4, as the code has it: a feature collection in which some feature
    has a null (or no) KG-Nummer is not normalized.  The call raises, in
    the integer loop of lines 77 to 80 when it gets that far, so the null
    is not passed through (and not turned into 0 either). *)
Theorem download_noe_geojson_null_int (features : list (feature float64))
    (f : feature float64) :
  f ∈ features →
  get (datetime64 := datetime64) "KG-Nummer" (feature_row f) = VNull →
  (∃ e, (download_noe_geojson (FeatureCollection features)).1 = Raise e)
  ∧ ∀ gdf, load features = Ok gdf →
           ∃ e, foldM (assign astype_int) int_cols gdf = Raise e.
Proof.
  intros Hf Hnull. split.
  - apply download_noe_geojson_Raise. intros fr [Hrows _]%coerce_Ok.
    apply list_elem_of_lookup in Hf as [i Hi].
    destruct (Forall2_lookup_l _ _ _ _ _ Hrows Hi) as (ir & _ & _ & Hint & _).
    specialize (Hint "KG-Nummer" (proj1 (proj2 (proj2 key_cols_declared)))).
    rewrite Hnull in Hint. discriminate Hint.
  - intros gdf Hload.
    destruct (foldM (assign astype_int) int_cols gdf) as [fr1|e] eqn:H1;
      [|eauto].
    apply foldM_assign_Ok in H1 as [_ H1]; [|apply schema_NoDup].
    apply load_rows in Hload as [H0 _].
    apply list_elem_of_lookup in Hf as [i Hi].
    destruct (Forall2_lookup_l _ _ _ _ _ H0 Hi) as (ir0 & Hi0 & _ & E0).
    destruct (Forall2_lookup_l _ _ _ _ _ H1 Hi0) as (ir1 & _ & _ & _ & Hint & _).
    specialize (Hint "KG-Nummer" (proj1 (proj2 (proj2 key_cols_declared)))).
    rewrite E0, Hnull in Hint by apply key_cols_declared.
    discriminate Hint.
Qed.

Lemma finish_printed (fr : frame float64 datetime64) :
  (finish fr).2 = (drop_duplicated_keys (rows fr)).2.
Proof. unfold finish. by destruct (drop_duplicated_keys (rows fr)). Qed.

(** C6: in the frame the normalizer returns no key tuple (Vorhaben,
    Name der WKA, longitude, latitude) occurs twice.  The key of a feature
    is made of its two names, stripped, and of the two coordinates of its
    geometry, rounded.  The rows returned are exactly the features that
    are the first with their key, so every later feature with a key
    already met is dropped.  Whenever a feature is dropped, the call has
    printed the series of duplicated keys, and that series holds, under
    their labels, the dropped feature and the one kept before it; and
    every key it holds occurs at least twice among the features. *)
Theorem download_noe_geojson_unique_keys (features : list (feature float64))
    (out : GeoDataFrame (row float64 datetime64))
    (printed : list (event float64 datetime64)) :
  download_noe_geojson (FeatureCollection features) = (Ok (Some out), printed) →
  ∃ fr,
    coerce features = Ok fr
    ∧ Forall2 (fun f ir =>
        ∃ vorhaben name lon lat,
          to_category (get "Vorhaben" (feature_row f)) = Ok vorhaben
          ∧ to_category (get "Name der WKA" (feature_row f)) = Ok name
          ∧ geometry_x (f_geometry f) = Ok lon
          ∧ geometry_y (f_geometry f) = Ok lat
          ∧ key_of ir.2 = [vorhaben; name; lon; lat])
        features (rows fr)
    ∧ NoDup (map (fun ir => key_of ir.2) (records out))
    ∧ (∀ r, r ∈ map snd (records out)
            ↔ ∃ i ir, rows fr !! i = Some ir ∧ ir.2 = r
                      ∧ ∀ j jr, (j < i)%nat → rows fr !! j = Some jr →
                                key_of jr.2 ≠ key_of ir.2)
    ∧ (∀ i j ir jr,
         (j < i)%nat → rows fr !! i = Some ir → rows fr !! j = Some jr →
         key_of jr.2 = key_of ir.2 →
         ∃ duplicates,
           DuplicatedKeys duplicates ∈ printed
           ∧ (ir.1, key_of ir.2) ∈ duplicates
           ∧ (jr.1, key_of jr.2) ∈ duplicates)
    ∧ (∀ duplicates label key,
         DuplicatedKeys duplicates ∈ printed → (label, key) ∈ duplicates →
         (2 ≤ Series.occurrences key
                (map (fun ir => key_of ir.2) (rows fr)))%nat).
Proof.
  intros (fr & Hc & Hfin)%download_noe_geojson_Ok. exists fr.
  pose proof (coerce_Ok _ _ Hc) as [Hrows Hlabel].
  pose proof (labels_NoDup _ Hlabel) as Hnd.
  pose proof (finish_spec fr Hnd) as (_ & Hkeys & _ & Hkept).
  pose proof (finish_printed fr) as Hprinted.
  rewrite Hfin in Hkeys, Hkept, Hprinted. simpl in Hkeys, Hkept, Hprinted.
  destruct (drop_duplicated_keys_spec (rows fr) Hnd) as [_ Hprint].
  rewrite <- Hprinted in Hprint. clear Hprinted.
  split_and!; [done| |done|done| |].
  - eapply Forall2_impl; [exact Hrows|].
    intros f ir (_ & _ & _ & _ & Hcat & Hx & Hy).
    eexists _, _, _, _. split_and!.
    + apply Hcat, key_cols_declared.
    + apply Hcat, key_cols_declared.
    + exact Hx.
    + exact Hy.
    + reflexivity.
  - intros i j ir jr Hji Hi Hj Heq.
    assert (∀ x, x ∈ rows fr → key_of x.2 = key_of ir.2 →
                 In (x.1, key_of x.2)
                    (List.filter
                       (fun lk => bool_decide
                          (2 ≤ Series.occurrences lk.2
                                 (map (fun ir => key_of ir.2) (rows fr)))%nat)
                       (map (fun ir => (ir.1, key_of ir.2)) (rows fr))))
      as Hin.
    { intros x Hx Hk. apply List.filter_In. split.
      - apply list_elem_of_In, list_elem_of_fmap. by exists x.
      - apply bool_decide_eq_true_2. simpl. rewrite Hk.
        by apply (occurrences_twice (fun ir => key_of ir.2) (rows fr) i j ir jr). }
    pose proof (Hin ir (list_elem_of_lookup_2 _ _ _ Hi) eq_refl) as Hir.
    pose proof (Hin jr (list_elem_of_lookup_2 _ _ _ Hj) Heq) as Hjr.
    destruct (List.filter _ _) as [|d ds] eqn:Hdup; [done|].
    exists (d :: ds). rewrite Hprint. split_and!.
    + right. left.
    + by apply list_elem_of_In.
    + by apply list_elem_of_In.
  - intros duplicates label key Hd Hlk. rewrite Hprint in Hd.
    destruct (List.filter _ _) as [|d ds] eqn:Hdup.
    { by apply elem_of_nil in Hd. }
    assert (duplicates = d :: ds) as ->.
    { repeat (apply elem_of_cons in Hd as [Hd|Hd]; [by simplify_eq|]).
      by apply elem_of_nil in Hd. }
    rewrite <- Hdup in Hlk. apply list_elem_of_In, List.filter_In in Hlk as [_ Hlk].
    by apply bool_decide_eq_true_1 in Hlk.
Qed.

Lemma housekeeping_apart :
  Forall (fun c => c ≠ "geometry"
                   ∧ c ∉ ["_fulltext"; "_title"; "_zoomscale"])
         (map fst dtypes).
Proof. apply (bool_decide_unpack _). by vm_compute. Qed.

(** The labels line 60 does not find: the declared columns that no
    feature has. *)
Lemma load_missing (features : list (feature float64)) :
  List.filter
    (fun c => negb (bool_decide
       (c ∈ columns (drop ["_fulltext"; "_title"; "_zoomscale"]
                          (from_features (datetime64 := datetime64) features)))))
    (map fst dtypes ++ ["geometry"])
  = List.filter
      (fun c => negb (bool_decide
         (c ∈ concat (map (fun f => map fst (properties f)) features))))
      (map fst dtypes).
Proof.
  set (names := concat (map (fun f => map fst (properties f)) features)).
  assert (∀ c, c ∈ columns (drop ["_fulltext"; "_title"; "_zoomscale"]
                              (from_features (datetime64 := datetime64) features))
               ↔ (c = "geometry" ∨ c ∈ names)
                 ∧ c ∉ ["_fulltext"; "_title"; "_zoomscale"]) as Hcol.
  { intros c.
    change (columns (drop ["_fulltext"; "_title"; "_zoomscale"]
                          (from_features (datetime64 := datetime64) features)))
      with (List.filter
              (fun c => negb (bool_decide
                                (c ∈ ["_fulltext"; "_title"; "_zoomscale"])))
              (remove_dups ("geometry" :: names))).
    rewrite list_elem_of_In, List.filter_In.
    rewrite <- list_elem_of_In, elem_of_remove_dups, elem_of_cons.
    by rewrite negb_true_iff, bool_decide_eq_false. }
  rewrite List.filter_app.
  assert (List.filter
            (fun c => negb (bool_decide
               (c ∈ columns (drop ["_fulltext"; "_title"; "_zoomscale"]
                    (from_features (datetime64 := datetime64) features)))))
            ["geometry"] = []) as ->.
  { cbn [List.filter]. rewrite bool_decide_eq_true_2; [done|].
    apply Hcol. split; [by left|].
    apply (bool_decide_unpack _). by vm_compute. }
  rewrite app_nil_r. apply filter_ext_in. intros c Hc. f_equal.
  pose proof housekeeping_apart as Hapart. rewrite Forall_forall in Hapart.
  destruct (Hapart c (proj2 (list_elem_of_In _ _) Hc)) as [Hgeo Hhk].
  apply bool_decide_ext. rewrite Hcol. split.
  - by intros [[?|?] _].
  - intros ?. split; [by right|done].
Qed.

(** *** What the float loop needs, and what it gives *)









End Cells.

(** C1, on a feature collection with a column the schema does not
    declare (["Rotordurchmesser [m]"]): the call raises nothing, prints
    nothing and returns a frame whose rows hold the declared columns
    only.  The column is dropped without a word. *)
Theorem download_noe_geojson_extra_column_dropped :
  match download_noe_geojson (pandas := Reference.pandas)
          (FeatureCollection Fixtures.with_extra_column) with
  | (Ok (Some out), printed) =>
      printed = []
      ∧ map (fun ir => map fst (cells ir.2)) (records out) = [map fst dtypes]
  | _ => False
  end.
Proof. vm_compute. split; reflexivity. Qed.

Lemma download_noe_geojson_null_int_witness :
  ∃ e, (download_noe_geojson (pandas := Reference.pandas)
          (FeatureCollection Fixtures.with_null_kg)).1 = Raise e.
Proof.
  eapply proj1, (download_noe_geojson_null_int (pandas := Reference.pandas)).
  - unfold Fixtures.with_null_kg. apply list_elem_of_here.
  - vm_compute. reflexivity.
Defined.

Example download_noe_geojson_null_int_TypeError :
  (download_noe_geojson (pandas := Reference.pandas)
     (FeatureCollection Fixtures.with_null_kg)).1 = Raise TypeError.
Proof. vm_compute. reflexivity. Qed.

Lemma download_noe_geojson_unique_keys_witness :
  ∃ out printed,
    download_noe_geojson (pandas := Reference.pandas)
      (FeatureCollection Fixtures.with_duplicate) = (Ok (Some out), printed)
    ∧ NoDup (map (fun ir => key_of ir.2) (records out)).
Proof.
  destruct (download_noe_geojson (pandas := Reference.pandas)
              (FeatureCollection Fixtures.with_duplicate))
    as [[[out|]|e] printed] eqn:Hrun; try by vm_compute in Hrun.
  exists out, printed. split; [done|].
  by destruct (download_noe_geojson_unique_keys _ _ _ Hrun)
    as (fr & _ & _ & Hkeys & _).
Defined.

Example download_noe_geojson_with_duplicate :
  match download_noe_geojson (pandas := Reference.pandas)
          (FeatureCollection Fixtures.with_duplicate) with
  | (Ok (Some out), printed) =>
      map (fun ir => (ir.1, get "Vorhaben" ir.2, get "Name der WKA" ir.2,
                      get "Leistung der WKA [MW]" ir.2)) (records out)
      = [ (0, VStr "Windpark Au", VStr "WKA 1", VFloat (Some 1230000));
          (1, VStr "Windpark Berg", VStr "WKA 2", VFloat (Some 4200000)) ]
      ∧ match printed with
        | [SizeBefore 3; DuplicatedKeys duplicates; SizeAfter 2] =>
            map fst duplicates = [0; 2]
        | _ => False
        end
  | _ => False
  end.
Proof. vm_compute. split; reflexivity. Qed.



(** Line 87 on three columns: decimal commas, a null and an empty
    string, and integers only. *)
Example to_float_decimal_comma :
  to_float (pandas := Reference.pandas) (datetime64 := Z * Z * Z)
    [VStr "1,23"; VStr "4"]
  = Ok [VFloat (Some 1230000); VFloat (Some 4000000)].
Proof. reflexivity. Qed.

Example to_float_nulls :
  to_float (pandas := Reference.pandas) (datetime64 := Z * Z * Z)
    [VStr "7"; VNull; VStr ""]
  = Ok [VFloat (Some 7000000); VFloat None; VFloat None].
Proof. reflexivity. Qed.

Example to_float_integers :
  to_float (pandas := Reference.pandas) (datetime64 := Z * Z * Z)
    [VStr "7"; VStr "-12"]
  = Ok [VInt 7; VInt (-12)].
Proof. reflexivity. Qed.

Example to_date_day_month_year :
  to_date (pandas := Reference.pandas) (float64 := option Z) (VStr "05.03.2021")
  = Ok (VDate (2021, 3, 5)).
Proof. reflexivity. Qed.

End NoeSpec.

(** * Further properties *)

(** ** Sorting and stripping *)

Module OrderSpec.
Import Series.

Lemma insert_by_HdRel {B} (le : B → B → bool) (x y : B) (l : list B) :
  le y x = true → HdRel (fun a b => le a b = true) y l →
  HdRel (fun a b => le a b = true) y (insert_by le x l).
Proof.
  intros Hyx Hhd. destruct l as [|z l]; simpl; [by constructor|].
  destruct (le x z); constructor; [done|]. by inv Hhd.
Qed.

Lemma insert_by_Sorted {B} (le : B → B → bool) (x : B) (l : list B) :
  (∀ a b, le a b = false → le b a = true) →
  Sorted (fun a b => le a b = true) l →
  Sorted (fun a b => le a b = true) (insert_by le x l).
Proof.
  intros Htotal. induction 1 as [|y l Hsorted IH Hhd]; simpl.
  { repeat constructor. }
  destruct (le x y) eqn:Hxy.
  - constructor; [by constructor|by constructor].
  - constructor; [done|]. apply insert_by_HdRel; [by apply Htotal|done].
Qed.

(** The stable sort puts its result in order, for an order in which any
    two elements compare one way or the other. *)
Lemma sorted_by_Sorted {B} (le : B → B → bool) (l : list B) :
  (∀ a b, le a b = false → le b a = true) →
  Sorted (fun a b => le a b = true) (sorted_by le l).
Proof.
  intros Htotal. induction l as [|x l IH]; simpl; [constructor|].
  by apply insert_by_Sorted.
Qed.

Lemma rstrip_rstrip (s : string) : rstrip (rstrip s) = rstrip s.
Proof.
  induction s as [|c s IH]; simpl; [done|].
  destruct (rstrip s) as [|d r] eqn:Hr.
  - destruct (isspace c) eqn:Hc; simpl; [done|]. by rewrite Hc.
  - change (rstrip (String c (String d r)))
      with (match rstrip (String d r) with
            | EmptyString =>
                if isspace c then EmptyString else String c EmptyString
            | r0 => String c r0
            end).
    by rewrite IH.
Qed.

Lemma rstrip_head (c : ascii) (s : string) :
  isspace c = false → ∃ r, rstrip (String c s) = String c r.
Proof.
  intros Hc. simpl. destruct (rstrip s); [rewrite Hc|]; eauto.
Qed.

Lemma lstrip_head (s : string) :
  lstrip s = EmptyString
  ∨ ∃ c r, lstrip s = String c r ∧ isspace c = false.
Proof.
  induction s as [|c s IH]; simpl; [by left|].
  destruct (isspace c) eqn:Hc; [done|]. right. eauto.
Qed.

(** [strip] leaves nothing to strip. *)
Lemma strip_strip (s : string) : strip (strip s) = strip s.
Proof.
  unfold strip. destruct (lstrip_head s) as [->|(c & r & -> & Hc)]; [done|].
  destruct (rstrip_head c r Hc) as [r' Hr]. rewrite Hr.
  cbn [lstrip]. rewrite Hc, <- Hr. apply rstrip_rstrip.
Qed.

End OrderSpec.

(** ** austro_control.py: the catalog, the names and the statuses *)

Module AustroControlMore.
Import AustroControl PySpec SeriesSpec LoopSpec OrderSpec AustroControlSpec.

(** X1: the links come back in descending order of their publication
    label, they are the links of the catalog and no other, each under the
    label cut out of its own URL (what follows ["LO_OBS_DS_AREA1_"], up to
    the next underscore). *)
Theorem get_austro_control_links_sorted (w : world)
    (links : list (string * string)) :
  get_austro_control_links w = Ok links →
  ∃ hrefs labelled,
    catalog w = Ok hrefs
    ∧ Forall2 (fun href l =>
                 l.2 = base_url ++ href
                 ∧ ∃ rest, split1 "LO_OBS_DS_AREA1_" l.2 !! 1%nat = Some rest
                           ∧ split "_" rest !! 0%nat = Some l.1)
              hrefs labelled
    ∧ links ≡ₚ labelled
    ∧ Sorted (fun a b => String.leb b.1 a.1 = true) links.
Proof.
  unfold get_austro_control_links.
  intros (hrefs & Hcat & (labelled & Hl & [= <-])%bind_Ok)%bind_Ok.
  exists hrefs, labelled. split_and!; [done| | |].
  - apply collect_Ok, Forall2_fmap_l in Hl.
    eapply Forall2_impl; [exact Hl|]. intros href l Hlink. simpl in Hlink.
    unfold link_of in Hlink.
    apply bind_Ok in Hlink as (rest & Hrest%of_option_Ok & Hlink).
    apply bind_Ok in Hlink as (label & Hlabel%of_option_Ok & [= <-]).
    simpl. split; [done|]. by exists rest.
  - rewrite rev_alt. fold (reverse (Series.sorted_by
      (fun a b : string * string => String.leb a.1 b.1) labelled)).
    by rewrite reverse_Permutation, sorted_by_Permutation.
  - rewrite rev_alt.
    apply (Sorted_reverse (fun a b : string * string => String.leb a.1 b.1 = true)).
    apply sorted_by_Sorted. intros a b Hab.
    destruct (String.leb_total a.1 b.1) as [Hle|Hle]; [congruence|done].
Qed.

(** X2: one link of the catalog without ["LO_OBS_DS_AREA1_"] in it makes
    the whole call raise [IndexError]; no list is returned. *)
Theorem get_austro_control_links_marker (w : world) (hrefs : list string)
    (href : string) :
  catalog w = Ok hrefs → href ∈ hrefs →
  split1 "LO_OBS_DS_AREA1_" (base_url ++ href) !! 1%nat = None →
  get_austro_control_links w = Raise IndexError.
Proof.
  intros Hcat Hin Hnone. unfold get_austro_control_links. rewrite Hcat. simpl.
  destruct (collect link_of _) as [labelled|e] eqn:Hl; simpl.
  - apply collect_Ok, Forall2_fmap_l in Hl.
    apply list_elem_of_lookup in Hin as [i Hi].
    destruct (Forall2_lookup_l _ _ _ _ _ Hl Hi) as (l & _ & Hlink).
    simpl in Hlink. unfold link_of in Hlink. by rewrite Hnone in Hlink.
  - f_equal. clear Hin Hnone Hcat.
    revert e Hl. induction hrefs as [|h hrefs IH]; intros e; simpl; [done|].
    destruct (link_of (base_url ++ h)) as [l|e'] eqn:Hh; simpl.
    + destruct (collect link_of _) as [ls|e''] eqn:Hls; simpl; [done|].
      intros [= <-]. by apply IH.
    + intros [= <-]. unfold link_of in Hh.
      destruct (split1 _ _ !! 1%nat); simpl in Hh; [|by injection Hh].
      destruct (split "_" _ !! 0%nat); simpl in Hh; [done|by injection Hh].
Qed.

(** X3: a cleaned farm name has no white space left at either end, and a
    name that starts with none of the five prefixes is only stripped. *)
Theorem clean_name_stripped (s : string) :
  strip (clean_name s) = clean_name s
  ∧ (startswith s "Windpark " = false → startswith s "WP " = false →
     startswith s "WKA " = false → startswith s "Windturbine " = false →
     startswith s "Windkraftanlage" = false → clean_name s = strip s).
Proof.
  split.
  - unfold clean_name. repeat case_match; apply strip_strip.
  - unfold clean_name. by intros -> -> -> -> ->.
Qed.

(** X4: the status table maps no label to a code, so normalizing a
    status twice is normalizing it once; a code that is not in the table
    is passed through, and ["OTHER:CONSTRUCTION_PLANNED"] becomes
    ["Plan"]. *)
Theorem rd_get_stable (s : string) :
  rd_get (rd_get s) = rd_get s
  ∧ (s ∉ map fst rd → rd_get s = s)
  ∧ rd_get "OTHER:CONSTRUCTION_PLANNED" = "Plan".
Proof.
  assert (Forall (fun kv => rd_get kv.2 = kv.2) rd) as Hvalues.
  { by repeat constructor. }
  split_and!; [| |done].
  - unfold rd_get at 2 3.
    destruct (List.find _ rd) as [kv|] eqn:Hfind.
    2:{ unfold rd_get. by rewrite Hfind. }
    apply find_some in Hfind as [Hin _].
    rewrite Forall_forall in Hvalues. by apply Hvalues, list_elem_of_In.
  - intros Hno. unfold rd_get.
    destruct (List.find _ rd) as [kv|] eqn:Hfind; [|done].
    apply find_some in Hfind as [Hin Heq]. destruct Hno.
    apply String.eqb_eq in Heq as <-.
    apply list_elem_of_fmap. exists kv. by rewrite list_elem_of_In.
Qed.

(** *** The records of a document *)

(** What one record holds of its VerticalStructure and of its
    VerticalStructurePart. *)
Lemma read_part_Ok (status : string) (wp_name : option string)
    (wp_name2 : string) (part : element) (w : wtg) :
  read_part status wp_name wp_name2 part = Ok w →
  w_Status w = status ∧ w_WPID w = wp_name ∧ w_WindFarm w = wp_name2
  ∧ attribute (gml "id") part = Ok (w_Name w)
  ∧ text_of (find (aixm "verticalExtent") part) = Ok (w_VerticalExtent w)
  ∧ text_of (find (aixm "verticalExtentAccuracy") part)
    = Ok (w_VerticalAccuracy w)
  ∧ text_of (find (aixm "horizontalAccuracy") part)
    = Ok (w_HorizontalAccuracy w)
  ∧ text_of (find (aixm "elevation") part) = Ok (w_Elevation w)
  ∧ text_of (find (aixm "type") part) = Ok (w_Type w)
  ∧ ∃ pos, text_of (find (gml "pos") part) = Ok (Some pos)
           ∧ w_geometry w = split " " pos.
Proof.
  unfold read_part. intros Hw.
  apply bind_Ok in Hw as (name & Hname & Hw).
  apply bind_Ok in Hw as (vext & Hvext & Hw).
  apply bind_Ok in Hw as (vacc & Hvacc & Hw).
  apply bind_Ok in Hw as (hacc & Hhacc & Hw).
  apply bind_Ok in Hw as (pos & Hpos & Hw).
  apply bind_Ok in Hw as (elev & Helev & Hw).
  apply bind_Ok in Hw as (ty & Hty & [= <-]).
  apply bind_Ok in Hpos as (opos & Hfind & Hsome%of_option_Ok).
  subst opos. simpl. split_and!; try done. by exists pos.
Qed.

(** The structures whose records are kept. *)
Lemma read_structure_Ok (s : element) (ws : list wtg) :
  read_structure s = Ok ws →
  ∃ ty, text_of (find (aixm "type") s) = Ok ty
    ∧ if not_in_valid_types ty then ws = []
      else ∃ status wp_name note note_text,
             text_of (find (aixm "constructionStatus") s) = Ok (Some status)
             ∧ text_of (find (aixm "name") s) = Ok wp_name
             ∧ find (aixm "Note") s = Some note
             ∧ text_of (find (aixm "note") note) = Ok (Some note_text)
             ∧ Forall2 (fun part w =>
                          read_part (strip status) wp_name
                                    (clean_name note_text) part = Ok w)
                       (findall (aixm "VerticalStructurePart") s) ws.
Proof.
  unfold read_structure. intros Hs.
  apply bind_Ok in Hs as (ty & Hty & Hs). exists ty. split; [done|].
  destruct (not_in_valid_types ty); [by injection Hs|].
  apply bind_Ok in Hs as (status & Hstatus & Hs).
  apply bind_Ok in Hs as (wp_name & Hname & Hs).
  apply bind_Ok in Hs as (note & Hnote%of_option_Ok & Hs).
  apply bind_Ok in Hs as (note_text & Htext & Hs%collect_Ok).
  apply bind_Ok in Hstatus as (ostatus & Hstatus & ->%of_option_Ok).
  apply bind_Ok in Htext as (otext & Htext & ->%of_option_Ok).
  by exists status, wp_name, note, note_text.
Qed.

(** The records collected from a document: one for every
    VerticalStructurePart below a VerticalStructure of a kept type, in
    document order. *)
Lemma collect_wtgs_Ok (root : element) (wtgs : list wtg) :
  collect_wtgs root = Ok wtgs →
  Forall2 (fun sp w =>
      ∃ status wp_name note note_text,
        text_of (find (aixm "constructionStatus") sp.1) = Ok (Some status)
        ∧ text_of (find (aixm "name") sp.1) = Ok wp_name
        ∧ find (aixm "Note") sp.1 = Some note
        ∧ text_of (find (aixm "note") note) = Ok (Some note_text)
        ∧ read_part (strip status) wp_name (clean_name note_text) sp.2 = Ok w)
    (flat_map (fun s => map (fun part => (s, part))
                            (findall (aixm "VerticalStructurePart") s))
       (List.filter
          (fun s => match text_of (find (aixm "type") s) with
                    | Ok ty => negb (not_in_valid_types ty)
                    | Raise _ => false
                    end)
          (iter (aixm "VerticalStructure") root)))
    wtgs.
Proof.
  unfold collect_wtgs. intros (per & Hper%collect_Ok & [= <-])%bind_Ok.
  induction Hper as [|s ws structures per Hs _ IH]; simpl; [constructor|].
  apply read_structure_Ok in Hs as (ty & Hty & Hs). rewrite Hty.
  destruct (not_in_valid_types ty); simpl.
  - subst ws. exact IH.
  - destruct Hs as (status & wp_name & note & note_text & ? & ? & ? & ? & Hws).
    apply Forall2_app; [|exact IH].
    apply Forall2_fmap_l. eapply Forall2_impl; [exact Hws|].
    intros part w Hw. simpl. by exists status, wp_name, note, note_text.
Qed.

Section Rows.
Context {float64 datetime64 : Type} {pandas : Pandas float64 datetime64}.

(** The rows of the frame are built from the records, one for one. *)
Lemma build_frame_make_row (wtgs : list wtg)
    (gdf : GeoDataFrame (obstacle float64)) :
  build_frame wtgs = Ok gdf →
  Forall2 (fun w ir => ∃ uid p, ir.2 = make_row w uid p) wtgs (records gdf)
  ∧ ∀ i ir, records gdf !! i = Some ir → ir.1 = Z.of_nat i.
Proof.
  intros Hb. pose proof (build_frame_rows _ _ Hb) as (_ & _ & Hrows).
  apply build_frame_Ok in Hb as (uids & xs & ys & fx & fy & _ & _ & _ & _ & _ & _ & ->).
  simpl in *. split.
  - apply Forall2_same_length_lookup. split; [by eapply Forall2_length|].
    intros i w ir Hw Hir. rewrite range_index_lookup in Hir.
    rewrite lookup_zip_with, Hw in Hir. simpl in Hir.
    destruct (zip uids _ !! i) as [[uid p]|]; simplify_eq/=. eauto.
  - intros i ir Hir. rewrite range_index_lookup in Hir.
    destruct (zip_with _ _ _ !! i); by simplify_eq/=.
Qed.

(** X5: a frame that [parse_icao] returns has one row for every
    VerticalStructurePart below a VerticalStructure whose type is
    WINDMILL_FARMS or WINDMILL, in document order and under the labels
    0, 1, ..; the row's Name is the gml:id of its part. *)
Theorem parse_icao_one_row_per_part (parser : string → option element)
    (data : option string) (gdf : GeoDataFrame (obstacle float64)) :
  parse_icao parser data = Ok gdf →
  ∃ root,
    ET_fromstring parser data = Ok root
    ∧ Forall2 (fun part ir => attribute (gml "id") part = Ok (Name ir.2))
        (flat_map (findall (aixm "VerticalStructurePart"))
           (List.filter
              (fun s => match text_of (find (aixm "type") s) with
                        | Ok ty => negb (not_in_valid_types ty)
                        | Raise _ => false
                        end)
              (iter (aixm "VerticalStructure") root)))
        (records gdf)
    ∧ ∀ i ir, records gdf !! i = Some ir → ir.1 = Z.of_nat i.
Proof.
  intros (root & wtgs & Hroot & Hw & Hb)%parse_icao_Ok. exists root.
  apply collect_wtgs_Ok in Hw. apply build_frame_make_row in Hb as [Hrows Hl].
  split_and!; [done| |done].
  pose proof (Forall2_compose _ _ _ _ _ Hw Hrows) as Hall.
  rewrite (flat_map_paired (findall (aixm "VerticalStructurePart"))).
  apply Forall2_fmap_l. eapply Forall2_impl; [exact Hall|].
  intros sp ir (w & (? & ? & ? & ? & _ & _ & _ & _ & Hread) & uid & p & Hir).
  simpl. rewrite Hir. simpl.
  by apply read_part_Ok in Hread as (_ & _ & _ & ? & _).
Qed.

(** X6: every row inherits from the VerticalStructure of its part: WPID
    is the text of the structure's name, WindFarm its note cleaned by
    [clean_name], Status its construction status, stripped and looked up
    in the status table. *)
Theorem parse_icao_inherits (parser : string → option element)
    (data : option string) (gdf : GeoDataFrame (obstacle float64)) :
  parse_icao parser data = Ok gdf →
  ∃ root,
    ET_fromstring parser data = Ok root
    ∧ Forall (fun ir =>
        ∃ s part status note note_text,
          s ∈ iter (aixm "VerticalStructure") root
          ∧ part ∈ findall (aixm "VerticalStructurePart") s
          ∧ attribute (gml "id") part = Ok (Name ir.2)
          ∧ text_of (find (aixm "name") s) = Ok (WPID ir.2)
          ∧ text_of (find (aixm "constructionStatus") s) = Ok (Some status)
          ∧ Status ir.2 = rd_get (strip status)
          ∧ find (aixm "Note") s = Some note
          ∧ text_of (find (aixm "note") note) = Ok (Some note_text)
          ∧ WindFarm ir.2 = clean_name note_text)
        (records gdf).
Proof.
  intros (root & wtgs & Hroot & Hw & Hb)%parse_icao_Ok. exists root.
  apply collect_wtgs_Ok in Hw. apply build_frame_make_row in Hb as [Hrows _].
  split; [done|].
  pose proof (Forall2_compose _ _ _ _ _ Hw Hrows) as Hall.
  apply Forall_forall. intros ir Hir.
  apply list_elem_of_lookup in Hir as [i Hi].
  destruct (Forall2_lookup_r _ _ _ _ _ Hall Hi)
    as ([s part] & Hsp & w & (status & wp_name & note & note_text
        & Hstatus & Hname & Hnote & Htext & Hread) & uid & p & Hir).
  rewrite Hir. simpl in *.
  apply list_elem_of_lookup_2, list_elem_of_In, in_flat_map in Hsp
    as (s' & Hs' & Hpart).
  apply in_map_iff in Hpart as (part' & [= -> ->] & Hpart).
  apply List.filter_In in Hs' as [Hs' _].
  apply read_part_Ok in Hread as (Hst & Hwp & Hwf & Hid & _).
  exists s, part, status, note, note_text.
  rewrite Hst, Hwf, Hwp. split_and!; try done; by apply list_elem_of_In.
Qed.

(** X7: the numbers of a row are read from its own
    VerticalStructurePart, a text that is missing or is no number giving
    NaN and no error; TerrainElevation is Elevation minus VerticalExtent,
    rounded to one place; Type is the type of the part. *)
Theorem parse_icao_numbers (parser : string → option element)
    (data : option string) (gdf : GeoDataFrame (obstacle float64)) :
  parse_icao parser data = Ok gdf →
  ∃ root,
    ET_fromstring parser data = Ok root
    ∧ Forall (fun ir =>
        ∃ s part elevation vertical_extent vertical_accuracy
            horizontal_accuracy,
          s ∈ iter (aixm "VerticalStructure") root
          ∧ part ∈ findall (aixm "VerticalStructurePart") s
          ∧ attribute (gml "id") part = Ok (Name ir.2)
          ∧ text_of (find (aixm "elevation") part) = Ok elevation
          ∧ Elevation ir.2 = to_numeric_coerce elevation
          ∧ text_of (find (aixm "verticalExtent") part) = Ok vertical_extent
          ∧ VerticalExtent ir.2 = to_numeric_coerce vertical_extent
          ∧ text_of (find (aixm "verticalExtentAccuracy") part)
            = Ok vertical_accuracy
          ∧ VerticalAccuracy ir.2 = to_numeric_coerce vertical_accuracy
          ∧ text_of (find (aixm "horizontalAccuracy") part)
            = Ok horizontal_accuracy
          ∧ HorizontalAccuracy ir.2 = to_numeric_coerce horizontal_accuracy
          ∧ text_of (find (aixm "type") part) = Ok (Type_ ir.2)
          ∧ TerrainElevation ir.2
            = round 1 (float_sub (Elevation ir.2) (VerticalExtent ir.2)))
        (records gdf).
Proof.
  intros (root & wtgs & Hroot & Hw & Hb)%parse_icao_Ok. exists root.
  apply collect_wtgs_Ok in Hw. apply build_frame_make_row in Hb as [Hrows _].
  split; [done|].
  pose proof (Forall2_compose _ _ _ _ _ Hw Hrows) as Hall.
  apply Forall_forall. intros ir Hir.
  apply list_elem_of_lookup in Hir as [i Hi].
  destruct (Forall2_lookup_r _ _ _ _ _ Hall Hi)
    as ([s part] & Hsp & w & (status & wp_name & note & note_text
        & _ & _ & _ & _ & Hread) & uid & p & Hir).
  rewrite Hir. simpl in *.
  apply list_elem_of_lookup_2, list_elem_of_In, in_flat_map in Hsp
    as (s' & Hs' & Hpart).
  apply in_map_iff in Hpart as (part' & [= -> ->] & Hpart).
  apply List.filter_In in Hs' as [Hs' _].
  apply read_part_Ok in Hread
    as (_ & _ & _ & Hid & Hvext & Hvacc & Hhacc & Helev & Hty & _).
  exists s, part, (w_Elevation w), (w_VerticalExtent w),
    (w_VerticalAccuracy w), (w_HorizontalAccuracy w).
  split_and!; try done; by apply list_elem_of_In.
Qed.

(** X8: a position with fewer than two tokens, in a document whose
    records and uids can otherwise be read, makes [parse_icao] raise
    IndexError: no row is given a default coordinate. *)
Theorem parse_icao_short_position (parser : string → option element)
    (data : option string) (root : element) (wtgs : list wtg)
    (uids : list Z) (w : wtg) :
  ET_fromstring parser data = Ok root →
  collect_wtgs root = Ok wtgs →
  uid_column (map w_Name wtgs) = Ok uids →
  w ∈ wtgs →
  (length (w_geometry w) < 2)%nat →
  parse_icao parser data = Raise IndexError.
Proof.
  intros Hroot Hw Hu Hin Hlen.
  assert (itemgetter 1 (map w_geometry wtgs) = Raise IndexError) as Hget.
  { apply collect_Raise_same.
    - intros tokens e'. by destruct (tokens !! 1%nat); intros [= <-].
    - exists (w_geometry w), IndexError. split.
      + apply list_elem_of_In, in_map, list_elem_of_In, Hin.
      + rewrite lookup_ge_None_2; [done|lia]. }
  unfold parse_icao, parse_icao_root.
  rewrite (bind_of_Ok _ _ _ Hroot), (bind_of_Ok _ _ _ Hw).
  unfold build_frame. destruct wtgs as [|w0 wtgs0]; [by inv Hin|].
  by rewrite (bind_of_Ok _ _ _ Hu), Hget.
Qed.

End Rows.

Lemma get_austro_control_links_sorted_witness :
  ∃ links, get_austro_control_links (Fixtures.online None) = Ok links
           ∧ Sorted (fun a b => String.leb b.1 a.1 = true) links.
Proof.
  destruct (get_austro_control_links (Fixtures.online None))
    as [links|] eqn:Hlinks; [|by vm_compute in Hlinks].
  exists links. split; [reflexivity|].
  by destruct (get_austro_control_links_sorted _ links Hlinks)
    as (? & ? & _ & _ & _ & Hsorted).
Defined.

Lemma get_austro_control_links_marker_witness :
  get_austro_control_links MoreFixtures.other_link = Raise IndexError.
Proof.
  apply (get_austro_control_links_marker MoreFixtures.other_link
           [ "data/LO_OBS_DS_AREA1_20240321_x.zip"; "data/terms.pdf" ]
           "data/terms.pdf").
  - reflexivity.
  - apply list_elem_of_further, list_elem_of_here.
  - vm_compute. reflexivity.
Defined.

Lemma clean_name_stripped_witness :
  clean_name " Anlage 7 " = strip " Anlage 7 ".
Proof.
  apply (proj2 (clean_name_stripped " Anlage 7 ")); reflexivity.
Defined.

Lemma rd_get_stable_witness : rd_get "DEMOLISHED" = "DEMOLISHED".
Proof.
  apply (proj1 (proj2 (rd_get_stable "DEMOLISHED"))).
  apply (bool_decide_unpack _). vm_compute. reflexivity.
Defined.

Lemma parse_icao_one_row_per_part_witness :
  ∃ gdf, parse_icao (pandas := Reference.pandas)
           (fun _ => Some Fixtures.two_turbines) (Some "document") = Ok gdf
         ∧ ∀ i ir, records gdf !! i = Some ir → ir.1 = Z.of_nat i.
Proof.
  destruct (parse_icao (pandas := Reference.pandas)
              (fun _ => Some Fixtures.two_turbines) (Some "document"))
    as [gdf|] eqn:Hp; [|by vm_compute in Hp].
  exists gdf. split; [reflexivity|].
  by destruct (parse_icao_one_row_per_part (pandas := Reference.pandas)
                 _ _ gdf Hp) as (? & _ & _ & Hlabels).
Defined.

Lemma parse_icao_inherits_witness :
  ∃ gdf, parse_icao (pandas := Reference.pandas)
           (fun _ => Some Fixtures.two_turbines) (Some "document") = Ok gdf
         ∧ Forall (fun ir => ∃ note_text, WindFarm ir.2 = clean_name note_text)
                  (records gdf).
Proof.
  destruct (parse_icao (pandas := Reference.pandas)
              (fun _ => Some Fixtures.two_turbines) (Some "document"))
    as [gdf|] eqn:Hp; [|by vm_compute in Hp].
  exists gdf. split; [reflexivity|].
  destruct (parse_icao_inherits (pandas := Reference.pandas) _ _ gdf Hp)
    as (? & _ & Hrows).
  eapply Forall_impl; [exact Hrows|].
  intros ir (? & ? & ? & ? & note_text & _ & _ & _ & _ & _ & _ & _ & _ & Hfarm).
  by exists note_text.
Defined.

Lemma parse_icao_numbers_witness :
  ∃ gdf, parse_icao (pandas := Reference.pandas)
           (fun _ => Some Fixtures.two_turbines) (Some "document") = Ok gdf
         ∧ Forall (fun ir =>
                     ∃ part, text_of (find (aixm "type") part)
                             = Ok (Type_ ir.2))
                  (records gdf).
Proof.
  destruct (parse_icao (pandas := Reference.pandas)
              (fun _ => Some Fixtures.two_turbines) (Some "document"))
    as [gdf|] eqn:Hp; [|by vm_compute in Hp].
  exists gdf. split; [reflexivity|].
  destruct (parse_icao_numbers (pandas := Reference.pandas) _ _ gdf Hp)
    as (? & _ & Hrows).
  eapply Forall_impl; [exact Hrows|].
  intros ir (? & part & ? & ? & ? & ? & _ & _ & _ & _ & _ & _ & _ & _ & _
             & _ & _ & Htype & _).
  by exists part.
Defined.

Lemma parse_icao_short_position_witness :
  parse_icao (pandas := Reference.pandas)
    (fun _ => Some MoreFixtures.short_position) (Some "document")
  = Raise IndexError.
Proof.
  destruct (collect_wtgs MoreFixtures.short_position) as [wtgs|] eqn:Hw;
    [|by vm_compute in Hw].
  destruct (wtgs !! 0%nat) as [w|] eqn:Hfirst;
    [|by vm_compute in Hw; injection Hw as <-].
  apply (parse_icao_short_position (pandas := Reference.pandas)
           (fun _ => Some MoreFixtures.short_position) (Some "document")
           MoreFixtures.short_position wtgs [101] w).
  - reflexivity.
  - exact Hw.
  - vm_compute in Hw. injection Hw as <-. vm_compute. reflexivity.
  - by eapply list_elem_of_lookup_2.
  - vm_compute in Hw. injection Hw as <-. injection Hfirst as <-.
    vm_compute. lia.
Defined.

(** The fields of the two turbines that come from the structure and from
    the numbers of the part. *)
Example parse_icao_two_turbines_fields :
  (fun gdf => map (fun ir => (WPID ir.2, WindFarm ir.2, Status ir.2,
                              Elevation ir.2, VerticalExtent ir.2,
                              TerrainElevation ir.2, HorizontalAccuracy ir.2,
                              Type_ ir.2))
                  (records gdf))
    <$> parse_icao_root (pandas := Reference.pandas) Fixtures.two_turbines
  = Ok [ (Some "LOWP0001", "Nord", "Plan", Some 350750000, Some 150500000,
          Some 200300000, None, Some "WINDMILL");
         (Some "LOWP0001", "Nord", "Plan", Some 350750000, Some 150500000,
          Some 200300000, None, Some "WINDMILL") ].
Proof. vm_compute. reflexivity. Qed.

End AustroControlMore.

(** ** More on [get_austro_control_data] *)

Module AustroControlFetch.
Import AustroControl PySpec.

(** The selection asks the network for the catalog only, and the file
    system for its directories only. *)
Lemma select_source_ext (w w' : world) (fs fs' : filesystem)
    (data_path : option string) (list_index : Z) :
  catalog w' = catalog w → resolve w' = resolve w → dirs fs' = dirs fs →
  select_source w' fs' data_path list_index
  = select_source w fs data_path list_index.
Proof.
  intros Hc Hr Hd.
  unfold select_source, get_austro_control_links, is_dir.
  by rewrite Hc, Hr, Hd.
Qed.

(** The selection without a [data_path], and with one. *)
Lemma select_source_data_path (w : world) (fs : filesystem) (d : string)
    (list_index : Z) (publication_date url : string) :
  select_source w fs None list_index = Ok (publication_date, url, None) →
  ∃ expected_name,
    select_source w fs (Some d) list_index
    = if is_dir fs (resolve w d)
      then Ok (publication_date, url,
               Some (resolve w d ++ "/" ++ expected_name))
      else Raise AssertionError.
Proof.
  unfold select_source. intros Hs.
  apply bind_Ok in Hs as (urls & Hurls & Hs).
  rewrite (bind_of_Ok _ _ _ Hurls).
  destruct (negb _); [done|].
  apply bind_Ok in Hs as ([pub u] & Hlink & Hs).
  rewrite (bind_of_Ok _ _ _ Hlink).
  apply bind_Ok in Hs as (last_segment & Hlast & Hs).
  rewrite (bind_of_Ok _ _ _ Hlast).
  apply bind_Ok in Hs as (tail & Htail & Hs).
  rewrite (bind_of_Ok _ _ _ Htail).
  apply bind_Ok in Hs as (ident & Hident & [= -> ->]).
  rewrite (bind_of_Ok _ _ _ Hident).
  by exists ("LO_OBS_DS_AREA1_" ++ ident ++ ".xml").
Qed.

Lemma select_source_Ok (w : world) (fs : filesystem)
    (data_path : option string) (list_index : Z)
    (publication_date url : string) (filename : option string) :
  select_source w fs data_path list_index
  = Ok (publication_date, url, filename) →
  ∃ links,
    get_austro_control_links w = Ok links
    ∧ py_index links list_index = Ok (publication_date, url)
    ∧ match data_path with
      | None => filename = None
      | Some d =>
          is_dir fs (resolve w d) = true
          ∧ ∃ ident, filename = Some (resolve w d ++ "/" ++ "LO_OBS_DS_AREA1_"
                                      ++ ident ++ ".xml")
      end.
Proof.
  unfold select_source. intros Hs.
  apply bind_Ok in Hs as (urls & Hurls & Hs). exists urls. split; [done|].
  destruct (negb _); [done|].
  apply bind_Ok in Hs as ([pub u] & Hlink & Hs).
  apply bind_Ok in Hs as (last_segment & Hlast & Hs).
  apply bind_Ok in Hs as (tail & Htail & Hs).
  apply bind_Ok in Hs as (ident & Hident & Hs).
  destruct data_path as [d|].
  - destruct (is_dir fs (resolve w d)) eqn:Hdir; [|done].
    injection Hs as -> -> <-. split_and!; [done..|]. by exists ident.
  - by injection Hs as -> -> <-.
Qed.

Section Fetch.
Context {float64 datetime64 : Type} {pandas : Pandas float64 datetime64}.

(** X9: when the file of the selected publication is in [data_path] and
    [overwrite] is off, the call reads that file and nothing else: it
    returns the parse of the file's content and leaves the file system
    as it was, whatever [requests.get] and [zipfile] would answer for
    the archive. *)
Theorem get_austro_control_data_reads_cache (w w' : world)
    (fs : filesystem) (d : string) (list_index : Z)
    (publication_date url f bytes : string) :
  select_source w fs (Some d) list_index
    = Ok (publication_date, url, Some f) →
  files fs !! f = Some bytes →
  catalog w' = catalog w → resolve w' = resolve w →
  xml_parser w' = xml_parser w →
  get_austro_control_data w' fs (Some d) list_index false
  = (df_austro ← parse_icao (xml_parser w) (Some bytes);
     mret (with_publication_date publication_date df_austro, Some f),
     fs).
Proof.
  intros Hsel Hfile Hc Hr Hx.
  unfold get_austro_control_data, fetch_source, must_download, is_file.
  rewrite (select_source_ext w w' fs fs (Some d) list_index Hc Hr eq_refl).
  rewrite Hsel, Hfile, Hx.
  by rewrite bool_decide_eq_true_2.
Qed.

(** X10: a call that downloads the archive into [data_path] makes the
    next call without [overwrite] return the same, a frame or the
    exception of the parser, from the file alone: the file holds the
    downloaded XML, and the second call leaves the file system as the
    first left it, whatever the network answers by then for the
    archive. *)
Theorem get_austro_control_data_again (w w' : world) (fs : filesystem)
    (d : string) (list_index : Z) (overwrite : bool)
    (publication_date url f bytes : string) :
  select_source w fs (Some d) list_index
    = Ok (publication_date, url, Some f) →
  must_download fs (Some f) overwrite = true →
  download w url = Some bytes →
  catalog w' = catalog w → resolve w' = resolve w →
  xml_parser w' = xml_parser w →
  ∃ r fs1,
    get_austro_control_data w fs (Some d) list_index overwrite = (r, fs1)
    ∧ files fs1 !! f = Some bytes
    ∧ get_austro_control_data w' fs1 (Some d) list_index false = (r, fs1).
Proof.
  intros Hsel Hmust Hdown Hc Hr Hx.
  eexists _, (write_bytes fs f bytes). split_and!.
  - unfold get_austro_control_data, fetch_source.
    rewrite Hsel, Hmust, Hdown. reflexivity.
  - simpl. apply lookup_insert_eq.
  - unfold get_austro_control_data, fetch_source, must_download, is_file.
    rewrite (select_source_ext w w' fs (write_bytes fs f bytes)
               (Some d) list_index Hc Hr eq_refl).
    rewrite Hsel, Hx. simpl. rewrite lookup_insert_eq.
    by rewrite bool_decide_eq_true_2.
Qed.

(** X11: an index past the end of the list of publications fails the
    assertion, and one before its start raises IndexError; in both
    cases nothing is requested beyond the catalog and nothing is
    written. *)
Theorem get_austro_control_data_index (w : world) (fs : filesystem)
    (data_path : option string) (list_index : Z) (overwrite : bool)
    (links : list (string * string)) :
  get_austro_control_links w = Ok links →
  (Z.of_nat (length links) ≤ list_index →
   get_austro_control_data w fs data_path list_index overwrite
   = (Raise AssertionError, fs))
  ∧ (list_index < - Z.of_nat (length links) →
     get_austro_control_data w fs data_path list_index overwrite
     = (Raise IndexError, fs)).
Proof.
  intros Hlinks. unfold get_austro_control_data, select_source.
  rewrite (bind_of_Ok _ _ _ Hlinks). split; intros Hi.
  - by rewrite (proj2 (Z.ltb_ge _ _) Hi).
  - rewrite (proj2 (Z.ltb_lt _ _)) by lia. simpl.
    unfold py_index.
    rewrite (proj2 (Z.leb_gt 0 list_index)) by lia.
    rewrite (proj2 (Z.leb_gt _ list_index)) by lia.
    by rewrite andb_false_r.
Qed.

(** X12: a [data_path] that is not a directory fails the assertion of
    line 167 in every call that would have gone on to the download
    without a [data_path]: nothing is requested and nothing written. *)
Theorem get_austro_control_data_no_directory (w : world) (fs : filesystem)
    (d : string) (list_index : Z) (overwrite : bool)
    (publication_date url : string) :
  select_source w fs None list_index = Ok (publication_date, url, None) →
  is_dir fs (resolve w d) = false →
  get_austro_control_data w fs (Some d) list_index overwrite
  = (Raise AssertionError, fs).
Proof.
  intros (expected_name & Hsel)%(select_source_data_path _ _ d) Hdir.
  unfold get_austro_control_data. by rewrite Hsel, Hdir.
Qed.

(** X13: what a call returns with a frame: the frame is the parse of one
    XML text under the date of the publication at [list_index]; with a
    [data_path] the returned file lies in that directory and holds that
    text afterwards, and no other file is touched; without one no file
    is returned and nothing is written. *)
Theorem get_austro_control_data_Ok (w : world) (fs fs1 : filesystem)
    (data_path : option string) (list_index : Z) (overwrite : bool)
    (gdf : GeoDataFrame (obstacle float64 * string))
    (filename : option string) :
  get_austro_control_data w fs data_path list_index overwrite
    = (Ok (gdf, filename), fs1) →
  ∃ links publication_date url bytes df_austro,
    get_austro_control_links w = Ok links
    ∧ py_index links list_index = Ok (publication_date, url)
    ∧ parse_icao (xml_parser w) (Some bytes) = Ok df_austro
    ∧ gdf = with_publication_date publication_date df_austro
    ∧ dirs fs1 = dirs fs
    ∧ match data_path with
      | None => filename = None ∧ fs1 = fs
      | Some d =>
          ∃ ident f,
            f = resolve w d ++ "/" ++ "LO_OBS_DS_AREA1_" ++ ident ++ ".xml"
            ∧ filename = Some f
            ∧ files fs1 !! f = Some bytes
            ∧ ∀ p, p ≠ f → files fs1 !! p = files fs !! p
      end.
Proof.
  unfold get_austro_control_data. intros Hget.
  destruct (select_source w fs data_path list_index)
    as [[[publication_date url] fn]|] eqn:Hsel; [|done].
  destruct (fetch_source w fs url fn overwrite) as [ac_source fs'] eqn:Hfetch.
  injection Hget as Hparse <-.
  apply bind_Ok in Hparse as (df_austro & Hparse & [= <- <-]).
  destruct ac_source as [bytes|]; [|done].
  apply select_source_Ok in Hsel as (links & Hlinks & Hlink & Hname).
  exists links, publication_date, url, bytes, df_austro.
  assert (dirs fs' = dirs fs
          ∧ match fn with
            | None => fs' = fs
            | Some f => files fs' !! f = Some bytes
                        ∧ ∀ p, p ≠ f → files fs' !! p = files fs !! p
            end) as [Hdirs Hfiles].
  { unfold fetch_source in Hfetch.
    destruct (must_download fs fn overwrite).
    - destruct (download w url) as [ac_source|]; [|done].
      injection Hfetch as -> <-. destruct fn as [f|]; [|done]. simpl.
      split; [done|]. split; [apply lookup_insert_eq|].
      intros p Hp. by apply lookup_insert_ne.
    - injection Hfetch as Hread <-. by destruct fn. }
  split_and!; try done.
  destruct data_path as [d|].
  - destruct Hname as (_ & ident & ->). destruct Hfiles as [Hf Hother].
    by exists ident, (resolve w d ++ "/" ++ "LO_OBS_DS_AREA1_" ++ ident ++ ".xml").
  - by subst fn.
Qed.

End Fetch.

Lemma get_austro_control_data_reads_cache_witness :
  ∃ r, get_austro_control_data (pandas := Reference.pandas)
         (Fixtures.online None) MoreFixtures.cached (Some "/work/data") 0 false
       = (r, MoreFixtures.cached).
Proof.
  eexists.
  apply (get_austro_control_data_reads_cache (pandas := Reference.pandas)
           (Fixtures.online (Some "PK-one")) (Fixtures.online None)
           MoreFixtures.cached "/work/data" 0 "20240613" Fixtures.archive_url
           "/work/data/LO_OBS_DS_AREA1_20240613.xml" "<xml/>").
  - vm_compute. reflexivity.
  - vm_compute. reflexivity.
  - reflexivity.
  - reflexivity.
  - reflexivity.
Defined.

Lemma get_austro_control_data_again_witness :
  ∃ r fs1,
    get_austro_control_data (pandas := Reference.pandas)
      (Fixtures.online (Some "PK-one")) Fixtures.data_dir
      (Some "/work/data") 0 false = (r, fs1)
    ∧ files fs1 !! "/work/data/LO_OBS_DS_AREA1_20240613.xml" = Some "<xml/>"
    ∧ get_austro_control_data (pandas := Reference.pandas)
        (Fixtures.online None) fs1 (Some "/work/data") 0 false = (r, fs1).
Proof.
  apply (get_austro_control_data_again (pandas := Reference.pandas)
           (Fixtures.online (Some "PK-one")) (Fixtures.online None)
           Fixtures.data_dir "/work/data" 0 false "20240613"
           Fixtures.archive_url).
  - vm_compute. reflexivity.
  - vm_compute. reflexivity.
  - vm_compute. reflexivity.
  - reflexivity.
  - reflexivity.
  - reflexivity.
Defined.

Lemma get_austro_control_data_index_witness :
  get_austro_control_data (pandas := Reference.pandas)
    (Fixtures.online None) Fixtures.data_dir (Some "/work/data") 2 false
  = (Raise AssertionError, Fixtures.data_dir)
  ∧ get_austro_control_data (pandas := Reference.pandas)
      (Fixtures.online None) Fixtures.data_dir (Some "/work/data") (-3) false
    = (Raise IndexError, Fixtures.data_dir).
Proof.
  destruct (get_austro_control_links (Fixtures.online None))
    as [links|] eqn:Hlinks; [|by vm_compute in Hlinks].
  assert (length links = 2%nat) as Hlen.
  { vm_compute in Hlinks. by injection Hlinks as <-. }
  split.
  - apply (proj1 (get_austro_control_data_index (pandas := Reference.pandas)
                    (Fixtures.online None) Fixtures.data_dir
                    (Some "/work/data") 2 false links Hlinks)).
    rewrite Hlen. lia.
  - apply (proj2 (get_austro_control_data_index (pandas := Reference.pandas)
                    (Fixtures.online None) Fixtures.data_dir
                    (Some "/work/data") (-3) false links Hlinks)).
    rewrite Hlen. lia.
Defined.

Lemma get_austro_control_data_no_directory_witness :
  get_austro_control_data (pandas := Reference.pandas)
    (Fixtures.online (Some "PK-one")) MoreFixtures.empty_disk
    (Some "/work/data") 0 false
  = (Raise AssertionError, MoreFixtures.empty_disk).
Proof.
  apply (get_austro_control_data_no_directory (pandas := Reference.pandas)
           (Fixtures.online (Some "PK-one")) MoreFixtures.empty_disk
           "/work/data" 0 false "20240613" Fixtures.archive_url).
  - vm_compute. reflexivity.
  - vm_compute. reflexivity.
Defined.

Lemma get_austro_control_data_Ok_witness :
  ∃ gdf f fs1,
    get_austro_control_data (pandas := Reference.pandas)
      (Fixtures.online (Some "PK-one")) Fixtures.data_dir
      (Some "/work/data") 0 false = (Ok (gdf, Some f), fs1)
    ∧ ∃ bytes, files fs1 !! f = Some bytes.
Proof.
  destruct (get_austro_control_data (pandas := Reference.pandas)
              (Fixtures.online (Some "PK-one")) Fixtures.data_dir
              (Some "/work/data") 0 false) as [[[gdf [f|]]|] fs1] eqn:Hget;
    [|by vm_compute in Hget..].
  exists gdf, f, fs1. split; [reflexivity|].
  destruct (get_austro_control_data_Ok (pandas := Reference.pandas)
              _ _ _ _ _ _ _ _ Hget)
    as (? & ? & ? & bytes & ? & _ & _ & _ & _ & _
        & ident & f' & _ & [= <-] & Hfile & _).
  by exists bytes.
Defined.

End AustroControlFetch.

(** ** More on [download_noe_geojson] *)

Module NoeMore.
Import Noe PySpec SeriesSpec LoopSpec OrderSpec NoeSpec.

Lemma duplicated_from_length {A} `{EqDecision A} (seen l : list A) :
  length (Series.duplicated_from seen l) = length l.
Proof.
  revert seen. induction l as [|x l IH]; intros seen; simpl; [done|].
  by rewrite IH.
Qed.

(** A mask takes away as many rows as it has marks. *)
Lemma mask_select_length {B} (l : list B) (mask : list bool) :
  length mask = length l →
  (length (Series.mask_select l (map negb mask)) + Series.count_true mask
   = length l)%nat.
Proof.
  revert mask. induction l as [|x l IH]; intros [|b mask]; simpl; try done.
  intros [= Hlen]. rewrite count_true_cons.
  specialize (IH mask Hlen). destruct b; simpl; lia.
Qed.

Lemma occurrences_NoDup {A} `{EqDecision A} (x : A) (l : list A) :
  NoDup l → (Series.occurrences x l ≤ 1)%nat.
Proof.
  unfold Series.occurrences. induction 1 as [|y l Hy Hnd IH]; simpl; [lia|].
  rewrite filter_cons. case_decide as Heq; simpl; [|done].
  subst y. destruct (filter _ l) as [|z zs] eqn:Hf; simpl; [lia|].
  assert (z ∈ filter (fun y => y = x) l) as Hz by (rewrite Hf; left).
  apply list_elem_of_filter in Hz as [-> Hz]. done.
Qed.

Section Cells.
Context {float64 datetime64 : Type} {pandas : Pandas float64 datetime64}.

(** *** The order of the rows *)

Lemma cat_compare_antisym (a b : value float64 datetime64) :
  cat_compare a b = CompOpp (cat_compare b a).
Proof. destruct a, b; simpl; try done. apply String.compare_antisym. Qed.

Lemma sort_le_total (a b : Z * row float64 datetime64) :
  sort_le a b = false → sort_le b a = true.
Proof.
  unfold sort_le.
  rewrite (cat_compare_antisym (get "Vorhaben" a.2) (get "Vorhaben" b.2)).
  rewrite (cat_compare_antisym (get "Name der WKA" a.2)
                               (get "Name der WKA" b.2)).
  by destruct (cat_compare (get "Vorhaben" b.2) _),
              (cat_compare (get "Name der WKA" b.2) _).
Qed.

(** New labels do not disturb the order. *)
Lemma Sorted_relabel (l : list (Z * row float64 datetime64)) (h : nat → Z) :
  Sorted (fun a b => sort_le a b = true) l →
  Sorted (fun a b => sort_le a b = true)
         (imap (fun i x => (h i, x)) (map snd l)).
Proof.
  intros Hs. revert h. induction Hs as [|x l Hl IH Hhd]; intros h; simpl.
  - constructor.
  - constructor; [apply IH|].
    destruct Hhd as [|y l Hxy]; simpl; constructor. exact Hxy.
Qed.

(** A cell of a feature is a string or a null. *)
Lemma get_feature_row (c : string) (f : feature float64) :
  get (datetime64 := datetime64) c (feature_row f) = VNull
  ∨ ∃ s, get (datetime64 := datetime64) c (feature_row f) = VStr s.
Proof.
  unfold get, feature_row. simpl.
  destruct (List.find _ _) as [cv|] eqn:Hfind; [|by left].
  apply find_some in Hfind as [Hin _].
  apply in_map_iff in Hin as ([k [s|]] & <- & _); simpl; eauto.
Qed.

#[local] Opaque dtypes int_cols float_cols date_cols category_cols key_cols.

(** X14: the frame that [download_noe_geojson] returns is in the order
    of (Vorhaben, Name der WKA), strings before nulls: no row is greater
    than the next; its labels are 0, 1, .. and its reference system is
    EPSG:4326. *)
Theorem download_noe_geojson_sorted (features : list (feature float64))
    (out : GeoDataFrame (row float64 datetime64))
    (printed : list (event float64 datetime64)) :
  download_noe_geojson (FeatureCollection features) = (Ok (Some out), printed) →
  Sorted (fun a b => sort_le a b = true) (records out)
  ∧ (∀ i ir, records out !! i = Some ir → ir.1 = Z.of_nat i)
  ∧ crs out = Some 4326.
Proof.
  intros (fr & _ & Hfin)%download_noe_geojson_Ok.
  unfold finish in Hfin.
  destruct (drop_duplicated_keys (rows fr)) as [rs printed'].
  injection Hfin as <- _. simpl. split_and!; [| |done].
  - apply Sorted_relabel, sorted_by_Sorted. intros a b. apply sort_le_total.
  - intros i ir Hi. unfold reset_index in Hi. rewrite range_index_lookup in Hi.
    destruct (map snd _ !! i); by simplify_eq/=.
Qed.

(** *** The sizes printed *)

(** X15: the call prints nothing exactly when it returns as many rows
    as there are features; otherwise it has printed the number of
    features, the series of the duplicated keys and the number of rows
    it returns, which is smaller. *)
Theorem download_noe_geojson_sizes (features : list (feature float64))
    (out : GeoDataFrame (row float64 datetime64))
    (printed : list (event float64 datetime64)) :
  download_noe_geojson (FeatureCollection features) = (Ok (Some out), printed) →
  (printed = [] ∧ length (records out) = length features)
  ∨ (∃ duplicates,
       duplicates ≠ []
       ∧ printed = [ SizeBefore (length features);
                     DuplicatedKeys duplicates;
                     SizeAfter (length (records out)) ]
       ∧ (length (records out) < length features)%nat).
Proof.
  intros (fr & Hc & Hfin)%download_noe_geojson_Ok.
  pose proof (coerce_Ok _ _ Hc) as [Hrows Hlabel].
  pose proof (Forall2_length _ _ _ Hrows) as Hlen.
  pose proof (labels_NoDup _ Hlabel) as Hnd.
  destruct (drop_duplicated_keys_spec (rows fr) Hnd) as [Hkept Hprint].
  pose proof (finish_printed fr) as Hprinted. rewrite Hfin in Hprinted.
  simpl in Hprinted. rewrite <- Hprinted in Hprint. clear Hprinted.
  assert (length (records out) = length (drop_duplicated_keys (rows fr)).1)
    as Hout.
  { unfold finish in Hfin.
    destruct (drop_duplicated_keys (rows fr)) as [rs printed'].
    injection Hfin as <- _. simpl. unfold reset_index.
    rewrite range_index_length, length_map.
    apply Permutation_length, sorted_by_Permutation. }
  set (ks := map (fun ir : Z * row float64 datetime64 => key_of ir.2) (rows fr))
    in *.
  pose proof (mask_select_length (rows fr) (Series.duplicated ks)) as Hsum.
  rewrite <- Hkept, <- Hout in Hsum.
  unfold Series.duplicated in Hsum at 1.
  rewrite duplicated_from_length in Hsum. subst ks.
  rewrite length_map in Hsum. specialize (Hsum eq_refl).
  set (ks := map (fun ir : Z * row float64 datetime64 => key_of ir.2) (rows fr))
    in *.
  destruct (List.filter _ _) as [|d ds] eqn:Hdup.
  - left. split; [done|]. rewrite Hlen.
    destruct (Nat.eq_dec (Series.count_true (Series.duplicated ks)) 0%nat)
      as [Hnone|Hsome]; [lia|exfalso].
    assert (¬ NoDup ks) as Hnot by (by rewrite <- duplicated_none).
    apply Hnot. apply NoDup_alt. intros i j kx Hi Hj.
    destruct (decide (i = j)) as [|Hne]; [done|exfalso].
    subst ks. rewrite list_lookup_fmap in Hi, Hj.
    destruct (rows fr !! i) as [x|] eqn:Hxi; [|done].
    destruct (rows fr !! j) as [y|] eqn:Hxj; [|done].
    simpl in Hi, Hj. injection Hi as Hi. injection Hj as Hj.
    assert ((2 ≤ Series.occurrences (key_of x.2)
                   (map (fun ir => key_of ir.2) (rows fr)))%nat) as Htwice.
    { destruct (decide (j < i)%nat).
      - by apply (occurrences_twice (fun ir => key_of ir.2) (rows fr) i j x y);
          [| | |congruence].
      - rewrite Hi, <- Hj.
        apply (occurrences_twice (fun ir => key_of ir.2) (rows fr) j i y x);
          [lia|done|done|congruence]. }
    assert (In (x.1, key_of x.2) []) as [].
    rewrite <- Hdup. apply List.filter_In. split.
    + apply list_elem_of_In, list_elem_of_fmap. exists x.
      split; [done|]. by eapply list_elem_of_lookup_2.
    + by apply bool_decide_eq_true_2.
  - right. exists (d :: ds). split; [done|]. rewrite Hlen, Hout. split; [done|].
    rewrite <- Hout.
    assert (In d (d :: ds)) as Hd by (by left).
    rewrite <- Hdup in Hd. apply List.filter_In in Hd as [_ Htwice].
    apply bool_decide_eq_true_1 in Htwice.
    destruct (Nat.eq_dec (Series.count_true (Series.duplicated ks)) 0%nat)
      as [Hnone|Hsome]; [exfalso|lia].
    apply duplicated_none in Hnone.
    pose proof (occurrences_NoDup d.2 ks Hnone). lia.
Qed.

(** *** The columns a feature collection must have *)

Lemma filter_nothing_there (l : list string) :
  List.filter (fun c => negb (bool_decide (c ∈ @nil string))) l = l.
Proof.
  induction l as [|c l IH]; cbn [List.filter]; [done|].
  rewrite bool_decide_eq_false_2 by apply not_elem_of_nil.
  cbn [negb]. by rewrite IH.
Qed.

(** Once line 60 has found its columns, no later line raises KeyError. *)
Lemma coerce_no_KeyError (features : list (feature float64))
    (fr0 : frame float64 datetime64) (missing : list string) :
  load features = Ok fr0 → coerce features ≠ Raise (KeyError missing).
Proof.
  intros Hload Hraise. unfold coerce in Hraise.
  rewrite (bind_of_Ok _ _ _ Hload) in Hraise.
  rewrite (check_unmapped_declared fr0) in Hraise by (by eapply load_columns).
  simpl in Hraise.
  apply bind_Raise in Hraise as [H1|(fr1 & _ & Hraise)].
  { apply foldM_assign_Raise in H1 as (v & Hv).
    destruct v as [|s| | |]; try done. simpl in Hv.
    by destruct (int_of_str s). }
  apply bind_Raise in Hraise as [H2|(fr2 & _ & Hraise)].
  { apply foldM_to_float_Raise in H2 as (v & Hv).
    destruct v as [|s| | |]; try done. simpl in Hv.
    by destruct (to_numeric _). }
  apply bind_Raise in Hraise as [H3|(fr3 & _ & Hraise)].
  { apply foldM_assign_Raise in H3 as (v & Hv).
    destruct v as [|s| | |]; try done. simpl in Hv.
    by destruct (to_datetime s). }
  apply bind_Raise in Hraise as [H4|(fr4 & _ & Hraise)].
  { apply foldM_assign_Raise in H4 as (v & Hv). by destruct v. }
  apply bind_Raise in Hraise as [H5|(fr5 & _ & Hraise)].
  { apply assign_from_geometry_Raise in H5 as (g & Hg). by destruct g. }
  apply assign_from_geometry_Raise in Hraise as (g & Hg). by destruct g.
Qed.

(** X16: the declared columns are all required.  A feature collection in
    which no feature has some declared column makes the call raise
    KeyError with exactly the declared columns that no feature has, in
    the order of the schema, and prints nothing; so one with no feature
    at all raises KeyError with the 26 declared columns (the geometry
    column is there) and no empty frame is returned.  When every
    declared column occurs in some feature the call raises no
    KeyError. *)
Theorem download_noe_geojson_missing_columns
    (features : list (feature float64)) :
  let missing :=
    List.filter
      (fun c => negb (bool_decide
         (c ∈ concat (map (fun f => map fst (properties f)) features))))
      (map fst dtypes) in
  (missing ≠ [] →
   download_noe_geojson (datetime64 := datetime64) (FeatureCollection features)
   = (Raise (KeyError missing), []))
  ∧ (features = [] → missing = map fst dtypes)
  ∧ (missing = [] →
     ∀ labels,
       (download_noe_geojson (datetime64 := datetime64)
          (FeatureCollection features)).1 ≠ Raise (KeyError labels)).
Proof.
  intros missing. split_and!.
  - intros Hmissing.
    unfold download_noe_geojson, coerce, load, select.
    rewrite (load_missing features). fold missing.
    destruct missing as [|c0 missing0]; [by destruct Hmissing|].
    reflexivity.
  - intros ->. subst missing. cbn [map concat].
    apply filter_nothing_there.
  - intros Hmissing labels.
    assert (∃ fr0, load (datetime64 := datetime64) features = Ok fr0)
      as [fr0 Hload].
    { unfold load, select. rewrite (load_missing features).
      fold missing. rewrite Hmissing. eauto. }
    pose proof (coerce_no_KeyError _ fr0 labels Hload) as Hno.
    unfold download_noe_geojson.
    destruct (coerce features) as [fr|e]; simpl.
    + by destruct (finish fr).
    + congruence.
Qed.

(** X19: the check of lines 66 to 73 passes on every frame that line
    60 returns, so for no response at all does the call raise the
    error of line 73: a column that is not declared never stops it. *)
Theorem check_unmapped_never_raises (resp : response float64)
    (cols : list string) :
  (∀ features (gdf : frame float64 datetime64),
     load features = Ok gdf → check_unmapped gdf = Ok tt)
  ∧ (download_noe_geojson (datetime64 := datetime64) resp).1
    ≠ Raise (ValueError (UnmappedColumns cols)).
Proof.
  split.
  - intros features gdf Hload.
    apply check_unmapped_declared. by eapply load_columns.
  - destruct resp as [| |features]; simpl; [done..|].
    destruct (coerce features) as [fr|e] eqn:Hc; simpl.
    + by destruct (finish fr).
    + intros [= ->]. by apply coerce_never_unmapped in Hc.
Qed.

(** *** The cells of the frame returned *)

(** X17: in the frame returned each row comes from a feature.  Its
    KG-Nummer is the integer parsed from the feature's string; a date
    cell is the date parsed from the feature's string as day.month.year,
    or null when the feature has none; a category cell is the feature's
    string stripped, or null; the row keeps the feature's geometry, and
    its two coordinate cells are the rounded coordinates of that point
    (the rounded NaN without a geometry), whatever the feature's own
    coordinate properties say. *)
Theorem download_noe_geojson_typed_cells (features : list (feature float64))
    (out : GeoDataFrame (row float64 datetime64))
    (printed : list (event float64 datetime64))
    (ir : Z * row float64 datetime64) :
  download_noe_geojson (FeatureCollection features) = (Ok (Some out), printed) →
  ir ∈ records out →
  ∃ f, f ∈ features
    ∧ (∀ c, c ∈ int_cols →
         ∃ s z, get (datetime64 := datetime64) c (feature_row f) = VStr s
                ∧ int_of_str s = Some z ∧ get c ir.2 = VInt z)
    ∧ (∀ c, c ∈ date_cols →
         match get (datetime64 := datetime64) c (feature_row f) with
         | VStr s => ∃ d, to_datetime s = Some d ∧ get c ir.2 = VDate d
         | _ => get c ir.2 = VNull
         end)
    ∧ (∀ c, c ∈ category_cols →
         match get (datetime64 := datetime64) c (feature_row f) with
         | VStr s => get c ir.2 = VStr (strip s)
         | _ => get c ir.2 = VNull
         end)
    ∧ geom ir.2 = f_geometry f
    ∧ match f_geometry f with
      | Point x y =>
          get "Koordinaten Länge [WGS 84]" ir.2 = VFloat (round 6 x)
          ∧ get "Koordinaten Breite [WGS 84]" ir.2 = VFloat (round 6 y)
      | NoGeometry =>
          get "Koordinaten Länge [WGS 84]" ir.2 = VFloat (round 6 NaN)
          ∧ get "Koordinaten Breite [WGS 84]" ir.2 = VFloat (round 6 NaN)
      | OtherGeometry => False
      end.
Proof.
  intros (fr & Hc & Hfin)%download_noe_geojson_Ok Hir.
  pose proof (coerce_Ok _ _ Hc) as [Hrows Hlabel].
  pose proof (finish_spec fr (labels_NoDup _ Hlabel)) as (_ & _ & _ & Hkept).
  rewrite Hfin in Hkept. simpl in Hkept.
  destruct (proj1 (Hkept ir.2)) as (i & ir0 & Hi & Heq & _).
  { apply list_elem_of_fmap. by exists ir. }
  destruct (Forall2_lookup_r _ _ _ _ _ Hrows Hi)
    as (f & Hf & Hgeom & Hint & _ & Hdate & Hcat & Hx & Hy).
  exists f. rewrite <- Heq. split_and!.
  - by eapply list_elem_of_lookup_2.
  - intros c Hcol. specialize (Hint c Hcol).
    destruct (get_feature_row c f) as [Hnull|[s Hs]].
    + by rewrite Hnull in Hint.
    + rewrite Hs in Hint. simpl in Hint.
      destruct (int_of_str s) as [z|] eqn:Hz; [|done].
      injection Hint as <-. by exists s, z.
  - intros c Hcol. specialize (Hdate c Hcol).
    destruct (get c (feature_row f)) as [|s| | |]; simpl in Hdate;
      try by injection Hdate as <-.
    destruct (to_datetime s) as [d|]; [|done].
    injection Hdate as <-. by exists d.
  - intros c Hcol. specialize (Hcat c Hcol).
    by destruct (get c (feature_row f)) as [|s| | |]; simpl in Hcat;
      injection Hcat as <-.
  - done.
  - destruct (f_geometry f) as [x y| |]; simpl in Hx, Hy; [| |done].
    + by injection Hx as <-; injection Hy as <-.
    + by injection Hx as <-; injection Hy as <-.
Qed.

Lemma foldM_assign_geoms
    (f : value float64 datetime64 → result (value float64 datetime64))
    (cols : list string) (fr fr' : frame float64 datetime64) :
  NoDup cols → foldM (assign f) cols fr = Ok fr' →
  map (fun ir => geom ir.2) (rows fr') = map (fun ir => geom ir.2) (rows fr).
Proof.
  intros Hnd Hloop. apply foldM_assign_Ok in Hloop as [_ Hrows]; [|done].
  induction Hrows as [|ir ir' rs rs' (_ & Hg & _) _ IH]; simpl; [done|].
  by rewrite Hg, IH.
Qed.

Lemma foldM_to_float_geoms (cols : list string)
    (fr fr' : frame float64 datetime64) :
  NoDup cols → foldM (assign_column to_float) cols fr = Ok fr' →
  map (fun ir => geom ir.2) (rows fr') = map (fun ir => geom ir.2) (rows fr).
Proof.
  intros Hnd Hloop. apply foldM_to_float_Ok in Hloop as (_ & Hrows & _); [|done].
  induction Hrows as [|ir ir' rs rs' (_ & Hg & _) _ IH]; simpl; [done|].
  by rewrite Hg, IH.
Qed.

(** X18: a feature whose geometry is not a point is not normalized: the
    call raises, and when the four loops over the declared columns go
    through, what it raises is the error of the coordinate access of
    line 102. *)
Theorem download_noe_geojson_not_a_point (features : list (feature float64))
    (f : feature float64) :
  f ∈ features → f_geometry f = OtherGeometry →
  (∃ e, (download_noe_geojson (datetime64 := datetime64)
           (FeatureCollection features)).1 = Raise e)
  ∧ ∀ g0 g1 g2 g3 g4 : frame float64 datetime64,
      load features = Ok g0 →
      foldM (assign astype_int) int_cols g0 = Ok g1 →
      foldM (assign_column to_float) float_cols g1 = Ok g2 →
      foldM (assign to_date) date_cols g2 = Ok g3 →
      foldM (assign to_category) category_cols g3 = Ok g4 →
      download_noe_geojson (FeatureCollection features)
      = (Raise (ValueError NotAPoint), []).
Proof.
  intros Hf Hgeo. split.
  - apply download_noe_geojson_Raise. intros fr [Hrows _]%coerce_Ok.
    apply list_elem_of_lookup in Hf as [i Hi].
    destruct (Forall2_lookup_l _ _ _ _ _ Hrows Hi)
      as (ir & _ & _ & _ & _ & _ & _ & Hx & _).
    by rewrite Hgeo in Hx.
  - intros g0 g1 g2 g3 g4 H0 H1 H2 H3 H4.
    destruct schema_NoDup as (Ni & Nf & Nd & Nc).
    assert (map (fun ir => geom ir.2) (rows g4) = map f_geometry features)
      as Hgeoms.
    { rewrite (foldM_assign_geoms _ _ _ _ Nc H4),
        (foldM_assign_geoms _ _ _ _ Nd H3),
        (foldM_to_float_geoms _ _ _ Nf H2),
        (foldM_assign_geoms _ _ _ _ Ni H1).
      apply load_rows in H0 as [Hrows _]. clear -Hrows.
      induction Hrows as [|f' ir fs rs [Hg _] _ IH]; simpl; [done|].
      by rewrite Hg, IH. }
    assert (assign_from_geometry geometry_x g4 "Koordinaten Länge [WGS 84]"
            = Raise (ValueError NotAPoint)) as Hx.
    { unfold assign_from_geometry.
      assert (collect (fun ir : Z * row float64 datetime64 =>
                         geometry_x (geom ir.2)) (rows g4)
              = Raise (ValueError NotAPoint)) as ->; [|done].
      apply (collect_Raise_same
               (fun ir : Z * row float64 datetime64 => geometry_x (geom ir.2))).
      - intros ir e'. by destruct (geom ir.2); intros [= <-].
      - assert (OtherGeometry ∈ map (fun ir : Z * row float64 datetime64 =>
                                       geom ir.2) (rows g4)) as Hin.
        { rewrite Hgeoms, <- Hgeo. apply list_elem_of_fmap. by exists f. }
        apply list_elem_of_fmap in Hin as (ir & Hir & Hin).
        exists ir, (ValueError NotAPoint). split; [done|]. by rewrite <- Hir. }
    unfold download_noe_geojson, coerce.
    rewrite (bind_of_Ok _ _ _ H0).
    rewrite (check_unmapped_declared g0) by (by eapply load_columns).
    rewrite (bind_of_Ok _ (fun _ => _) tt eq_refl).
    rewrite (bind_of_Ok _ _ _ H1), (bind_of_Ok _ _ _ H2),
      (bind_of_Ok _ _ _ H3), (bind_of_Ok _ _ _ H4).
    by rewrite Hx.
Qed.

End Cells.

Lemma download_noe_geojson_sorted_witness :
  ∃ out printed,
    download_noe_geojson (pandas := Reference.pandas)
      (FeatureCollection Fixtures.two_permits) = (Ok (Some out), printed)
    ∧ Sorted (fun a b => sort_le a b = true) (records out).
Proof.
  destruct (download_noe_geojson (pandas := Reference.pandas)
              (FeatureCollection Fixtures.two_permits))
    as [[[out|]|e] printed] eqn:Hrun; try by vm_compute in Hrun.
  exists out, printed. split; [reflexivity|].
  destruct (download_noe_geojson_sorted _ _ _ Hrun) as (Hsorted & _).
  exact Hsorted.
Defined.

Lemma download_noe_geojson_sizes_witness :
  ∃ out printed,
    download_noe_geojson (pandas := Reference.pandas)
      (FeatureCollection Fixtures.with_duplicate) = (Ok (Some out), printed)
    ∧ (printed = [] ∨ length (records out) < 3)%nat.
Proof.
  destruct (download_noe_geojson (pandas := Reference.pandas)
              (FeatureCollection Fixtures.with_duplicate))
    as [[[out|]|e] printed] eqn:Hrun; try by vm_compute in Hrun.
  exists out, printed. split; [reflexivity|].
  destruct (download_noe_geojson_sizes _ _ _ Hrun)
    as [[Hnone _]|(duplicates & _ & _ & Hless)].
  - left. exact Hnone.
  - right. exact Hless.
Defined.

Lemma download_noe_geojson_missing_columns_witness :
  ∃ labels,
    download_noe_geojson (pandas := Reference.pandas)
      (FeatureCollection MoreFixtures.few_columns)
    = (Raise (KeyError labels), []).
Proof.
  eexists.
  apply (proj1 (download_noe_geojson_missing_columns
                  (pandas := Reference.pandas) MoreFixtures.few_columns)).
  vm_compute. discriminate.
Defined.

Lemma download_noe_geojson_typed_cells_witness :
  ∃ out printed,
    download_noe_geojson (pandas := Reference.pandas)
      (FeatureCollection Fixtures.two_permits) = (Ok (Some out), printed)
    ∧ Forall (fun ir => ∃ f, f ∈ Fixtures.two_permits
                             ∧ geom ir.2 = f_geometry f)
             (records out).
Proof.
  destruct (download_noe_geojson (pandas := Reference.pandas)
              (FeatureCollection Fixtures.two_permits))
    as [[[out|]|e] printed] eqn:Hrun; try by vm_compute in Hrun.
  exists out, printed. split; [reflexivity|].
  apply Forall_forall. intros ir Hir.
  destruct (download_noe_geojson_typed_cells _ _ _ ir Hrun Hir)
    as (f & Hf & _ & _ & _ & Hgeom & _).
  exists f. split; [exact Hf|exact Hgeom].
Defined.

Lemma download_noe_geojson_not_a_point_witness :
  ∃ e, (download_noe_geojson (pandas := Reference.pandas)
          (FeatureCollection MoreFixtures.with_polygon)).1 = Raise e.
Proof.
  eapply proj1, (download_noe_geojson_not_a_point (pandas := Reference.pandas)).
  - unfold MoreFixtures.with_polygon. apply list_elem_of_here.
  - reflexivity.
Defined.

(** The two permits come back in the order of their projects, and the
    collection without its columns names them. *)
Example download_noe_geojson_two_permits :
  match download_noe_geojson (pandas := Reference.pandas)
          (FeatureCollection Fixtures.two_permits) with
  | (Ok (Some out), printed) =>
      map (fun ir => (ir.1, get "Vorhaben" ir.2, get "KG-Nummer" ir.2,
                      get "Datum Genehmigungsantrag" ir.2,
                      get "Kennzeichen (ER)" ir.2,
                      get "Koordinaten Länge [WGS 84]" ir.2))
          (records out)
      = [ (0, VStr "Windpark Au", VInt 5001, VDate (2021, 3, 5), VStr "ER-7",
           VFloat (Some 16512345));
          (1, VStr "Windpark Berg", VInt 5002, VDate (2021, 3, 5), VStr "ER-7",
           VFloat (Some 15900000)) ]
      ∧ printed = []
  | _ => False
  end.
Proof. vm_compute. split; reflexivity. Qed.

Example download_noe_geojson_no_feature :
  (download_noe_geojson (pandas := Reference.pandas) (FeatureCollection [])).1
  = Raise (KeyError (map fst dtypes)).
Proof. vm_compute. reflexivity. Qed.

Example download_noe_geojson_few_columns :
  (download_noe_geojson (pandas := Reference.pandas)
     (FeatureCollection MoreFixtures.few_columns)).1
  = Raise (KeyError (List.filter
                       (fun c => negb (String.eqb c "Vorhaben"))
                       (map fst dtypes))).
Proof. vm_compute. reflexivity. Qed.

End NoeMore.

(** ** The two scripts *)

Module ScriptsSpec.
Import AustroControl Scripts PySpec HelpersSpec.

Lemma string_app_inv_head (d a b : string) :
  (d ++ a = d ++ b → a = b)%string.
Proof. induction d as [|c d IH]; simpl; [done|]. intros [= ?]. by apply IH. Qed.

Lemma in_output_dir_inj (resolve : string → string) (a b : string) :
  in_output_dir resolve a = in_output_dir resolve b → a = b.
Proof.
  unfold in_output_dir. by intros ?%string_app_inv_head%string_app_inv_head.
Qed.

Section Publish.
Context {R : Type}.
Variable row_hash : Z → R → Z.
Variable resolve : string → string.

(** The two answers of the change check. *)
Lemma is_data_updated_cases (gdf : GeoDataFrame R) (hash_file : string)
    (fs : gmap string string) :
  (Helpers.is_data_updated row_hash gdf hash_file fs = (false, fs)
   ∧ ∃ stored, fs !! hash_file = Some stored
               ∧ strip stored = Helpers.calculate_gdf_hash row_hash gdf)
  ∨ Helpers.is_data_updated row_hash gdf hash_file fs
    = (true, <[hash_file := Helpers.calculate_gdf_hash row_hash gdf]> fs).
Proof.
  unfold Helpers.is_data_updated.
  destruct (fs !! hash_file) as [stored|]; [|by right].
  destruct (String.eqb_spec (Helpers.calculate_gdf_hash row_hash gdf)
                            (strip stored)); [left|by right].
  split; [done|]. by exists stored.
Qed.

Lemma is_data_updated_stored (gdf : GeoDataFrame R) (hash_file : string)
    (fs : gmap string string) :
  fs !! hash_file = Some (Helpers.calculate_gdf_hash row_hash gdf) →
  Helpers.is_data_updated row_hash gdf hash_file fs = (false, fs).
Proof.
  intros Hfile. unfold Helpers.is_data_updated. rewrite Hfile.
  unfold Helpers.calculate_gdf_hash at 2. rewrite strip_str_of_N.
  fold (Helpers.calculate_gdf_hash row_hash gdf). by rewrite String.eqb_refl.
Qed.

(** The loop writes below [OUTPUT_DIR], the files named in [exts], and
    nothing else. *)
Lemma save_files (to_file : string → GeoDataFrame R → option string)
    (gdf : GeoDataFrame R) (file_name : string)
    (exts : list (string * string)) (fs fs1 : filesystem)
    (o : option failure) :
  save to_file resolve gdf file_name exts fs = (o, fs1) →
  dirs fs1 = dirs fs
  ∧ (∀ p, is_Some (files fs !! p) → is_Some (files fs1 !! p))
  ∧ ∀ p, (∀ suffix, suffix ∈ map fst exts →
                     p ≠ in_output_dir resolve (file_name ++ suffix)) →
         files fs1 !! p = files fs !! p.
Proof.
  revert fs. induction exts as [|[suffix driver] exts IH]; intros fs; simpl.
  - by intros [= _ <-].
  - destruct (to_file driver gdf) as [content|]; [|by intros [= _ <-]].
    intros (Hdirs & Hkeep & Hother)%IH. simpl in *. split_and!.
    + done.
    + intros p Hp. apply Hkeep. apply lookup_insert_is_Some'. by right.
    + intros p Hp. rewrite Hother.
      * apply lookup_insert_ne. intros Heq. eapply Hp; [left|done].
      * intros suffix' Hin. apply Hp. by right.
Qed.

(** What the loop has written when it ends without an exception. *)
Lemma save_Ok (to_file : string → GeoDataFrame R → option string)
    (gdf : GeoDataFrame R) (file_name : string) (fs fs1 : filesystem) :
  save to_file resolve gdf file_name save_exts fs = (None, fs1) →
  ∃ geojson gpkg,
    to_file "GeoJSON" gdf = Some geojson ∧ to_file "GPKG" gdf = Some gpkg
    ∧ fs1 = write_bytes
              (write_bytes fs (in_output_dir resolve (file_name ++ ".geojson"))
                           geojson)
              (in_output_dir resolve (file_name ++ ".gpkg")) gpkg.
Proof.
  simpl. destruct (to_file "GeoJSON" gdf) as [geojson|]; [|done].
  destruct (to_file "GPKG" gdf) as [gpkg|]; [|done].
  intros [= <-]. by exists geojson, gpkg.
Qed.

Lemma hash_file_apart (file_name suffix : string) :
  suffix ∈ map fst save_exts →
  in_output_dir resolve (file_name ++ ".hash")
  ≠ in_output_dir resolve (file_name ++ suffix).
Proof.
  intros Hin Heq%in_output_dir_inj%string_app_inv_head. subst suffix.
  by repeat (apply elem_of_cons in Hin as [?|Hin]; [done|]);
    apply elem_of_nil in Hin.
Qed.

(** After the change check has answered, it answers that nothing has
    changed, also when the writes that followed did not go through. *)
Lemma publish_again (to_file to_file' : string → GeoDataFrame R → option string)
    (gdf : GeoDataFrame R) (file_name : string) (fs fs1 : filesystem)
    (o : option failure) :
  publish row_hash to_file resolve gdf file_name fs = (o, fs1) →
  (o = None ∨ ∃ driver, o = Some (DriverError driver)) →
  publish row_hash to_file' resolve gdf file_name fs1 = (None, fs1).
Proof.
  unfold publish. intros Hrun Ho.
  destruct (is_data_updated_cases gdf
              (in_output_dir resolve (file_name ++ ".hash")) (files fs))
    as [[Hsame _]|Hnew].
  - rewrite Hsame in Hrun. cbn [negb] in Hrun. injection Hrun as <- <-.
    by rewrite Hsame.
  - rewrite Hnew in Hrun. cbn [negb] in Hrun.
    destruct (is_dir fs (resolve OUTPUT_DIR)).
    + apply save_files in Hrun as (_ & _ & Hother).
      rewrite is_data_updated_stored; [done|].
      rewrite Hother; [apply lookup_insert_eq|].
      intros suffix Hin. by apply hash_file_apart.
    + destruct (is_file fs (resolve OUTPUT_DIR)); injection Hrun as <- <-;
        by destruct Ho as [?|[? ?]].
Qed.

(** What [publish] does to the file system. *)
Lemma publish_files (to_file : string → GeoDataFrame R → option string)
    (gdf : GeoDataFrame R) (file_name : string) (fs fs1 : filesystem)
    (o : option failure) :
  publish row_hash to_file resolve gdf file_name fs = (o, fs1) →
  dirs fs1 = dirs fs
  ∧ (∀ p, is_Some (files fs !! p) → is_Some (files fs1 !! p))
  ∧ ∀ p, (∀ suffix, suffix ∈ [".hash"; ".geojson"; ".gpkg"] →
                     p ≠ in_output_dir resolve (file_name ++ suffix)) →
         files fs1 !! p = files fs !! p.
Proof.
  unfold publish. intros Hrun.
  destruct (is_data_updated_cases gdf
              (in_output_dir resolve (file_name ++ ".hash")) (files fs))
    as [[Hsame _]|Hnew].
  - rewrite Hsame in Hrun. cbn [negb] in Hrun. by injection Hrun as <- <-.
  - rewrite Hnew in Hrun. cbn [negb] in Hrun.
    destruct (is_dir fs (resolve OUTPUT_DIR)).
    + apply save_files in Hrun as (Hdirs & Hkeep & Hother). simpl in *.
      split_and!.
      * done.
      * intros p Hp. apply Hkeep, lookup_insert_is_Some'. by right.
      * intros p Hp. rewrite Hother.
        -- apply lookup_insert_ne. intros Heq. eapply Hp; [left|done].
        -- intros suffix Hin. apply Hp. by right.
    + by destruct (is_file fs (resolve OUTPUT_DIR)); injection Hrun as <- <-.
Qed.

Lemma make_output_dir_exists (fs : filesystem) :
  exists_ (make_output_dir resolve fs) (resolve OUTPUT_DIR) = true.
Proof.
  unfold make_output_dir.
  destruct (exists_ fs (resolve OUTPUT_DIR)) eqn:Hex; [done|].
  unfold exists_, is_dir, mkdir. simpl.
  rewrite bool_decide_eq_true_2; [done|set_solver].
Qed.

Lemma make_output_dir_again (fs : filesystem) :
  exists_ fs (resolve OUTPUT_DIR) = true → make_output_dir resolve fs = fs.
Proof. unfold make_output_dir. by intros ->. Qed.

Lemma exists_kept (fs fs1 : filesystem) (p : string) :
  dirs fs1 = dirs fs →
  (∀ p, is_Some (files fs !! p) → is_Some (files fs1 !! p)) →
  exists_ fs p = true → exists_ fs1 p = true.
Proof.
  unfold exists_, is_dir, is_file. intros -> Hkeep.
  intros [Hd|Hf]%orb_true_iff; apply orb_true_iff; [by left|right].
  apply bool_decide_eq_true. apply bool_decide_eq_true in Hf. by apply Hkeep.
Qed.

End Publish.

Section Main.
Context {float64 datetime64 : Type} {pandas : Pandas float64 datetime64}.

(** *** main.py *)

(** X20: a run of main.py that returns makes the next run on the same
    response return without writing anything: the first run has left
    the fingerprint of the data in the hash file. *)
Theorem noe_main_second_run
    (row_hash : Z → Noe.row float64 datetime64 → Z)
    (to_file to_file' : string → GeoDataFrame (Noe.row float64 datetime64)
                        → option string)
    (resolve : string → string) (resp : Noe.response float64)
    (fs fs1 : filesystem) :
  noe_main row_hash to_file resolve resp fs = (None, fs1) →
  noe_main row_hash to_file' resolve resp fs1 = (None, fs1).
Proof.
  unfold noe_main. intros Hrun.
  destruct (Noe.download_noe_geojson resp).1 as [[gdf|]|e]; [|done..].
  pose proof (publish_files _ _ _ _ _ _ _ _ Hrun) as (Hdirs & Hkeep & _).
  rewrite (make_output_dir_again resolve fs1).
  - eapply publish_again; [exact Hrun|by left].
  - eapply exists_kept; [exact Hdirs|exact Hkeep|].
    apply make_output_dir_exists.
Qed.

(** X21: the hash file is written before the outputs.  When a driver
    raises while main.py writes its output, the run ends with that
    exception and the output is not written; the next run on the same
    response, whatever the drivers do by then, finds the fingerprint,
    reports no change and returns without writing: the output stays
    as it was before the first run. *)
Theorem noe_main_failed_write_forgotten
    (row_hash : Z → Noe.row float64 datetime64 → Z)
    (to_file to_file' : string → GeoDataFrame (Noe.row float64 datetime64)
                        → option string)
    (resolve : string → string) (resp : Noe.response float64)
    (fs fs1 : filesystem) (driver : string) :
  noe_main row_hash to_file resolve resp fs = (Some (DriverError driver), fs1) →
  (∃ suffix,
     (suffix, driver) ∈ save_exts
     ∧ files fs1 !! in_output_dir resolve ("windkraftanlagen" ++ suffix)
       = files fs !! in_output_dir resolve ("windkraftanlagen" ++ suffix))
  ∧ noe_main row_hash to_file' resolve resp fs1 = (None, fs1).
Proof.
  unfold noe_main. intros Hrun.
  destruct (Noe.download_noe_geojson resp).1 as [[gdf|]|e]; [|done..].
  split.
  - assert (files (make_output_dir resolve fs) = files fs) as Hfiles.
    { unfold make_output_dir. by destruct (exists_ _ _). }
    revert Hrun. unfold publish.
    destruct (is_data_updated_cases row_hash gdf
                (in_output_dir resolve ("windkraftanlagen" ++ ".hash"))
                (files (make_output_dir resolve fs)))
      as [[-> _]| ->]; simpl; [done|].
    destruct (is_dir _ _).
    2:{ by destruct (is_file _ _). }
    destruct (to_file "GeoJSON" gdf) as [geojson|].
    + destruct (to_file "GPKG" gdf) as [gpkg|]; [done|].
      intros [= <- <-]. exists ".gpkg". split.
      { apply list_elem_of_further, list_elem_of_here. }
      simpl. rewrite Hfiles.
      rewrite lookup_insert_ne by (by intros ?%in_output_dir_inj).
      by rewrite lookup_insert_ne by (by intros ?%in_output_dir_inj).
    + intros [= <- <-]. exists ".geojson". split; [apply list_elem_of_here|].
      simpl. rewrite Hfiles.
      by rewrite lookup_insert_ne by (by intros ?%in_output_dir_inj).
  - pose proof (publish_files _ _ _ _ _ _ _ _ Hrun) as (Hdirs & Hkeep & _).
    rewrite (make_output_dir_again resolve fs1).
    + eapply publish_again; [exact Hrun|right; by exists driver].
    + eapply exists_kept; [exact Hdirs|exact Hkeep|].
      apply make_output_dir_exists.
Qed.

(** X22: what a run of main.py that returns has done: it got a frame,
    and either the hash file held its fingerprint and nothing was
    written, or the run has written three files, the hash file and the
    two outputs, each with what its driver gives for that frame. *)
Theorem noe_main_writes
    (row_hash : Z → Noe.row float64 datetime64 → Z)
    (to_file : string → GeoDataFrame (Noe.row float64 datetime64)
               → option string)
    (resolve : string → string) (resp : Noe.response float64)
    (fs fs1 : filesystem) :
  noe_main row_hash to_file resolve resp fs = (None, fs1) →
  ∃ gdf,
    (Noe.download_noe_geojson resp).1 = Ok (Some gdf)
    ∧ ((fs1 = make_output_dir resolve fs
        ∧ ∃ stored,
            files fs !! in_output_dir resolve "windkraftanlagen.hash"
            = Some stored
            ∧ strip stored = Helpers.calculate_gdf_hash row_hash gdf)
       ∨ ∃ geojson gpkg,
           to_file "GeoJSON" gdf = Some geojson
           ∧ to_file "GPKG" gdf = Some gpkg
           ∧ dirs fs1 = dirs (make_output_dir resolve fs)
           ∧ files fs1
             = <[in_output_dir resolve "windkraftanlagen.gpkg" := gpkg]>
                 (<[in_output_dir resolve "windkraftanlagen.geojson" := geojson]>
                    (<[in_output_dir resolve "windkraftanlagen.hash"
                       := Helpers.calculate_gdf_hash row_hash gdf]>
                       (files fs)))).
Proof.
  unfold noe_main. intros Hrun.
  destruct (Noe.download_noe_geojson resp).1 as [[gdf|]|e]; [|done..].
  exists gdf. split; [done|].
  assert (files (make_output_dir resolve fs) = files fs) as Hfiles.
  { unfold make_output_dir. by destruct (exists_ _ _). }
  revert Hrun. unfold publish.
  destruct (is_data_updated_cases row_hash gdf
              (in_output_dir resolve ("windkraftanlagen" ++ ".hash"))
              (files (make_output_dir resolve fs)))
    as [[-> (stored & Hstored & Hsame)]| ->]; simpl.
  - intros [= <-]. left. split; [done|]. exists stored.
    by rewrite <- Hfiles.
  - destruct (is_dir _ _).
    2:{ by destruct (is_file _ _). }
    intros (geojson & gpkg & Hgeojson & Hgpkg & ->)%save_Ok. right.
    exists geojson, gpkg. split_and!; try done. simpl. by rewrite Hfiles.
Qed.

(** *** download_austro_control.py *)

(** The cache file is none of the three files of the script. *)
Lemma cache_file_apart (resolve : string → string) (ident suffix : string) :
  resolve OUTPUT_DIR ++ "/" ++ "LO_OBS_DS_AREA1_" ++ ident ++ ".xml"
  ≠ in_output_dir resolve ("austro_control_icao" ++ suffix).
Proof. unfold in_output_dir. by intros ?%string_app_inv_head. Qed.

(** X23: a run of download_austro_control.py that gets its frame tries
    to remove the XML file it worked from, and goes on whether or not
    the removal is refused: once [get_austro_control_data] has
    returned, the file it names exists, and at the end of the run it
    is gone when the system let it go and unchanged when the removal
    raised OSError. *)
Theorem austro_control_main_removes_cache
    (row_hash : Z → obstacle float64 * string → Z)
    (to_file : string → GeoDataFrame (obstacle float64 * string)
               → option string)
    (may_unlink : string → bool)
    (w : world) (fs fs1 : filesystem) (o : option failure) :
  austro_control_main row_hash to_file may_unlink w fs = (o, fs1) →
  (∀ e, o ≠ Some (Propagated e)) →
  ∃ gdf f fs' bytes,
    get_austro_control_data w (make_output_dir (AustroControl.resolve w) fs)
      (Some OUTPUT_DIR) 0 false = (Ok (gdf, Some f), fs')
    ∧ files fs' !! f = Some bytes
    ∧ files fs1 !! f = if may_unlink f then None else Some bytes.
Proof.
  unfold austro_control_main. intros Hrun Ho.
  destruct (get_austro_control_data w _ (Some OUTPUT_DIR) 0 false)
    as [[[gdf filename]|e] fs'] eqn:Hget.
  2:{ injection Hrun as <- <-. by destruct (Ho e). }
  pose proof Hget as Hget'. unfold get_austro_control_data in Hget'.
  destruct (select_source w _ (Some OUTPUT_DIR) 0)
    as [[[publication_date url] fn]|] eqn:Hsel; [|done].
  destruct (fetch_source w _ url fn false) as [ac_source fs''] eqn:Hfetch.
  injection Hget' as Hparse ->.
  apply bind_Ok in Hparse as (df_austro & Hparse & [= _ ->]).
  destruct ac_source as [bytes|]; [|done].
  apply AustroControlFetch.select_source_Ok in Hsel
    as (_ & _ & _ & _ & ident & ->).
  set (f := (AustroControl.resolve w OUTPUT_DIR ++ "/" ++ "LO_OBS_DS_AREA1_"
             ++ ident ++ ".xml")%string) in *.
  assert (files fs' !! f = Some bytes) as Hfile.
  { unfold fetch_source, must_download in Hfetch.
    destruct (negb (is_file _ _) || false) eqn:Hmust.
    - destruct (download w url) as [ac_source|]; [|done].
      injection Hfetch as -> <-. simpl. apply lookup_insert_eq.
    - injection Hfetch as Hread <-. exact Hread. }
  exists gdf, f, fs', bytes. split_and!; [reflexivity|exact Hfile|].
  assert (is_file fs' f = true) as Hthere.
  { unfold is_file. apply bool_decide_eq_true_2. rewrite Hfile. eauto. }
  rewrite Hthere in Hrun. unfold unlink in Hrun.
  apply publish_files in Hrun as (_ & _ & Hother).
  rewrite Hother by (intros suffix _; apply cache_file_apart).
  destruct (may_unlink f); simpl; [apply lookup_delete_eq|exact Hfile].
Qed.

(** A call that finds no file in [data_path] downloads one and writes
    it there. *)
Lemma get_austro_control_data_fresh (w : world) (fs fs' : filesystem)
    (d publication_date url f : string)
    (r : result (GeoDataFrame (obstacle float64 * string) * option string)) :
  select_source w fs (Some d) 0 = Ok (publication_date, url, Some f) →
  files fs !! f = None →
  get_austro_control_data w fs (Some d) 0 false = (r, fs') →
  (download w url = None ∧ r = Raise TypeError ∧ fs' = fs)
  ∨ ∃ bytes,
      download w url = Some bytes
      ∧ fs' = write_bytes fs f bytes
      ∧ r = (df_austro ← parse_icao (xml_parser w) (Some bytes);
             mret (with_publication_date publication_date df_austro, Some f)).
Proof.
  intros Hsel Hnone. unfold get_austro_control_data, fetch_source.
  rewrite Hsel. unfold must_download, is_file.
  rewrite bool_decide_eq_false_2 by (rewrite Hnone; by intros [? ?]).
  simpl. destruct (download w url) as [bytes|].
  - intros [= <- <-]. right. by exists bytes.
  - intros [= <- <-]. by left.
Qed.

(** A call that finds the file reads it, and touches nothing. *)
Lemma get_austro_control_data_found (w : world) (fs : filesystem)
    (d publication_date url f bytes : string) :
  select_source w fs (Some d) 0 = Ok (publication_date, url, Some f) →
  files fs !! f = Some bytes →
  get_austro_control_data w fs (Some d) 0 false
  = (df_austro ← parse_icao (xml_parser w) (Some bytes);
     mret (with_publication_date publication_date df_austro, Some f),
     fs).
Proof.
  intros Hsel Hfile.
  unfold get_austro_control_data, fetch_source, must_download, is_file.
  rewrite Hsel, Hfile. by rewrite bool_decide_eq_true_2.
Qed.

(** Removing a file that was just written where there was none gives
    the file system of before. *)
Lemma unlink_written (fs : filesystem) (f bytes : string) :
  files fs !! f = None →
  mkFs (delete f (files (write_bytes fs f bytes))) (dirs (write_bytes fs f bytes))
  = fs.
Proof.
  intros Hnone. simpl. rewrite delete_insert_id by done. by destruct fs.
Qed.

(** X24: an XML file that does not parse stays.  When the run downloads
    a document that [parse_icao] rejects, the script ends with the
    exception of the parser, after the document has been written to
    [data]; every later run finds the file, reads it and ends with the
    same exception, without asking for the archive again. *)
Theorem austro_control_main_bad_xml
    (row_hash row_hash' : Z → obstacle float64 * string → Z)
    (to_file to_file' : string → GeoDataFrame (obstacle float64 * string)
                        → option string)
    (may_unlink may_unlink' : string → bool)
    (w w' : world) (fs : filesystem)
    (publication_date url f bytes : string) (e : exn) :
  select_source w (make_output_dir (AustroControl.resolve w) fs)
    (Some OUTPUT_DIR) 0 = Ok (publication_date, url, Some f) →
  files fs !! f = None →
  download w url = Some bytes →
  parse_icao (xml_parser w) (Some bytes) = Raise e →
  catalog w' = catalog w → AustroControl.resolve w' = AustroControl.resolve w →
  xml_parser w' = xml_parser w →
  ∃ fs1,
    austro_control_main row_hash to_file may_unlink w fs
    = (Some (Propagated e), fs1)
    ∧ files fs1 !! f = Some bytes
    ∧ austro_control_main row_hash' to_file' may_unlink' w' fs1
      = (Some (Propagated e), fs1).
Proof.
  intros Hsel Hnone Hdown Hparse Hc Hr Hx.
  set (fs0 := make_output_dir (AustroControl.resolve w) fs) in *.
  assert (files fs0 = files fs) as Hfiles.
  { subst fs0. unfold make_output_dir. by destruct (exists_ _ _). }
  exists (write_bytes fs0 f bytes). split_and!.
  - unfold austro_control_main. fold fs0.
    unfold get_austro_control_data, fetch_source, must_download, is_file.
    rewrite Hsel, Hfiles.
    rewrite bool_decide_eq_false_2 by (rewrite Hnone; by intros [? ?]).
    simpl. by rewrite Hdown, Hparse.
  - simpl. apply lookup_insert_eq.
  - unfold austro_control_main. rewrite Hr.
    rewrite make_output_dir_again.
    2:{ eapply (exists_kept fs0); [done| |apply make_output_dir_exists].
        intros p Hp. simpl. apply lookup_insert_is_Some'. by right. }
    unfold get_austro_control_data, fetch_source, must_download, is_file.
    rewrite (AustroControlFetch.select_source_ext w w' fs0
               (write_bytes fs0 f bytes) (Some OUTPUT_DIR) 0 Hc Hr eq_refl).
    rewrite Hsel, Hx. simpl. rewrite lookup_insert_eq.
    rewrite bool_decide_eq_true_2 by eauto. simpl. by rewrite Hparse.
Qed.

(** X25: a run of download_austro_control.py that starts without an XML
    file in [data] and returns makes the next run, in which the system
    lets the same files go, return without changing anything.  When
    the XML file was removed, the next run downloads the archive again,
    finds the fingerprint of its frame in the hash file and removes
    the XML file it wrote; when the removal was refused, the next run
    reads the file that stayed, finds the fingerprint and leaves the
    file where it is. *)
Theorem austro_control_main_second_run
    (row_hash : Z → obstacle float64 * string → Z)
    (to_file to_file' : string → GeoDataFrame (obstacle float64 * string)
                        → option string)
    (may_unlink : string → bool)
    (w : world) (fs fs1 : filesystem) :
  (∀ ident,
     files fs !! (AustroControl.resolve w OUTPUT_DIR ++ "/"
                  ++ "LO_OBS_DS_AREA1_" ++ ident ++ ".xml") = None) →
  austro_control_main row_hash to_file may_unlink w fs = (None, fs1) →
  austro_control_main row_hash to_file' may_unlink w fs1 = (None, fs1).
Proof.
  intros Hnone Hrun. unfold austro_control_main in Hrun.
  set (fs0 := make_output_dir (AustroControl.resolve w) fs) in *.
  assert (files fs0 = files fs) as Hfiles.
  { subst fs0. unfold make_output_dir. by destruct (exists_ _ _). }
  destruct (get_austro_control_data w fs0 (Some OUTPUT_DIR) 0 false)
    as [[[gdf filename]|e] fs'] eqn:Hget; [|done].
  destruct (select_source w fs0 (Some OUTPUT_DIR) 0)
    as [[[publication_date url] fn]|e] eqn:Hsel.
  2:{ unfold get_austro_control_data in Hget. by rewrite Hsel in Hget. }
  pose proof Hsel as (_ & _ & _ & _ & ident & ->)
    %AustroControlFetch.select_source_Ok.
  set (f := (AustroControl.resolve w OUTPUT_DIR ++ "/" ++ "LO_OBS_DS_AREA1_"
             ++ ident ++ ".xml")%string) in *.
  assert (files fs0 !! f = None) as Hnone0 by (rewrite Hfiles; apply Hnone).
  destruct (get_austro_control_data_fresh w fs0 fs' _ _ _ _ _ Hsel Hnone0 Hget)
    as [(_ & ? & _)|(bytes & Hdown & Hfs' & Hresult)]; [done|].
  destruct (parse_icao (xml_parser w) (Some bytes)) as [df_austro|] eqn:Hparse;
    [|done].
  injection Hresult as -> ->.
  assert (is_file fs' f = true) as Hfile.
  { rewrite Hfs'. unfold is_file. simpl.
    apply bool_decide_eq_true_2. rewrite lookup_insert_eq. eauto. }
  rewrite Hfile in Hrun. unfold unlink in Hrun.
  unfold austro_control_main.
  destruct (may_unlink f) eqn:Hmay; cbn [default] in Hrun.
  - (* the file was removed *)
    rewrite Hfs', (unlink_written fs0 f bytes Hnone0) in Hrun.
    pose proof (publish_files _ _ _ _ _ _ _ _ Hrun) as (Hdirs & Hkeep & Hother).
    rewrite make_output_dir_again.
    2:{ eapply (exists_kept fs0); [done|done|apply make_output_dir_exists]. }
    assert (files fs1 !! f = None) as Hnone1.
    { rewrite Hother; [done|]. intros suffix _. apply cache_file_apart. }
    assert (select_source w fs1 (Some OUTPUT_DIR) 0
            = Ok (publication_date, url, Some f)) as Hsel1.
    { by rewrite (AustroControlFetch.select_source_ext w w fs0 fs1
                    (Some OUTPUT_DIR) 0 eq_refl eq_refl Hdirs). }
    destruct (get_austro_control_data w fs1 (Some OUTPUT_DIR) 0 false)
      as [r fs1'] eqn:Hget1.
    destruct (get_austro_control_data_fresh w fs1 fs1' _ _ _ _ _
                Hsel1 Hnone1 Hget1)
      as [(Hno & _)|(bytes' & Hdown' & Hfs1' & ->)]; [congruence|].
    rewrite Hdown in Hdown'. injection Hdown' as <-.
    rewrite Hparse. simpl.
    assert (is_file fs1' f = true) as ->.
    { rewrite Hfs1'. unfold is_file. simpl.
      apply bool_decide_eq_true_2. rewrite lookup_insert_eq. eauto. }
    unfold unlink. rewrite Hmay. cbn [default].
    rewrite Hfs1', (unlink_written fs1 f bytes Hnone1).
    eapply publish_again; [exact Hrun|by left].
  - (* the removal was refused: the file stays *)
    pose proof (publish_files _ _ _ _ _ _ _ _ Hrun) as (Hdirs & Hkeep & Hother).
    assert (dirs fs' = dirs fs0) as Hdirs' by (by rewrite Hfs').
    rewrite make_output_dir_again.
    2:{ eapply (exists_kept fs'); [done|done|].
        eapply (exists_kept fs0); [done| |apply make_output_dir_exists].
        intros p Hp. rewrite Hfs'. simpl.
        apply lookup_insert_is_Some'. by right. }
    assert (files fs1 !! f = Some bytes) as Hstays.
    { rewrite Hother by (intros suffix _; apply cache_file_apart).
      rewrite Hfs'. simpl. apply lookup_insert_eq. }
    assert (select_source w fs1 (Some OUTPUT_DIR) 0
            = Ok (publication_date, url, Some f)) as Hsel1.
    { rewrite (AustroControlFetch.select_source_ext w w fs0 fs1
                 (Some OUTPUT_DIR) 0 eq_refl eq_refl); [done|].
      by rewrite Hdirs. }
    rewrite (get_austro_control_data_found w fs1 _ _ _ _ _ Hsel1 Hstays).
    rewrite Hparse. simpl.
    assert (is_file fs1 f = true) as ->.
    { unfold is_file. apply bool_decide_eq_true_2. rewrite Hstays. eauto. }
    unfold unlink. rewrite Hmay. cbn [default].
    eapply publish_again; [exact Hrun|by left].
Qed.

End Main.

Lemma noe_main_second_run_witness :
  ∃ fs1,
    noe_main (pandas := Reference.pandas) MoreFixtures.label_hash
      MoreFixtures.writes_all MoreFixtures.under_work
      (Noe.FeatureCollection Fixtures.two_permits) MoreFixtures.empty_disk
    = (None, fs1)
    ∧ noe_main (pandas := Reference.pandas) MoreFixtures.label_hash
        MoreFixtures.gpkg_fails MoreFixtures.under_work
        (Noe.FeatureCollection Fixtures.two_permits) fs1
      = (None, fs1).
Proof.
  destruct (noe_main (pandas := Reference.pandas) MoreFixtures.label_hash
              MoreFixtures.writes_all MoreFixtures.under_work
              (Noe.FeatureCollection Fixtures.two_permits)
              MoreFixtures.empty_disk) as [[failed|] fs1] eqn:Hrun.
  { exfalso. vm_compute in Hrun. discriminate Hrun. }
  exists fs1. split; [reflexivity|].
  exact (noe_main_second_run (pandas := Reference.pandas) _ _ _ _ _ _ _ Hrun).
Defined.

Lemma noe_main_failed_write_forgotten_witness :
  ∃ fs1,
    noe_main (pandas := Reference.pandas) MoreFixtures.label_hash
      MoreFixtures.gpkg_fails MoreFixtures.under_work
      (Noe.FeatureCollection Fixtures.two_permits) MoreFixtures.empty_disk
    = (Some (DriverError "GPKG"), fs1)
    ∧ noe_main (pandas := Reference.pandas) MoreFixtures.label_hash
        MoreFixtures.writes_all MoreFixtures.under_work
        (Noe.FeatureCollection Fixtures.two_permits) fs1
      = (None, fs1).
Proof.
  destruct (noe_main (pandas := Reference.pandas) MoreFixtures.label_hash
              MoreFixtures.gpkg_fails MoreFixtures.under_work
              (Noe.FeatureCollection Fixtures.two_permits)
              MoreFixtures.empty_disk) as [o fs1] eqn:Hrun.
  assert (o = Some (DriverError "GPKG")) as ->.
  { vm_compute in Hrun. injection Hrun as <- _. reflexivity. }
  exists fs1. split; [reflexivity|].
  exact (proj2 (noe_main_failed_write_forgotten (pandas := Reference.pandas)
                  _ _ _ _ _ _ _ _ Hrun)).
Defined.

Lemma noe_main_writes_witness :
  ∃ fs1 gdf,
    noe_main (pandas := Reference.pandas) MoreFixtures.label_hash
      MoreFixtures.writes_all MoreFixtures.under_work
      (Noe.FeatureCollection Fixtures.two_permits) MoreFixtures.empty_disk
    = (None, fs1)
    ∧ (Noe.download_noe_geojson (pandas := Reference.pandas)
         (Noe.FeatureCollection Fixtures.two_permits)).1 = Ok (Some gdf).
Proof.
  destruct (noe_main (pandas := Reference.pandas) MoreFixtures.label_hash
              MoreFixtures.writes_all MoreFixtures.under_work
              (Noe.FeatureCollection Fixtures.two_permits)
              MoreFixtures.empty_disk) as [[failed|] fs1] eqn:Hrun.
  { exfalso. vm_compute in Hrun. discriminate Hrun. }
  destruct (noe_main_writes (pandas := Reference.pandas) _ _ _ _ _ _ Hrun)
    as (gdf & Hgdf & _).
  exists fs1, gdf. split; [reflexivity|exact Hgdf].
Defined.

Lemma austro_control_main_removes_cache_witness :
  ∃ fs1 f,
    austro_control_main (pandas := Reference.pandas) MoreFixtures.label_hash
      MoreFixtures.writes_all (fun _ => true) (Fixtures.online (Some "PK-one"))
      MoreFixtures.empty_disk = (None, fs1)
    ∧ files fs1 !! f = None.
Proof.
  destruct (austro_control_main (pandas := Reference.pandas)
              MoreFixtures.label_hash MoreFixtures.writes_all (fun _ => true)
              (Fixtures.online (Some "PK-one")) MoreFixtures.empty_disk)
    as [[failed|] fs1] eqn:Hrun.
  { exfalso. vm_compute in Hrun. discriminate Hrun. }
  destruct (austro_control_main_removes_cache (pandas := Reference.pandas)
              _ _ _ _ _ _ _ Hrun) as (gdf & f & fs' & bytes & _ & _ & Hgone).
  { intros e. discriminate. }
  exists fs1, f. split; [reflexivity|exact Hgone].
Defined.

Lemma austro_control_main_bad_xml_witness :
  ∃ fs1,
    austro_control_main (pandas := Reference.pandas) MoreFixtures.label_hash
      MoreFixtures.writes_all (fun _ => true) MoreFixtures.broken_xml
      MoreFixtures.empty_disk
    = (Some (Propagated ParseError), fs1)
    ∧ files fs1 !! "data/LO_OBS_DS_AREA1_20240613.xml" = Some "<xml/>"
    ∧ austro_control_main (pandas := Reference.pandas) MoreFixtures.label_hash
        MoreFixtures.writes_all (fun _ => true) MoreFixtures.broken_xml fs1
      = (Some (Propagated ParseError), fs1).
Proof.
  apply (austro_control_main_bad_xml (pandas := Reference.pandas)
           MoreFixtures.label_hash MoreFixtures.label_hash
           MoreFixtures.writes_all MoreFixtures.writes_all
           (fun _ => true) (fun _ => true)
           MoreFixtures.broken_xml MoreFixtures.broken_xml
           MoreFixtures.empty_disk "20240613" Fixtures.archive_url
           "data/LO_OBS_DS_AREA1_20240613.xml" "<xml/>" ParseError).
  - vm_compute. reflexivity.
  - reflexivity.
  - vm_compute. reflexivity.
  - reflexivity.
  - reflexivity.
  - reflexivity.
  - reflexivity.
Defined.

Lemma austro_control_main_second_run_witness :
  ∃ fs1,
    austro_control_main (pandas := Reference.pandas) MoreFixtures.label_hash
      MoreFixtures.writes_all (fun _ => false)
      (Fixtures.online (Some "PK-one")) MoreFixtures.empty_disk = (None, fs1)
    ∧ austro_control_main (pandas := Reference.pandas) MoreFixtures.label_hash
        MoreFixtures.gpkg_fails (fun _ => false)
        (Fixtures.online (Some "PK-one")) fs1
      = (None, fs1).
Proof.
  destruct (austro_control_main (pandas := Reference.pandas)
              MoreFixtures.label_hash MoreFixtures.writes_all (fun _ => false)
              (Fixtures.online (Some "PK-one")) MoreFixtures.empty_disk)
    as [[failed|] fs1] eqn:Hrun.
  { exfalso. vm_compute in Hrun. discriminate Hrun. }
  exists fs1. split; [reflexivity|].
  apply (austro_control_main_second_run (pandas := Reference.pandas)
           MoreFixtures.label_hash MoreFixtures.writes_all
           MoreFixtures.gpkg_fails (fun _ => false)
           (Fixtures.online (Some "PK-one")) MoreFixtures.empty_disk fs1).
  - intros ident. apply lookup_empty.
  - exact Hrun.
Defined.

(** A run in which the XML file cannot be removed leaves it in [data],
    next to the three files of the script. *)
Example austro_control_main_unlink_refused :
  (fun run => (run.1,
               files run.2 !! "data/LO_OBS_DS_AREA1_20240613.xml",
               files run.2 !! "data/austro_control_icao.gpkg"))
    (austro_control_main (pandas := Reference.pandas) MoreFixtures.label_hash
       MoreFixtures.writes_all (fun _ => false)
       (Fixtures.online (Some "PK-one")) MoreFixtures.empty_disk)
  = (None, Some "<xml/>", Some "GPKG").
Proof. vm_compute. reflexivity. Qed.

(** A first run of main.py on an empty disk: the directory, the
    fingerprint and the two outputs. *)
Example noe_main_first_run :
  (fun run => (run.1, is_dir run.2 "/work/data",
               files run.2 !! "/work/data/windkraftanlagen.hash",
               files run.2 !! "/work/data/windkraftanlagen.geojson",
               files run.2 !! "/work/data/windkraftanlagen.gpkg"))
    (noe_main (pandas := Reference.pandas) MoreFixtures.label_hash
       MoreFixtures.writes_all MoreFixtures.under_work
       (Noe.FeatureCollection Fixtures.two_permits) MoreFixtures.empty_disk)
  = (None, true, Some "9", Some "GeoJSON", Some "GPKG").
Proof. vm_compute. reflexivity. Qed.

End ScriptsSpec.
